(** * Superstore analysis agent: tool dispatcher, agent loops and tools

    A shallow embedding of [src/agent_patterns.py] (the dispatcher [call_tool],
    the structured function-calling loop [enterprise_agent], the two-step
    loop [enterprise_agent_new] with its parser [call_tool_two_step]) and of
    [src/tools.py] ([data_summary], [automated_eda], [check_for_outliers]).

    Python code is embedded as state-passing functions in a state-and-exception
    monad; the model client, pandas' [describe] and the matplotlib renderers
    are collaborators outside the repository and are taken as parameters.
    Floating-point numbers are IEEE 754 binary64. *)

From Stdlib Require Import ZArith String Ascii List Lia Permutation SpecFloat.
From stdpp Require Import base strings gmap list pretty.

Open Scope string_scope.
Set Warnings "-register-all".

(** ** IEEE 754 binary64

    Python's [float] and numpy's [float64], on the Standard Library's
    specification of binary floating-point arithmetic: every operation
    rounds to nearest, ties to even. *)

Module F64.

Definition prec : Z := 53.
Definition emax : Z := 1024.

Definition float64 : Type := spec_float.

Definition nan : float64 := S754_nan.

Definition add : float64 -> float64 -> float64 := SFadd prec emax.
Definition sub : float64 -> float64 -> float64 := SFsub prec emax.
Definition mul : float64 -> float64 -> float64 := SFmul prec emax.
Definition div : float64 -> float64 -> float64 := SFdiv prec emax.

(** [x < y], [x <= y] and [x == y]: false as soon as an operand is NaN. *)
Definition ltb : float64 -> float64 -> bool := SFltb.
Definition leb : float64 -> float64 -> bool := SFleb.
Definition eqb : float64 -> float64 -> bool := SFeqb.

Definition is_nan (x : float64) : bool :=
  match x with
  | S754_nan => true
  | _ => false
  end.

(** Neither NaN nor an infinity. *)
Definition is_finite (x : float64) : bool :=
  match x with
  | S754_zero _ | S754_finite _ _ _ => true
  | _ => false
  end.

(** [0.0] or [-0.0]. *)
Definition is_zero (x : float64) : bool :=
  match x with
  | S754_zero _ => true
  | _ => false
  end.

(** A finite number other than [-0.0]. *)
Definition plain (v : float64) : Prop := is_finite v = true /\ v <> S754_zero true.

(** The binary64 nearest to [m * 2^e]. *)
Definition of_dyadic (m e : Z) : float64 := binary_normalize prec emax m e false.

(** [float(z)], and numpy's cast of an [int64] to [float64]. *)
Definition of_Z (z : Z) : float64 := of_dyadic z 0.

Definition half : float64 := of_dyadic 1 (-1).
Definition one : float64 := of_Z 1.
Definition one_and_half : float64 := of_dyadic 3 (-1).
Definition hundred : float64 := of_Z 100.

(** An integer as a mantissa of its own, not rounded. *)
Definition exact_Z (z : Z) : float64 :=
  match z with
  | Z0 => S754_zero false
  | Zpos p => S754_finite false p 0
  | Zneg p => S754_finite true p 0
  end.

(** [a / b] on two Python integers, [b] not 0: the quotient of the
    integers, rounded once. *)
Definition int_true_divide (a b : Z) : float64 := div (exact_Z a) (exact_Z b).

(** [n / d] rounded to the nearest integer, ties to even ([d] positive). *)
Definition half_even (n d : Z) : Z :=
  let q := (n / d)%Z in
  let r := (n mod d)%Z in
  match (2 * r ?= d)%Z with
  | Lt => q
  | Gt => (q + 1)%Z
  | Eq => if Z.even q then q else (q + 1)%Z
  end.

(** C's [rint] in the default rounding mode, numpy's [np.rint]. *)
Definition rint (x : float64) : float64 :=
  match x with
  | S754_finite s m e =>
      if (0 <=? e)%Z then x
      else match half_even (Zpos m) (2 ^ (- e)) with
           | Z0 => S754_zero s
           | n => binary_normalize prec emax (if s then (- n)%Z else n) 0 s
           end
  | _ => x
  end.

(** [round(x, 2)] on a numpy [float64] scalar, which is [np.round]:
    multiply by [100.0], [rint], divide by [100.0]. *)
Definition np_round2 (x : float64) : float64 := div (rint (mul x hundred)) hundred.

(** [round(x, 2)] on a Python [float]: the exact value of [x] rounded to
    hundredths, ties to even, and the binary64 nearest to that decimal. *)
Definition py_round2 (x : float64) : float64 :=
  match x with
  | S754_finite s m e =>
      let n := if (0 <=? e)%Z then (Zpos m * 2 ^ e * 100)%Z
               else half_even (Zpos m * 100) (2 ^ (- e)) in
      match n with
      | Zpos p => div (S754_finite s p 0) (exact_Z 100)
      | _ => S754_zero s
      end
  | _ => x
  end.

(** [np.floor(x).astype(np.intp)] on a finite [x]. *)
Definition floor_Z (x : float64) : Z :=
  match x with
  | S754_finite s m e =>
      let z := if s then Zneg m else Zpos m in
      if (0 <=? e)%Z then (z * 2 ^ e)%Z else (z / 2 ^ (- e))%Z
  | _ => 0%Z
  end.

(** The same float, bit for bit. *)
Definition identical (x y : float64) : bool :=
  match x, y with
  | S754_zero a, S754_zero b => Bool.eqb a b
  | S754_infinity a, S754_infinity b => Bool.eqb a b
  | S754_nan, S754_nan => true
  | S754_finite a m e, S754_finite b m' e' => Bool.eqb a b && Pos.eqb m m' && Z.eqb e e'
  | _, _ => false
  end.

(** The binary64 a decimal literal [n * 10^-d] denotes ([n] and [10^d]
    below 2^53). *)
Definition of_decimal (n : Z) (d : Z) : float64 := div (of_Z n) (of_Z (10 ^ d)).

End F64.

(** ** Python values, exceptions and string primitives *)

Module Py.

(** Values that travel between the model, the dispatcher and the tools:
    JSON-like data. *)
Inductive PyVal : Type :=
| VNone
| VBool (b : bool)
| VInt (z : Z)
| VFloat (x : F64.float64)
| VStr (s : string)
| VList (l : list PyVal)
| VDict (d : list (PyVal * PyVal)).

(** An exception instance (a subclass of [Exception]): class name and [str(e)]. *)
Record Exn : Type := MkExn { exn_class : string; exn_str : string }.

Inductive PyResult (A : Type) : Type :=
| Returned (a : A)
| Raised (e : Exn).
Arguments Returned {A} a.
Arguments Raised {A} e.

(** [{"error": msg}] *)
Definition error_dict (msg : string) : PyVal := VDict [(VStr "error", VStr msg)].

(** State-and-exception monad: a Python computation over a store [S]. *)
Definition M (S A : Type) : Type := S -> PyResult A * S.

Definition ret {S A} (a : A) : M S A := fun s => (Returned a, s).

Definition raise {S A} (e : Exn) : M S A := fun s => (Raised e, s).

Definition bind {S A B} (m : M S A) (k : A -> M S B) : M S B :=
  fun s => match m s with
           | (Returned a, s') => k a s'
           | (Raised e, s') => (Raised e, s')
           end.

(** [try: m / except Exception as e: ...] with the outcome reified. *)
Definition attempt {S A} (m : M S A) : M S (PyResult A) :=
  fun s => let '(r, s') := m s in (Returned r, s').

Definition gets {S A} (f : S -> A) : M S A := fun s => (Returned (f s), s).

Definition modify {S} (f : S -> S) : M S unit := fun s => (Returned tt, f s).

(** A pure library call that may raise. *)
Definition lift {S A} (r : PyResult A) : M S A := fun s => (r, s).

Declare Scope py_scope.
Delimit Scope py_scope with py.
Notation "x <- m ;; k" := (bind m (fun x => k))
  (at level 20, m at level 99, k at level 200, only parsing) : py_scope.
Notation "m ;; k" := (bind m (fun _ => k))
  (at level 100, k at level 200, right associativity, only parsing) : py_scope.

(** *** Characters *)

Definition newline : ascii := ascii_of_nat 10.
Definition dquote : ascii := ascii_of_nat 34.
Definition nl : string := String newline EmptyString.

(** [str.isspace] on the code points below 256. *)
Definition is_space (c : ascii) : bool :=
  let n := nat_of_ascii c in
  (((9 <=? n) && (n <=? 13)) || ((28 <=? n) && (n <=? 32))
   || (n =? 133) || (n =? 160))%nat.

(** *** [str] methods *)

Fixpoint lstrip (s : string) : string :=
  match s with
  | EmptyString => EmptyString
  | String c r => if is_space c then lstrip r else s
  end.

Fixpoint rstrip (s : string) : string :=
  match s with
  | EmptyString => EmptyString
  | String c r =>
      match rstrip r with
      | EmptyString => if is_space c then EmptyString else String c EmptyString
      | r' => String c r'
      end
  end.

(** [s.strip()] *)
Definition strip (s : string) : string := rstrip (lstrip s).

(** [s.startswith(p)] *)
Fixpoint startswith (p s : string) : bool :=
  match p, s with
  | EmptyString, _ => true
  | String a p', String b s' => Ascii.eqb a b && startswith p' s'
  | String _ _, EmptyString => false
  end.

(** [c in s] for a one-character [c] *)
Fixpoint contains (c : ascii) (s : string) : bool :=
  match s with
  | EmptyString => false
  | String b r => Ascii.eqb c b || contains c r
  end.

(** [s.replace(c, '')] for a one-character [c] *)
Fixpoint remove_char (c : ascii) (s : string) : string :=
  match s with
  | EmptyString => EmptyString
  | String b r => if Ascii.eqb c b then remove_char c r else String b (remove_char c r)
  end.

(** [s[:n]] *)
Fixpoint take_prefix (n : N) (s : string) : string :=
  match s with
  | EmptyString => EmptyString
  | String c r => if N.eqb n 0 then EmptyString else String c (take_prefix (N.pred n) r)
  end.

(** [s.split(sep, maxsplit)] for a non-empty [sep]: [budget] is [None] when
    [maxsplit] is not given. [skip] counts the characters of a separator
    still to be consumed, [cur] is the piece being read. *)
Fixpoint split_go (sep : string) (budget : option nat) (skip : nat)
    (cur s : string) : list string :=
  match s with
  | EmptyString => [cur]
  | String c r =>
      match skip with
      | S k => split_go sep budget k cur r
      | O =>
          let allowed := match budget with Some O => false | _ => true end in
          if allowed && startswith sep s
          then cur :: split_go sep (Nat.pred <$> budget) (String.length sep - 1) EmptyString r
          else split_go sep budget 0 (cur ++ String c EmptyString) r
      end
  end.

(** [s.split(sep)] *)
Definition split (sep s : string) : list string := split_go sep None 0 EmptyString s.

(** [s.split(sep, 1)] *)
Definition split1 (sep s : string) : list string := split_go sep (Some 1) 0 EmptyString s.

(** *** [re.search(r'\((.*?)\)', s)]

    The leftmost ["("] from which a [")"] is reached without crossing a
    newline; the group is what lies between, up to the first [")"]. *)
Fixpoint until_close (s : string) : option string :=
  match s with
  | EmptyString => None
  | String c r =>
      if Ascii.eqb c ")" then Some EmptyString
      else if Ascii.eqb c newline then None
      else String c <$> until_close r
  end.

Fixpoint re_search_paren (s : string) : option string :=
  match s with
  | EmptyString => None
  | String c r =>
      if Ascii.eqb c "("
      then match until_close r with
           | Some g => Some g
           | None => re_search_paren r
           end
      else re_search_paren r
  end.

(** The two [replace] calls of the text-convention parser: both quote
    characters removed. *)
Definition unquote (s : string) : string :=
  remove_char dquote (remove_char "'" s).

End Py.

(** ** The analysis tools ([src/tools.py]) *)

Module Tools.
Import Py F64.

(** A pandas column: [int64], [float64] (a missing number is NaN),
    [object] or [category] (strings; [None] is a missing entry). Other
    dtypes are outside this model. *)
Inductive Column : Type :=
| IntCol (vals : list Z)
| FloatCol (vals : list float64)
| ObjCol (vals : list (option string))
| CatCol (vals : list (option string)).

(** A DataFrame with a default [RangeIndex] and distinct column labels:
    [nrows] is [len(df)], every column holds [nrows] cells. *)
Record Frame : Type := MkFrame { nrows : nat; cols : list (string * Column) }.

Definition column_len (c : Column) : nat :=
  match c with
  | IntCol vs => length vs
  | FloatCol vs => length vs
  | ObjCol vs => length vs
  | CatCol vs => length vs
  end.

(** [df.columns] *)
Definition columns (f : Frame) : list string := map fst (cols f).

(** [df[name]] *)
Fixpoint lookup_col (name : string) (cs : list (string * Column)) : option Column :=
  match cs with
  | [] => None
  | (n, c) :: r => if String.eqb name n then Some c else lookup_col name r
  end.

(** [df.empty]: some axis has length 0. *)
Definition empty (f : Frame) : bool :=
  (nrows f =? 0)%nat || (length (cols f) =? 0)%nat.

(** [str(dtype)] *)
Definition dtype_name (c : Column) : string :=
  match c with
  | IntCol _ => "int64"
  | FloatCol _ => "float64"
  | ObjCol _ => "object"
  | CatCol _ => "category"
  end.

(** The values of a numeric Series. *)
Inductive Series : Type :=
| Int64 (vals : list Z)
| Float64 (vals : list float64).

(** [pd.api.types.is_numeric_dtype], with the values when it holds. *)
Definition numeric_values (c : Column) : option Series :=
  match c with
  | IntCol vs => Some (Int64 vs)
  | FloatCol vs => Some (Float64 vs)
  | ObjCol _ | CatCol _ => None
  end.

Definition series_len (s : Series) : nat :=
  match s with
  | Int64 vs => length vs
  | Float64 vs => length vs
  end.

(** [series.isnull().sum()] *)
Definition count_null (c : Column) : nat :=
  match c with
  | IntCol _ => 0
  | FloatCol vs => length (filter (fun x => is_nan x = true) vs)
  | ObjCol vs => length (filter (fun x => x = None) vs)
  | CatCol vs => length (filter (fun x => x = None) vs)
  end.

(** A string cell as a Python value; a missing one is NaN. *)
Definition obj_value (x : option string) : PyVal :=
  match x with
  | Some s => VStr s
  | None => VFloat nan
  end.

(** The cell of row [i] as a Python value. *)
Definition cell (c : Column) (i : nat) : PyVal :=
  match c with
  | IntCol vs => match vs !! i with Some z => VInt z | None => VNone end
  | FloatCol vs => match vs !! i with Some x => VFloat x | None => VNone end
  | ObjCol vs | CatCol vs => match vs !! i with Some x => obj_value x | None => VNone end
  end.

(** [series.unique()]: distinct entries in order of first appearance,
    a missing entry included. *)
Fixpoint unique (vs : list (option string)) : list (option string) :=
  match vs with
  | [] => []
  | x :: r => x :: filter (fun y => y <> x) (unique r)
  end.

(** [series.nunique()]: distinct entries, missing ones not counted. *)
Definition nunique (vs : list (option string)) : nat :=
  length (filter (fun x => x <> None) (unique vs)).

Definition MAX_UNIQUE_SAMPLES : nat := 50.

(** The values of a column the loop of [data_summary] looks at: its
    dtype is [object], or is named [category]. *)
Definition categorical_values (c : Column) : option (list (option string)) :=
  match c with
  | ObjCol vs | CatCol vs => Some vs
  | IntCol _ | FloatCol _ => None
  end.

(** What one column adds to [categorical_samples]. *)
Definition categorical_entry (vs : list (option string)) : option PyVal :=
  let unique_count := nunique vs in
  if (0 <? unique_count)%nat && (unique_count <=? MAX_UNIQUE_SAMPLES)%nat
  then Some (VDict [(VStr "unique_count", VInt (Z.of_nat unique_count));
                    (VStr "sample_values", VList (map obj_value (unique vs)))])
  else if (MAX_UNIQUE_SAMPLES <? unique_count)%nat
  then Some (VDict [(VStr "unique_count", VInt (Z.of_nat unique_count));
                    (VStr "note", VStr ("Too many unique values ("
                                          ++ pretty unique_count ++ ") to list."))])
  else None.

(** The loop over [df.columns] that fills [categorical_samples]. *)
Fixpoint categorical_samples (cs : list (string * Column)) : list (PyVal * PyVal) :=
  match cs with
  | [] => []
  | (col, c) :: r =>
      match categorical_values c ≫= categorical_entry with
      | Some entry => (VStr col, entry) :: categorical_samples r
      | None => categorical_samples r
      end
  end.

(** [df.head().T.to_dict()] *)
Definition head_sample_t (f : Frame) : PyVal :=
  VDict (map (fun i => (VInt (Z.of_nat i),
                        VDict (map (fun nc => (VStr (fst nc), cell (snd nc) i)) (cols f))))
             (seq 0 (Nat.min 5 (nrows f)))).

(** *** Quartiles and the IQR rule, in binary64 *)

(** [series.dropna()] *)
Definition dropna (s : Series) : Series :=
  match s with
  | Int64 vs => Int64 vs
  | Float64 vs => Float64 (filter (fun x => is_nan x = false) vs)
  end.

(** The cells as [float64], as numpy casts them to compare an [int64]
    column with a [float64] bound. *)
Definition astype_float (s : Series) : list float64 :=
  match s with
  | Int64 vs => map of_Z vs
  | Float64 vs => vs
  end.

(** Sorting by insertion. numpy partitions the data around the positions
    it reads; for data without NaN that puts at these positions what a
    sort by [<=] puts there (the order of [0.0] and [-0.0], which compare
    equal, is numpy's own). *)
Fixpoint insert_sorted {A} (le : A -> A -> bool) (x : A) (l : list A) : list A :=
  match l with
  | [] => [x]
  | y :: r => if le x y then x :: l else y :: insert_sorted le x r
  end.

Definition sort_values {A} (le : A -> A -> bool) (l : list A) : list A :=
  foldr (insert_sorted le) [] l.

(** [int64] arithmetic wraps around. *)
Definition wrap64 (z : Z) : Z := ((z + 2 ^ 63) mod 2 ^ 64 - 2 ^ 63)%Z.

(** numpy's [_lerp(a, b, t)]: [a + (b - a) * t], and
    [b - (b - a) * (1 - t)] where [t >= 0.5]; [diff_b_a] is [b - a],
    computed in the dtype of the data. *)
Definition lerp (a b diff_b_a t : float64) : float64 :=
  if leb half t
  then sub b (mul diff_b_a (sub one t))
  else add a (mul diff_b_a t).

(** The positions [np.percentile] reads for the quantile [k/4] of sorted
    values whose last index is [last] (method [linear]): the indexes
    before and after the virtual index [last * k / 4] and the weight
    [gamma] of the second, the virtual index less the first. A virtual
    index that reaches the last position reads the last value twice, and
    numpy's weight is then the virtual index plus 1. numpy computes the
    virtual index, its floor and [gamma] in binary64
    ([quantile_positions_binary64] below); for [k/4] and fewer than 2^51
    values these are exact, and are computed here on integers. *)
Definition quantile_positions (last k : Z) : Z * Z * float64 :=
  let virtual4 := (last * k)%Z in
  if (last * 4 <=? virtual4)%Z
  then (last, last, add (of_dyadic virtual4 (-2)) one)
  else ((virtual4 / 4)%Z, (virtual4 / 4 + 1)%Z, of_dyadic (virtual4 mod 4) (-2)).

Definition quantile_indexes (n : nat) (k : Z) : nat * nat * float64 :=
  let '(previous_index, next_index, gamma) := quantile_positions (Z.of_nat (n - 1)) k in
  (Z.to_nat previous_index, Z.to_nat next_index, gamma).

(** The positions as numpy computes them for the quantile [q]:
    [virtual_index = (n - 1) * q] in binary64, the indexes [-1] (the last
    one) where [virtual_index >= n - 1] and [floor(virtual_index)] and the
    next one elsewhere, and [gamma = virtual_index - previous_index]. *)
Definition quantile_positions_binary64 (last : Z) (q : float64) : Z * Z * float64 :=
  let virtual_index := mul (of_Z last) q in
  if leb (of_Z last) virtual_index
  then (last, last, sub virtual_index (of_Z (-1)))
  else let previous_index := floor_Z virtual_index in
       (previous_index, (previous_index + 1)%Z, sub virtual_index (of_Z previous_index)).

Definition same_positions (p p' : Z * Z * float64) : bool :=
  let '(i, j, gamma) := p in
  let '(i', j', gamma') := p' in
  Z.eqb i i' && Z.eqb j j' && identical gamma gamma'.

(** [series.quantile(k/4)] on data without NaN, with the default linear
    interpolation: pandas hands the values to [np.percentile] in their
    own dtype, so the neighbours of an [int64] column are subtracted as
    [int64] and only then cast to [float64]. *)
Definition quantile (data : Series) (k : Z) : float64 :=
  let '(previous_index, next_index, gamma) := quantile_indexes (series_len data) k in
  match data with
  | Float64 vs =>
      let arr := sort_values leb vs in
      let previous := nth previous_index arr nan in
      let next := nth next_index arr nan in
      lerp previous next (sub next previous) gamma
  | Int64 vs =>
      let arr := sort_values Z.leb vs in
      let previous := nth previous_index arr 0%Z in
      let next := nth next_index arr 0%Z in
      lerp (of_Z previous) (of_Z next) (of_Z (wrap64 (next - previous))) gamma
  end.

(** [(series < lower_bound) | (series > upper_bound)] on one cell:
    a comparison with NaN is false. *)
Definition is_outlier (lower_bound upper_bound x : float64) : bool :=
  ltb x lower_bound || ltb upper_bound x.

(** The local variables of [check_for_outliers] after the bounds are
    known; [outliers] holds the cells of the selected rows. *)
Record OutlierStats : Type := MkStats {
  Q1 : float64;
  Q3 : float64;
  IQR : float64;
  lower_bound : float64;
  upper_bound : float64;
  outliers : list float64;
  outlier_count : nat;
  total_count : nat;
  outlier_percentage : float64
}.

Definition outlier_stats (vals : Series) (total : nat) : OutlierStats :=
  let data := dropna vals in
  let q1 := quantile data 1 in
  let q3 := quantile data 3 in
  let iqr := sub q3 q1 in
  let lower := sub q1 (mul one_and_half iqr) in
  let upper := add q3 (mul one_and_half iqr) in
  let out := filter (fun x => is_outlier lower upper x = true) (astype_float vals) in
  {| Q1 := q1; Q3 := q3; IQR := iqr;
     lower_bound := lower; upper_bound := upper;
     outliers := out;
     outlier_count := length out;
     total_count := total;
     outlier_percentage :=
       mul (int_true_divide (Z.of_nat (length out)) (Z.of_nat total)) hundred |}.

Definition num (x : float64) : PyVal := VFloat x.

(** The dictionary [check_for_outliers] returns: the quartiles and bounds
    are numpy scalars, the percentage is a Python float. *)
Definition outlier_report (column_name : string) (s : OutlierStats) : PyVal :=
  VDict [(VStr "column", VStr column_name);
         (VStr "Q1", num (np_round2 (Q1 s)));
         (VStr "Q3", num (np_round2 (Q3 s)));
         (VStr "IQR", num (np_round2 (IQR s)));
         (VStr "lower_bound", num (np_round2 (lower_bound s)));
         (VStr "upper_bound", num (np_round2 (upper_bound s)));
         (VStr "outlier_count", VInt (Z.of_nat (outlier_count s)));
         (VStr "outlier_percentage", num (py_round2 (outlier_percentage s)));
         (VStr "note", VStr "Outliers are defined by the 1.5 * IQR rule.")].

(** A cell that holds a number other than [v]. *)
Definition present_and_differs (v x : float64) : bool :=
  negb (is_nan x) && negb (eqb x v).

(** A row whose value differs from [v] in the words of the specification:
    every cell that is not [v], a NaN cell included ([NaN != v] holds). *)
Definition value_differs (v x : float64) : bool := negb (eqb x v).

(** The percentage the specification states for a column whose numbers
    all equal [v]: 100 times the rows whose value differs, over all rows,
    rounded to 2 decimals. *)
Definition stated_percentage (v : float64) (cells : list float64) (total : nat) : float64 :=
  py_round2
    (div (mul hundred
            (of_Z (Z.of_nat (length (filter (fun x => value_differs v x = true) cells)))))
         (of_Z (Z.of_nat total))).

(** The cells of a numeric column that are not NaN all equal the number
    [v]: they compare equal to [v] in a [float64] column, and are one
    integer whose [float64] is [v] in an [int64] column. *)
Definition all_equal (vals : Series) (v : float64) : Prop :=
  match vals with
  | Int64 zs => exists z : Z, v = of_Z z /\ Forall (fun x => x = z) zs
  | Float64 xs => Forall (fun x => is_nan x = true \/ eqb x v = true) xs
  end.

(** *** The tools as programs over the object store *)

(** pandas and matplotlib routines the tools call and this repository does
    not define, as pure functions of the data they read. [describe] is
    [df.describe(include=['number','datetime']).T.to_dict()]; the three
    renderers draw the chart of each block of [automated_eda] (for the
    bar charts: [category], [sales], [profit], grouped, summed and sorted). *)
Class Libraries : Type := {
  Image : Type;
  describe : Frame -> PyResult PyVal;
  hist : Column -> PyResult Image;
  category_bars : Column -> Column -> Column -> PyResult Image;
  scatter : Column -> Column -> PyResult Image
}.

Section Programs.
Context `{Libraries}.
Open Scope py_scope.

(** What a tool can reach: the DataFrame objects, by address, and the
    files of the working directory. *)
Record Store : Type := MkStore {
  frames : gmap nat Frame;
  files : gmap string Image
}.

(** The argument [df]: [None], or the address of a DataFrame object. *)
Definition load (df : option nat) : M Store (option Frame) :=
  match df with
  | None => ret None
  | Some l =>
      o <- gets (fun st => frames st !! l) ;;
      match o with
      | Some f => ret (Some f)
      | None => raise (MkExn "ReferenceError" "no object at this address")
      end
  end.

(** [plt.savefig(name)] *)
Definition savefig (name : string) (img : Image) : M Store unit :=
  modify (fun st => {| frames := frames st; files := <[name := img]> (files st) |}).

(** [df[name]] where the label may be absent. *)
Definition getitem (f : Frame) (name : string) : M Store Column :=
  match lookup_col name (cols f) with
  | Some c => ret c
  | None => raise (MkExn "KeyError" name)
  end.

Definition attribute_error (attr : string) : Exn :=
  MkExn "AttributeError" ("'NoneType' object has no attribute '" ++ attr ++ "'").

Definition data_summary (df : option nat) : M Store PyVal :=
  o <- load df ;;
  match o with
  | None => ret (error_dict "DataFrame is None or empty.")
  | Some f =>
      if empty f then ret (error_dict "DataFrame is None or empty.")
      else
        numerical_stats <- lift (describe f) ;;
        ret (VDict
          [(VStr "shape", VList [VInt (Z.of_nat (nrows f)); VInt (Z.of_nat (length (cols f)))]);
           (VStr "columns", VList (map VStr (columns f)));
           (VStr "missing_values",
            VDict (map (fun nc => (VStr (fst nc), VInt (Z.of_nat (count_null (snd nc))))) (cols f)));
           (VStr "data_types",
            VDict (map (fun nc => (VStr (fst nc), VStr (dtype_name (snd nc)))) (cols f)));
           (VStr "numerical_descriptive_stats", numerical_stats);
           (VStr "categorical_metadata", VDict (categorical_samples (cols f)));
           (VStr "head_sample_t", head_sample_t f)])
  end.

Definition required_cols : list string :=
  ["sales"; "profit"; "category"; "segment"; "discount"].

Definition automated_eda (df : option nat) : M Store PyVal :=
  o <- load df ;;
  match o with
  | None => raise (attribute_error "columns")
  | Some f =>
      if negb (forallb (fun col => bool_decide (col ∈ columns f)) required_cols)
      then ret (error_dict "Missing required columns for EDA.")
      else
        sales <- getitem f "sales" ;;
        chart1 <- lift (hist sales) ;;
        savefig "sales_distribution.png" chart1 ;;
        category <- getitem f "category" ;;
        profit <- getitem f "profit" ;;
        chart2 <- lift (category_bars category sales profit) ;;
        savefig "category_performance.png" chart2 ;;
        discount <- getitem f "discount" ;;
        chart3 <- lift (scatter discount profit) ;;
        savefig "discount_profit_scatter.png" chart3 ;;
        ret (VDict
          [(VStr "sales_distribution_plot", VStr "sales_distribution.png");
           (VStr "category_performance_plot", VStr "category_performance.png");
           (VStr "discount_profit_scatter_plot", VStr "discount_profit_scatter.png")])
  end.

Definition check_for_outliers (df : option nat) (column_name : string) : M Store PyVal :=
  o <- load df ;;
  match o with
  | None => raise (attribute_error "columns")
  | Some f =>
      match lookup_col column_name (cols f) ≫= numeric_values with
      | None => ret (error_dict ("Column '" ++ column_name ++ "' not found or is not numeric."))
      | Some vals =>
          if (series_len (dropna vals) =? 0)%nat
          then ret (error_dict ("Column '" ++ column_name
                                  ++ "' is empty after dropping NaN values."))
          else if (nrows f =? 0)%nat
          then raise (MkExn "ZeroDivisionError" "division by zero")
          else ret (outlier_report column_name (outlier_stats vals (nrows f)))
      end
  end.

(** A program that leaves every DataFrame object as it found it. *)
Definition read_only {A} (m : M Store A) : Prop :=
  forall st, frames (snd (m st)) = frames st.

End Programs.

End Tools.

(** ** The dispatcher and the two agent loops ([src/agent_patterns.py]) *)

Module Agent.
Import Py.

(** A tool-call request of the model: [tool_call.name] and
    [dict(tool_call.args)], the arguments being a mapping from names to
    values as the client interface has them. *)
Record FunctionCall : Type := MkCall {
  fc_name : string;
  fc_args : gmap string PyVal
}.

(** What [generate_content] returns: [response.function_calls] (empty when
    the SDK gives [None]) and [response.text]. *)
Record Response : Type := MkResponse {
  function_calls : list FunctionCall;
  text : option string
}.

(** One entry of [parts] of a conversation turn. *)
Inductive Part : Type :=
| PText (t : string)
| PFunctionCall (fc : FunctionCall)
| PFunctionResponse (name : string) (response : PyVal).

(** [{"role": ..., "parts": [...]}] *)
Record Turn : Type := MkTurn { role : string; parts : list Part }.

(** [contents=]: the conversation history, or a prompt. *)
Inductive Contents : Type :=
| CHistory (conversation_history : list Turn)
| CPrompt (prompt : string).

(** The collaborators of the loops: the model client with whatever state
    it keeps ([World] also stands for the files and the plotting state the
    tools write), the three functions of [tools.py] as the dispatcher sees
    them (each may raise), and two facts of the Python runtime: [repr] of a
    value, and the [TypeError] of a call [f(name, df, **d)] in which [d]
    has the key [name] or [df]. *)
Class Collaborators : Type := {
  World : Type;
  DataFrame : Type;
  ToolDecl : Type;
  generate_content :
    string -> Contents -> option (string * list ToolDecl) -> M World Response;
  data_summary : DataFrame -> M World PyVal;
  automated_eda : DataFrame -> M World PyVal;
  check_for_outliers : DataFrame -> PyVal -> M World PyVal;
  py_repr : PyVal -> string;
  multiple_values_error : gmap string PyVal -> Exn
}.

Section Loops.
Context `{Collaborators}.
Open Scope py_scope.

(** What an observer of a run sees, in order: printed lines, calls of the
    model ([model=], [contents=], [config=], and what came back) and calls
    of a tool function. *)
Inductive Event : Type :=
| EvPrint (line : string)
| EvModel (model_name : string) (contents : Contents)
    (config : option (string * list ToolDecl)) (reply : PyResult Response)
| EvTool (tool : string) (df : DataFrame) (arguments : list PyVal).

Record State : Type := MkState { world : World; log : list Event }.

Definition emit (e : Event) : M State unit :=
  modify (fun s => {| world := world s; log := (log s ++ [e])%list |}).

Definition in_world {A} (m : M World A) : M State A :=
  fun s => let '(r, w) := m (world s) in (r, {| world := w; log := log s |}).

Definition print (line : string) : M State unit := emit (EvPrint line).

(** [client.models.generate_content(model=, contents=, config=)] *)
Definition call_model (model_name : string) (contents : Contents)
    (config : option (string * list ToolDecl)) : M State Response :=
  reply <- attempt (in_world (generate_content model_name contents config)) ;;
  emit (EvModel model_name contents config reply) ;;
  lift reply.

Definition invoke (tool : string) (df : DataFrame) (arguments : list PyVal)
    (body : M World PyVal) : M State PyVal :=
  emit (EvTool tool df arguments) ;;
  in_world body.

(** [str(v)] *)
Definition py_str (v : PyVal) : string :=
  match v with
  | VStr s => s
  | _ => py_repr v
  end.

(** *** Tool dispatcher *)

Definition call_tool (name : string) (df : DataFrame) (kwargs : gmap string PyVal)
    : M State PyVal :=
  if String.eqb name "data_summary" then
    print ("-> Executing tool: " ++ name ++ "()") ;;
    invoke "data_summary" df [] (data_summary df)
  else if String.eqb name "automated_eda" then
    print ("-> Executing tool: " ++ name ++ "()") ;;
    invoke "automated_eda" df [] (automated_eda df)
  else if String.eqb name "check_for_outliers" then
    match kwargs !! "column_name" with
    | None =>
        ret (error_dict "Tool 'check_for_outliers' requires the 'column_name' parameter.")
    | Some column_name =>
        print ("-> Executing tool: " ++ name ++ "(column_name='"
                 ++ py_str column_name ++ "')") ;;
        invoke "check_for_outliers" df [column_name] (check_for_outliers df column_name)
    end
  else
    print ("ERROR: Unknown tool requested by the model: " ++ name) ;;
    ret (error_dict ("Unknown tool: " ++ name)).

(** The call [call_tool(name, df, **d)]: Python binds [name] and [df]
    first, and refuses a [d] that names either again. *)
Definition call_tool_unpacked (name : string) (df : DataFrame) (d : gmap string PyVal)
    : M State PyVal :=
  if bool_decide (is_Some (d !! "name") ∨ is_Some (d !! "df"))
  then raise (multiple_values_error d)
  else call_tool name df d.

(** *** Official function-calling agent *)

Definition user_turn (user_query : string) : Turn :=
  {| role := "user"; parts := [PText user_query] |}.

Definition model_turn (tool_call : FunctionCall) : Turn :=
  {| role := "model"; parts := [PFunctionCall tool_call] |}.

Definition tool_turn (tool_name : string) (response : PyVal) : Turn :=
  {| role := "tool"; parts := [PFunctionResponse tool_name response] |}.

Definition max_turns : nat := 5.

Definition no_output_message : string :=
  "Agent failed to generate a response or requested a tool not handled.".

Definition exhausted_message : string :=
  "Agent exceeded maximum conversation turns without providing a final answer.".

(** [f"API ERROR during turn {turn + 1}: {e}"] *)
Definition api_error_message (turn : nat) (e : Exn) : string :=
  "API ERROR during turn " ++ pretty (turn + 1)%nat ++ ": " ++ exn_str e.

(** The body of the [for] loop at index [turn]: [inl answer] for a
    [return], [inr history] for a [continue] with the history it leaves. *)
Definition agent_turn (df : DataFrame) (model_name : string)
    (tools_list : list ToolDecl) (system_instruction : string)
    (turn : nat) (conversation_history : list Turn) : M State (string + list Turn) :=
  print (nl ++ "--- Turn " ++ pretty (turn + 1)%nat ++ ": Calling Gemini (Official FC) ---") ;;
  r <- attempt (call_model model_name (CHistory conversation_history)
                  (Some (system_instruction, tools_list))) ;;
  match r with
  | Raised e => ret (inl (api_error_message turn e))
  | Returned response =>
      match function_calls response with
      | tool_call :: _ =>
          print "Model requested a Tool Call." ;;
          let tool_name := fc_name tool_call in
          let tool_args := fc_args tool_call in
          t <- attempt (
                 tool_output_data <- call_tool_unpacked tool_name df tool_args ;;
                 let tool_output_content := py_str tool_output_data in
                 print ("Tool execution successful. Result size: "
                          ++ pretty (String.length tool_output_content) ++ " bytes.") ;;
                 ret tool_output_data) ;;
          match t with
          | Returned tool_output_data =>
              ret (inr (conversation_history
                          ++ [model_turn tool_call; tool_turn tool_name tool_output_data])%list)
          | Raised e =>
              print ("Error executing Python tool '" ++ tool_name ++ "': " ++ exn_str e) ;;
              ret (inr (conversation_history
                          ++ [model_turn tool_call;
                              tool_turn tool_name
                                (error_dict ("Internal tool execution error: " ++ exn_str e))])%list)
          end
      | [] =>
          match text response with
          | Some (String c t) => ret (inl (String c t))
          | _ => ret (inl no_output_message)
          end
      end
  end.

(** [for turn in range(max_turns): ...] followed by the last [return];
    the history at the end is returned along with the answer. *)
Fixpoint agent_turns (df : DataFrame) (model_name : string)
    (tools_list : list ToolDecl) (system_instruction : string)
    (turns : list nat) (conversation_history : list Turn)
    : M State (string * list Turn) :=
  match turns with
  | [] => ret (exhausted_message, conversation_history)
  | turn :: rest =>
      r <- agent_turn df model_name tools_list system_instruction turn conversation_history ;;
      match r with
      | inl answer => ret (answer, conversation_history)
      | inr history' =>
          agent_turns df model_name tools_list system_instruction rest history'
      end
  end.

Definition enterprise_agent (user_query : string) (df : DataFrame) (model_name : string)
    (tools_list : list ToolDecl) (system_instruction : string) : M State string :=
  r <- agent_turns df model_name tools_list system_instruction
         (seq 0 max_turns) [user_turn user_query] ;;
  ret (fst r).

(** *** Two-step agent *)

(** The [prompt] of [ask_model_for_action]. *)
Definition action_prompt (user_query : string) : string :=
  let tool_list := "`data_summary`, `automated_eda`, `check_for_outliers(column_name:str)`" in
  "You are an assistant that can call local python tools. "
  ++ "The ONLY valid tool names are: " ++ tool_list ++ ". "
  ++ "When appropriate, respond ONLY with exactly `TOOL:<tool_name>` (e.g. TOOL:automated_eda, or TOOL:check_for_outliers(column_name='profit')) to request a local tool, "
  ++ "or respond with `RESPONSE:<your answer>` when you can answer directly. "
  ++ "Do NOT include anything else. Now decide for this user query:" ++ nl ++ nl
  ++ "User query: " ++ user_query ++ nl.

Definition ask_model_for_action (user_query model_name : string) : M State string :=
  resp <- call_model model_name (CPrompt (action_prompt user_query)) None ;;
  match text resp with
  | Some t => ret (strip t)
  | None => raise (MkExn "AttributeError" "'NoneType' object has no attribute 'strip'")
  end.

(** The parsing half of [call_tool_two_step]: [tool_name] and [kwargs]. *)
Definition parse_tool_call (name_and_args : string) : string * gmap string PyVal :=
  let match_params := re_search_paren name_and_args in
  let tool_name := strip (hd EmptyString (split "(" name_and_args)) in
  let kwargs : gmap string PyVal :=
    match match_params with
    | Some group1 =>
        let args_str := strip (remove_char dquote (remove_char "'" group1)) in
        if contains "=" args_str
        then match split1 "=" args_str with
             | [key; value] => <[strip key := VStr (strip value)]> ∅
             | _ => ∅
             end
        else ∅
    | None => ∅
    end in
  (tool_name, kwargs).

Definition call_tool_two_step (name_and_args : string) (df : DataFrame) : M State PyVal :=
  let '(tool_name, kwargs) := parse_tool_call name_and_args in
  call_tool_unpacked tool_name df kwargs.

Definition followup_prompt (tool_call_string tool_output_str user_query : string) : string :=
  "The requested tool has been executed and produced the following output:" ++ nl ++ nl
  ++ "TOOL: " ++ tool_call_string ++ nl ++ nl ++ "OUTPUT:" ++ nl ++ tool_output_str ++ nl ++ nl
  ++ "Using the original user query and the tool output above, "
  ++ "produce a helpful, concise summary and any actionable insights. "
  ++ "Be explicit about the charts produced (if any) and mention their filenames so they can be viewed."
  ++ nl ++ nl ++ "Original user query: " ++ user_query ++ nl.

Definition fallback_prompt (user_query decision : string) : string :=
  "User: " ++ user_query ++ nl ++ "The agent decision was irregular ('" ++ decision
  ++ "'). Please answer the user query directly and professionally.".

(** [final.text] and [fallback.text] may be [None]: the result is an
    optional string. *)
Definition enterprise_agent_new (user_query : string) (df : DataFrame) (model_name : string)
    : M State (option string) :=
  print (nl ++ "--- Step 1: Model Decision (Tool or Response) ---") ;;
  decision <- ask_model_for_action user_query model_name ;;
  print ("Model Decision: " ++ decision) ;;
  if startswith "TOOL:" decision then
    let tool_call_string := strip (nth 1 (split "TOOL:" decision) EmptyString) in
    tool_output <- call_tool_two_step tool_call_string df ;;
    let tool_output_str := take_prefix 20000%N (py_str tool_output) in
    print (nl ++ "--- Step 2: Model Interpretation ---") ;;
    final <- call_model model_name
               (CPrompt (followup_prompt tool_call_string tool_output_str user_query)) None ;;
    ret (text final)
  else if startswith "RESPONSE:" decision then
    ret (Some (strip (nth 1 (split1 "RESPONSE:" decision) EmptyString)))
  else
    print (nl ++ "--- Step 2: Model Fallback (Failed to follow format) ---") ;;
    fallback <- call_model model_name (CPrompt (fallback_prompt user_query decision)) None ;;
    ret (text fallback).

(** The second model call of the two-step loop and what the run returns
    from it: [final.text], or the exception of the client. *)
Definition second_call (model_name prompt : string) (s : State)
    : PyResult (option string) * State :=
  let g := generate_content model_name (CPrompt prompt) None (world s) in
  (match fst g with
   | Returned final => Returned (text final)
   | Raised e => Raised e
   end,
   {| world := snd g;
      log := (log s ++ [EvModel model_name (CPrompt prompt) None (fst g)])%list |}).

(** *** Reading a run's events and a conversation history *)

(** The replies of the model calls of a run, in order. *)
Definition replies (evs : list Event) : list (PyResult Response) :=
  omap (fun e => match e with EvModel _ _ _ r => Some r | _ => None end) evs.

(** The number of model calls of a run. *)
Definition model_calls (evs : list Event) : nat := length (replies evs).

(** The tool functions a run called. *)
Definition tools_called (evs : list Event) : list string :=
  omap (fun e => match e with EvTool tool _ _ => Some tool | _ => None end) evs.

(** The conversation histories a run sent to the model. *)
Definition histories_sent (evs : list Event) : list (list Turn) :=
  omap (fun e => match e with EvModel _ (CHistory h) _ _ => Some h | _ => None end) evs.

(** A reply that asks for a tool: neither a failure, nor a final text,
    nor an empty response. *)
Definition asks_for_tool (r : PyResult Response) : bool :=
  match r with
  | Returned resp => match function_calls resp with [] => false | _ :: _ => true end
  | Raised _ => false
  end.

(** The trimmed decision of the two-step loop, read off the first reply. *)
Definition decision_of (evs : list Event) : option string :=
  match replies evs with
  | Returned resp :: _ => strip <$> text resp
  | _ => None
  end.

Definition is_request (t : Turn) : bool :=
  existsb (fun p => match p with PFunctionCall _ => true | _ => false end) (parts t).

Definition is_result (t : Turn) : bool :=
  existsb (fun p => match p with PFunctionResponse _ _ => true | _ => false end) (parts t).

(** [res] is the tool-result turn that answers the request turn [req]. *)
Definition result_for (req res : Turn) : bool :=
  match parts req, parts res with
  | [PFunctionCall fc], [PFunctionResponse name _] =>
      String.eqb name (fc_name fc) && String.eqb (role res) "tool"
  | _, _ => false
  end.

(** No dangling request: a request turn is followed at once by its result
    turn and by no second one, and no result turn stands without a request. *)
Fixpoint no_dangling (h : list Turn) : bool :=
  match h with
  | [] => true
  | t :: rest =>
      if is_request t then
        match rest with
        | r :: rest' =>
            result_for t r
            && negb (match rest' with r2 :: _ => is_result r2 | [] => false end)
            && no_dangling rest'
        | [] => false
        end
      else negb (is_result t) && no_dangling rest
  end.

(** The two turns one tool call leaves in the history. *)
Definition exchange (x : FunctionCall * PyVal) : list Turn :=
  [model_turn (fst x); tool_turn (fc_name (fst x)) (snd x)].

(** The payload the structured loop records for the outcome of a dispatch:
    the tool's output, or the error that stands for the exception. *)
Definition recorded_payload (t : PyResult PyVal) : PyVal :=
  match t with
  | Returned tool_output_data => tool_output_data
  | Raised e => error_dict ("Internal tool execution error: " ++ exn_str e)
  end.

(** What an iteration that got [reply] from the model hands on: the answer
    it returns, or the exchange it appends before the next iteration. *)
Definition turn_result (turn : nat) (h : list Turn) (reply : PyResult Response)
    (r : string + list Turn) : Prop :=
  match reply with
  | Raised e => r = inl (api_error_message turn e)
  | Returned response =>
      match function_calls response with
      | tool_call :: _ =>
          exists t : PyResult PyVal,
            r = inr (h ++ exchange (tool_call, recorded_payload t))%list
      | [] =>
          match text response with
          | Some (String c t) => r = inl (String c t)
          | _ => r = inl no_output_message
          end
      end
  end.

(** The request a reply is dispatched for: the first one, if any. *)
Definition first_request (r : PyResult Response) : option FunctionCall :=
  match r with
  | Returned resp => head (function_calls resp)
  | Raised _ => None
  end.

(** The replies of a run that asked for a tool. *)
Definition tool_requests (evs : list Event) : list (PyResult Response) :=
  filter (fun r => asks_for_tool r = true) (replies evs).

(** The line the structured loop prints after a dispatch. *)
Definition dispatch_line (tool_name : string) (t : PyResult PyVal) : string :=
  match t with
  | Returned tool_output_data =>
      "Tool execution successful. Result size: "
      ++ pretty (String.length (py_str tool_output_data)) ++ " bytes."
  | Raised e => "Error executing Python tool '" ++ tool_name ++ "': " ++ exn_str e
  end.

(** What the structured loop returns for a reply without tool request. *)
Definition final_answer (response : Response) : string :=
  match text response with
  | Some (String c t) => String c t
  | _ => no_output_message
  end.

(** A history made of the user's turn and of whole exchanges. *)
Definition paired (h : list Turn) : Prop :=
  exists (user_query : string) (xs : list (FunctionCall * PyVal)),
    h = user_turn user_query :: flat_map exchange xs.

End Loops.

End Agent.

(** ** A closed system: the real tools behind a scripted model client *)

Module Scenario.
Import Py.

(** Charts are named by their kind; [describe] is left out of the summary. *)
Definition plain_libraries : Tools.Libraries :=
  {| Tools.Image := string;
     Tools.describe := fun _ => Returned (VDict []);
     Tools.hist := fun _ => Returned "histogram";
     Tools.category_bars := fun _ _ _ => Returned "bars";
     Tools.scatter := fun _ _ => Returned "scatter" |}.

(** The store of the tools next to the answers the client will give, in
    order; a client with nothing left to say fails. *)
Definition ScriptedWorld : Type :=
  (@Tools.Store plain_libraries * list (PyResult Agent.Response))%type.

Definition on_store {A} (m : M (@Tools.Store plain_libraries) A) : M ScriptedWorld A :=
  fun w => let '(r, st) := m (fst w) in (r, (st, snd w)).

Definition next_answer : M ScriptedWorld Agent.Response :=
  fun w => match snd w with
           | r :: rest => (r, (fst w, rest))
           | [] => (Raised (MkExn "APIError" "503 UNAVAILABLE"), w)
           end.

(** [check_for_outliers(df, column_name)] for an argument of any type: a
    label that is no string is in no [df.columns]; a list or a dictionary
    cannot be looked up at all. *)
Definition check_for_outliers_dyn (repr : PyVal -> string) (df : option nat)
    (column_name : PyVal) : M ScriptedWorld PyVal :=
  match column_name with
  | VStr c => on_store (Tools.check_for_outliers df c)
  | VList _ => raise (MkExn "TypeError" "unhashable type: 'list'")
  | VDict _ => raise (MkExn "TypeError" "unhashable type: 'dict'")
  | v =>
      match df with
      | None => raise (Tools.attribute_error "columns")
      | Some _ => ret (error_dict ("Column '" ++ repr v ++ "' not found or is not numeric."))
      end
  end.

Definition plain_repr (v : PyVal) : string :=
  match v with
  | VNone => "None"
  | VBool true => "True"
  | VBool false => "False"
  | VInt z => pretty z
  | VStr s => "'" ++ s ++ "'"
  | VFloat S754_nan => "nan"
  | VFloat _ => "<float>"
  | VList _ => "[...]"
  | VDict _ => "{...}"
  end.

Definition scripted : Agent.Collaborators :=
  {| Agent.World := ScriptedWorld;
     Agent.DataFrame := option nat;
     Agent.ToolDecl := string;
     Agent.generate_content := fun _ _ _ => next_answer;
     Agent.data_summary := fun df => on_store (Tools.data_summary df);
     Agent.automated_eda := fun df => on_store (Tools.automated_eda df);
     Agent.check_for_outliers := check_for_outliers_dyn plain_repr;
     Agent.py_repr := plain_repr;
     Agent.multiple_values_error := fun d =>
       MkExn "TypeError"
         ("call_tool() got multiple values for argument '"
            ++ (if bool_decide (is_Some (d !! "name")) then "name" else "df") ++ "'") |}.

Definition q (z : Z) : F64.float64 := F64.of_Z z.

(** A small Superstore table at address 0. *)
Definition superstore : Tools.Frame :=
  Tools.MkFrame 5
    [("sales", Tools.FloatCol [q 10; q 20; q 30; q 40; q 1000]);
     ("profit", Tools.FloatCol [q 1; q 2; q 3; q 4; q 100]);
     ("category", Tools.ObjCol [Some "Furniture"; Some "Technology"; Some "Furniture";
                                Some "Office Supplies"; None]);
     ("segment", Tools.ObjCol [Some "Consumer"; Some "Corporate"; Some "Consumer";
                               Some "Consumer"; Some "Home Office"]);
     ("discount", Tools.FloatCol [q 0; q 0; F64.nan; q 0; q 0]);
     ("quantity", Tools.IntCol [1; 2; 3; 4; 5]%Z)].

Definition store0 : @Tools.Store plain_libraries :=
  Tools.MkStore {[ 0%nat := superstore ]} ∅.

(** A column whose numbers all equal 5, with one NaN cell, at address 0. *)
Definition constant_with_nan : Tools.Frame :=
  Tools.MkFrame 2 [("profit", Tools.FloatCol [q 5; F64.nan])].

Definition store_nan : @Tools.Store plain_libraries :=
  Tools.MkStore {[ 0%nat := constant_with_nan ]} ∅.

(** A column that holds nothing but NaN, at address 0. *)
Definition all_nan : Tools.Frame :=
  Tools.MkFrame 2 [("profit", Tools.FloatCol [F64.nan; F64.nan])].

Definition store_all_nan : @Tools.Store plain_libraries :=
  Tools.MkStore {[ 0%nat := all_nan ]} ∅.

(** A frame with a column and no row, at address 0. *)
Definition store_no_rows : @Tools.Store plain_libraries :=
  Tools.MkStore {[ 0%nat := Tools.MkFrame 0 [("sales", Tools.FloatCol [])] ]} ∅.

(** Libraries whose grouped bar chart cannot be drawn. *)
Definition failing_bars : Tools.Libraries :=
  {| Tools.Image := string;
     Tools.describe := fun _ => Returned (VDict []);
     Tools.hist := fun _ => Returned "histogram";
     Tools.category_bars := fun _ _ _ => Raised (MkExn "TypeError" "no numeric data to plot");
     Tools.scatter := fun _ _ => Returned "scatter" |}.

Definition store_failing_bars : @Tools.Store failing_bars :=
  Tools.MkStore {[ 0%nat := superstore ]} ∅.

Definition start (script : list (PyResult Agent.Response)) : @Agent.State scripted :=
  @Agent.MkState scripted (store0, script) [].

Definition says (t : string) : PyResult Agent.Response :=
  Returned (Agent.MkResponse [] (Some t)).

Definition requests (name : string) (args : gmap string PyVal) : PyResult Agent.Response :=
  Returned (Agent.MkResponse [Agent.MkCall name args] None).

(** A transport failure of the client. *)
Definition fails : PyResult Agent.Response := Raised (MkExn "APIError" "503 UNAVAILABLE").

Definition profit_request : PyResult Agent.Response :=
  requests "check_for_outliers" {[ "column_name" := VStr "profit" ]}.

End Scenario.

(** * Properties *)

(** ** The dispatcher *)

Section DispatcherProperties.
Context `{Agent.Collaborators}.
Import Py Agent.

Lemma name_eqb_false (a b : string) : a <> b -> String.eqb a b = false.
Proof. intros Hne. now apply String.eqb_neq. Qed.

(** What one [print] does to the state. *)
Lemma print_run (line : string) (s : State) :
  print line s = (Returned tt, {| world := world s; log := (log s ++ [EvPrint line])%list |}).
Proof. reflexivity. Qed.

(** The body of [call_tool] on a name it does not know: the error
    dictionary after one printed line. *)
Lemma call_tool_body_unknown_name (name : string) (df : DataFrame)
    (kwargs : gmap string PyVal) (s : State) :
  name <> "data_summary" ->
  name <> "automated_eda" ->
  name <> "check_for_outliers" ->
  call_tool name df kwargs s
  = (Returned (error_dict ("Unknown tool: " ++ name)),
     {| world := world s;
        log := (log s ++ [EvPrint ("ERROR: Unknown tool requested by the model: "
                                     ++ name)])%list |}).
Proof.
  intros H1 H2 H3. unfold call_tool.
  rewrite (name_eqb_false _ _ H1), (name_eqb_false _ _ H2), (name_eqb_false _ _ H3).
  reflexivity.
Qed.

(** The body of [call_tool] on [check_for_outliers] without
    [column_name] among the keyword arguments. *)
Lemma call_tool_body_missing_column_name (df : DataFrame) (kwargs : gmap string PyVal)
    (s : State) :
  kwargs !! "column_name" = None ->
  call_tool "check_for_outliers" df kwargs s
    = (Returned (error_dict
         "Tool 'check_for_outliers' requires the 'column_name' parameter."), s).
Proof.
  intros Hk. unfold call_tool. simpl. rewrite Hk. reflexivity.
Qed.

(** With [column_name] present the tool function is called with it. *)
Lemma call_tool_with_column_name (df : DataFrame) (kwargs : gmap string PyVal)
    (column_name : PyVal) (s : State) :
  kwargs !! "column_name" = Some column_name ->
  call_tool "check_for_outliers" df kwargs s
    = (print ("-> Executing tool: check_for_outliers(column_name='"
                ++ py_str column_name ++ "')") ;;
       invoke "check_for_outliers" df [column_name]
         (check_for_outliers df column_name))%py s.
Proof.
  intros Hk. unfold call_tool. simpl. rewrite Hk. reflexivity.
Qed.

(** The bodies of the [data_summary] and [automated_eda] branches never
    read the keyword arguments. *)
Lemma call_tool_body_ignores_arguments (df : DataFrame) (kwargs : gmap string PyVal)
    (s : State) :
  (call_tool "data_summary" df kwargs s = call_tool "data_summary" df ∅ s
   /\ fst (call_tool "data_summary" df kwargs s) = fst (data_summary df (world s))
   /\ log (snd (call_tool "data_summary" df kwargs s))
      = (log s ++ [EvPrint "-> Executing tool: data_summary()";
                   EvTool "data_summary" df []])%list)
  /\
  (call_tool "automated_eda" df kwargs s = call_tool "automated_eda" df ∅ s
   /\ fst (call_tool "automated_eda" df kwargs s) = fst (automated_eda df (world s))
   /\ log (snd (call_tool "automated_eda" df kwargs s))
      = (log s ++ [EvPrint "-> Executing tool: automated_eda()";
                   EvTool "automated_eda" df []])%list).
Proof.
  split; (split; [reflexivity |]).
  - unfold call_tool, invoke, print, emit, modify, in_world, bind. simpl.
    destruct (data_summary df (world s)) as [r w]. destruct r; simpl;
      rewrite <- app_assoc; split; reflexivity.
  - unfold call_tool, invoke, print, emit, modify, in_world, bind. simpl.
    destruct (automated_eda df (world s)) as [r w]. destruct r; simpl;
      rewrite <- app_assoc; split; reflexivity.
Qed.

(** A call [call_tool(name, df, **d)] whose mapping names neither
    parameter runs the body with [kwargs = d]. *)
Lemma call_tool_unpacked_bound (name : string) (df : DataFrame) (d : gmap string PyVal) :
  d !! "name" = None -> d !! "df" = None ->
  call_tool_unpacked name df d = call_tool name df d.
Proof.
  intros Hn Hd. unfold call_tool_unpacked.
  rewrite bool_decide_eq_false_2; [reflexivity |].
  rewrite Hn, Hd. intros [[x [=]] | [x [=]]].
Qed.

(** A mapping that names [name] or [df] again is refused before the body
    runs: nothing is printed and no tool is called. *)
Lemma call_tool_unpacked_clash (name : string) (df : DataFrame) (d : gmap string PyVal)
    (s : State) :
  is_Some (d !! "name") \/ is_Some (d !! "df") ->
  call_tool_unpacked name df d s = (Raised (multiple_values_error d), s).
Proof.
  intros Hclash. unfold call_tool_unpacked.
  now rewrite bool_decide_eq_true_2.
Qed.

(** C7, as the code has it. For a name outside [data_summary],
    [automated_eda] and [check_for_outliers], whatever the dataset: when
    the argument mapping names neither [name] nor [df], the call
    [call_tool(name, df, **arguments)] returns exactly
    [{"error": "Unknown tool: <name>"}], without raising, the
    collaborators' world untouched, and the events it adds (one printed
    line) contain no call of a tool function; when the mapping holds
    [name] or [df], the call raises the [TypeError] of a parameter given
    twice before the body runs, and the state is as it was (so no tool
    function is called then either). *)
Theorem call_tool_unknown_name (name : string) (df : DataFrame)
    (arguments : gmap string PyVal) (s : State) :
  name <> "data_summary" ->
  name <> "automated_eda" ->
  name <> "check_for_outliers" ->
  (arguments !! "name" = None -> arguments !! "df" = None ->
   exists evs : list Event,
     call_tool_unpacked name df arguments s
       = (Returned (error_dict ("Unknown tool: " ++ name)),
          {| world := world s; log := (log s ++ evs)%list |})
     /\ tools_called evs = []
     /\ model_calls evs = 0)
  /\ (is_Some (arguments !! "name") \/ is_Some (arguments !! "df") ->
      call_tool_unpacked name df arguments s
        = (Raised (multiple_values_error arguments), s)).
Proof.
  intros H1 H2 H3. split.
  - intros Hn Hd.
    exists [EvPrint ("ERROR: Unknown tool requested by the model: " ++ name)].
    split; [| split; reflexivity].
    rewrite (call_tool_unpacked_bound name df arguments Hn Hd).
    now apply call_tool_body_unknown_name.
  - apply call_tool_unpacked_clash.
Qed.

(** C8, as the code has it. Without the key [column_name] in the
    argument mapping, dispatching [check_for_outliers]: when the mapping
    names neither [name] nor [df], the call returns exactly the fixed
    missing-parameter error and leaves the whole state as it was (no event
    is added, so the tool function is not called), whatever else the
    mapping holds; when the mapping holds [name] or [df], the call raises
    the [TypeError] of a parameter given twice, the state again as it was. *)
Theorem call_tool_missing_column_name (df : DataFrame) (arguments : gmap string PyVal)
    (s : State) :
  arguments !! "column_name" = None ->
  (arguments !! "name" = None -> arguments !! "df" = None ->
   call_tool_unpacked "check_for_outliers" df arguments s
     = (Returned (error_dict
          "Tool 'check_for_outliers' requires the 'column_name' parameter."), s))
  /\ (is_Some (arguments !! "name") \/ is_Some (arguments !! "df") ->
      call_tool_unpacked "check_for_outliers" df arguments s
        = (Raised (multiple_values_error arguments), s)).
Proof.
  intros Hk. split.
  - intros Hn Hd. rewrite (call_tool_unpacked_bound _ df arguments Hn Hd).
    now apply call_tool_body_missing_column_name.
  - apply call_tool_unpacked_clash.
Qed.

(** C10, as the code has it. Dispatching [data_summary] or
    [automated_eda] with an argument mapping that names neither [name]
    nor [df] never looks at the mapping: the run is the one with no
    argument at all, its outcome is the outcome of the tool function on
    the dataset alone (a value, or the exception the tool raised, never an
    error about the arguments), and the tool is called exactly once with
    no argument. With a mapping that holds [name] or [df] the call
    raises the [TypeError] of a parameter given twice and the tool is not
    called. *)
Theorem call_tool_ignores_arguments (df : DataFrame) (arguments : gmap string PyVal)
    (s : State) :
  (arguments !! "name" = None -> arguments !! "df" = None ->
   (call_tool_unpacked "data_summary" df arguments s
      = call_tool_unpacked "data_summary" df ∅ s
    /\ fst (call_tool_unpacked "data_summary" df arguments s)
       = fst (data_summary df (world s))
    /\ log (snd (call_tool_unpacked "data_summary" df arguments s))
       = (log s ++ [EvPrint "-> Executing tool: data_summary()";
                    EvTool "data_summary" df []])%list)
   /\
   (call_tool_unpacked "automated_eda" df arguments s
      = call_tool_unpacked "automated_eda" df ∅ s
    /\ fst (call_tool_unpacked "automated_eda" df arguments s)
       = fst (automated_eda df (world s))
    /\ log (snd (call_tool_unpacked "automated_eda" df arguments s))
       = (log s ++ [EvPrint "-> Executing tool: automated_eda()";
                    EvTool "automated_eda" df []])%list))
  /\ (is_Some (arguments !! "name") \/ is_Some (arguments !! "df") ->
      call_tool_unpacked "data_summary" df arguments s
        = (Raised (multiple_values_error arguments), s)
      /\ call_tool_unpacked "automated_eda" df arguments s
         = (Raised (multiple_values_error arguments), s)).
Proof.
  split.
  - intros Hn Hd.
    rewrite !(call_tool_unpacked_bound _ df arguments Hn Hd).
    rewrite !(call_tool_unpacked_bound _ df ∅ (lookup_empty _) (lookup_empty _)).
    apply call_tool_body_ignores_arguments.
  - intros Hclash. split; now apply call_tool_unpacked_clash.
Qed.

End DispatcherProperties.

(** ** The tools never write to the dataset *)

Section ToolFrame.
Context `{Tools.Libraries}.
Import Py Tools.

Lemma read_only_ret {A} (a : A) : read_only (ret a).
Proof. intros st. reflexivity. Qed.

Lemma read_only_raise {A} (e : Exn) : read_only (@raise Store A e).
Proof. intros st. reflexivity. Qed.

Lemma read_only_lift {A} (r : PyResult A) : read_only (lift r).
Proof. intros st. reflexivity. Qed.

Lemma read_only_gets {A} (f : Store -> A) : read_only (gets f).
Proof. intros st. reflexivity. Qed.

Lemma read_only_bind {A B} (m : M Store A) (k : A -> M Store B) :
  read_only m -> (forall a, read_only (k a)) -> read_only (bind m k).
Proof.
  intros Hm Hk st. unfold bind. specialize (Hm st).
  destruct (m st) as [[a | e] st1]; simpl in *.
  - rewrite Hk. exact Hm.
  - exact Hm.
Qed.

(** Saving a figure writes a file and nothing else. *)
Lemma read_only_savefig (name : string) (img : Image) : read_only (savefig name img).
Proof. intros st. reflexivity. Qed.

Lemma read_only_load (df : option nat) : read_only (load df).
Proof.
  destruct df as [l |]; [| apply read_only_ret].
  apply read_only_bind; [apply read_only_gets |].
  intros [f |]; [apply read_only_ret | apply read_only_raise].
Qed.

Lemma read_only_getitem (f : Frame) (name : string) : read_only (getitem f name).
Proof.
  unfold getitem. destruct (lookup_col name (cols f));
    [apply read_only_ret | apply read_only_raise].
Qed.

Create HintDb frame discriminated.
#[local] Hint Resolve read_only_ret read_only_raise read_only_lift read_only_gets
  read_only_savefig read_only_load read_only_getitem : frame.

Ltac frame_step :=
  first [ apply read_only_bind; [solve [auto with frame] | intros ?]
        | solve [auto with frame] ].

Lemma data_summary_read_only (df : option nat) : read_only (data_summary df).
Proof.
  unfold data_summary. frame_step.
  destruct a as [f |]; [| frame_step].
  destruct (empty f); repeat frame_step.
Qed.

Lemma automated_eda_read_only (df : option nat) : read_only (automated_eda df).
Proof.
  unfold automated_eda. frame_step.
  destruct a as [f |]; [| frame_step].
  match goal with |- context [if ?b then _ else _] => destruct b end;
    repeat frame_step.
Qed.

Lemma check_for_outliers_read_only (df : option nat) (column_name : string) :
  read_only (check_for_outliers df column_name).
Proof.
  unfold check_for_outliers. frame_step.
  destruct a as [f |]; [| frame_step].
  destruct (lookup_col column_name (cols f) ≫= numeric_values) as [vals |]; [| frame_step].
  destruct (series_len (dropna vals) =? 0)%nat; [frame_step |].
  destruct (nrows f =? 0)%nat; frame_step.
Qed.

(** The two tools that draw nothing leave the whole store as it was. *)
Lemma data_summary_store (df : option nat) (st : Store) : snd (data_summary df st) = st.
Proof.
  unfold data_summary, load, bind, gets, ret, raise, lift.
  destruct df as [l |]; simpl; [| reflexivity].
  destruct (frames st !! l) as [f |]; simpl; [| reflexivity].
  destruct (empty f); [reflexivity |].
  destruct (describe f); reflexivity.
Qed.

Lemma check_for_outliers_store (df : option nat) (column_name : string) (st : Store) :
  snd (check_for_outliers df column_name st) = st.
Proof.
  unfold check_for_outliers, load, bind, gets, ret, raise.
  destruct df as [l |]; simpl; [| reflexivity].
  destruct (frames st !! l) as [f |]; simpl; [| reflexivity].
  destruct (lookup_col column_name (cols f) ≫= numeric_values) as [vals |]; [| reflexivity].
  destruct (series_len (dropna vals) =? 0)%nat; [reflexivity |].
  destruct (nrows f =? 0)%nat; reflexivity.
Qed.

(** C9. No tool writes to the dataset: after [data_summary],
    [automated_eda] or [check_for_outliers], whether it returned or raised,
    every DataFrame object of the store is what it was before (rows,
    columns and values). [data_summary] and [check_for_outliers] change
    nothing at all; [automated_eda] only writes its chart files. *)
Theorem tools_leave_dataset_unchanged (df : option nat) (column_name : string)
    (st : Store) :
  frames (snd (data_summary df st)) = frames st
  /\ frames (snd (automated_eda df st)) = frames st
  /\ frames (snd (check_for_outliers df column_name st)) = frames st
  /\ snd (data_summary df st) = st
  /\ snd (check_for_outliers df column_name st) = st.
Proof.
  repeat split.
  - apply data_summary_read_only.
  - apply automated_eda_read_only.
  - apply check_for_outliers_read_only.
  - apply data_summary_store.
  - apply check_for_outliers_store.
Qed.

End ToolFrame.

(** ** Binary64 facts used below *)

Section FloatFacts.
Import F64 Tools.

Lemma sub_diag (v : float64) : is_finite v = true -> sub v v = S754_zero false.
Proof.
  destruct v as [s | s | | s m e]; try discriminate; intros _.
  - destruct s; reflexivity.
  - unfold sub, SFsub. rewrite Z.min_id. unfold shl_align.
    rewrite Z.sub_diag. reflexivity.
Qed.

Lemma mul_zero_l (t : float64) :
  is_finite t = true -> exists s, mul (S754_zero false) t = S754_zero s.
Proof. destruct t; try discriminate; intros _; eexists; reflexivity. Qed.

Lemma add_zero_r (v : float64) (s : bool) : plain v -> add v (S754_zero s) = v.
Proof.
  intros [Hfin Hneg]. destruct v as [[|] | | |]; try discriminate.
  - contradiction.
  - destruct s; reflexivity.
  - reflexivity.
Qed.

Lemma sub_zero_r (v : float64) (s : bool) : plain v -> sub v (S754_zero s) = v.
Proof.
  intros [Hfin Hneg]. destruct v as [[|] | | |]; try discriminate.
  - contradiction.
  - destruct s; reflexivity.
  - reflexivity.
Qed.

(** Interpolating between two copies of a number gives the number. *)
Lemma lerp_constant (v t : float64) :
  plain v -> is_finite t = true -> is_finite (sub one t) = true ->
  lerp v v (sub v v) t = v.
Proof.
  intros Hv Ht Ht'. rewrite (sub_diag v (proj1 Hv)). unfold lerp.
  destruct (leb half t).
  - destruct (mul_zero_l _ Ht') as [s ->]. now apply sub_zero_r.
  - destruct (mul_zero_l _ Ht) as [s ->]. now apply add_zero_r.
Qed.

Lemma compare_cont_refl (m : positive) : Pos.compare_cont Eq m m = Eq.
Proof. apply Pos.compare_cont_refl. Qed.

Lemma SFcompare_refl (v : float64) : is_nan v = false -> SFcompare v v = Some Eq.
Proof.
  destruct v as [s | s | | s m e]; try discriminate; intros _; simpl.
  - reflexivity.
  - destruct s; reflexivity.
  - rewrite Z.compare_refl, compare_cont_refl. destruct s; reflexivity.
Qed.

Lemma SFcompare_antisym (x y : float64) :
  SFcompare y x = CompOpp <$> SFcompare x y.
Proof.
  destruct x as [sx | sx | | sx mx ex], y as [sy | sy | | sy my ey]; simpl;
    try reflexivity;
    try (destruct sx; reflexivity);
    try (destruct sy; reflexivity);
    try (destruct sx, sy; reflexivity).
  rewrite (Z.compare_antisym ex ey).
  replace (Pos.compare_cont Eq my mx) with (CompOpp (Pos.compare_cont Eq mx my))
    by apply (Pos.compare_cont_antisym mx my Eq).
  destruct sx, sy; simpl; try reflexivity;
    destruct (ex ?= ey)%Z; simpl; reflexivity.
Qed.

(** Two numbers are apart exactly when one is below the other. *)
Lemma ltb_or_ltb (x v : float64) :
  is_nan v = false ->
  ltb x v || ltb v x = negb (is_nan x) && negb (eqb x v).
Proof.
  intros Hv. unfold ltb, eqb, SFltb, SFeqb. rewrite (SFcompare_antisym x v).
  destruct x as [sx | sx | | sx mx ex]; try reflexivity;
    (destruct (SFcompare _ v) as [[| |] |] eqn:E; simpl; try reflexivity);
    destruct v; try discriminate; simpl in E; try discriminate;
    repeat match goal with s : bool |- _ => destruct s end; discriminate.
Qed.

Lemma eqb_refl (v : float64) : is_nan v = false -> eqb v v = true.
Proof. intros Hv. unfold eqb, SFeqb. now rewrite SFcompare_refl. Qed.

(** A float that compares equal to a finite non-zero one is that float. *)
Lemma eqb_finite_eq (x : float64) (s : bool) (m : positive) (e : Z) :
  eqb x (S754_finite s m e) = true -> x = S754_finite s m e.
Proof.
  unfold eqb, SFeqb.
  destruct x as [sx | sx | | sx mx ex]; simpl;
    try discriminate;
    try (destruct s; discriminate);
    try (destruct sx; discriminate).
  destruct (ex ?= e)%Z eqn:Ee;
    try (destruct sx, s; discriminate).
  apply Z.compare_eq in Ee. subst ex.
  destruct (Pos.compare_cont Eq mx m) eqn:Em;
    try (destruct sx, s; discriminate).
  apply Pos.compare_eq in Em. subst mx.
  destruct sx, s; try discriminate; reflexivity.
Qed.

(** Floats that compare equal are the same float or two zeros. *)
Lemma eqb_cases (a v : float64) :
  eqb a v = true -> a = v \/ (is_zero a = true /\ is_zero v = true).
Proof.
  intros E. destruct v as [s | s | | s m e].
  - right. split; [| reflexivity].
    destruct a as [sa | sa | | sa ma ea]; try reflexivity;
      unfold eqb, SFeqb in E; simpl in E; try discriminate;
      destruct sa; discriminate.
  - left. destruct a as [sa | sa | | sa ma ea];
      unfold eqb, SFeqb in E; simpl in E;
      try discriminate; try (destruct s; discriminate).
    destruct sa, s; try discriminate; reflexivity.
  - destruct a; discriminate.
  - left. now apply eqb_finite_eq.
Qed.

Lemma eqb_zeros (a v : float64) : is_zero a = true -> is_zero v = true -> eqb a v = true.
Proof. destruct a, v; try discriminate; reflexivity. Qed.

(** Comparisons do not tell the two zeros apart. *)
Lemma ltb_zeros (a v x : float64) :
  is_zero a = true -> is_zero v = true -> ltb x a = ltb x v /\ ltb a x = ltb v x.
Proof. destruct a, v; try discriminate. intros _ _. destruct x; split; reflexivity. Qed.

Lemma ltb_eqb (a v x : float64) :
  eqb a v = true -> ltb x a = ltb x v /\ ltb a x = ltb v x.
Proof.
  intros E. destruct (eqb_cases a v E) as [-> | [Ha Hv]];
    [split; reflexivity | now apply ltb_zeros].
Qed.

Lemma sub_zeros (a b : float64) :
  is_zero a = true -> is_zero b = true -> is_zero (sub a b) = true.
Proof. destruct a as [[|] | | |], b as [[|] | | |]; try discriminate; reflexivity. Qed.

Lemma add_zeros (a b : float64) :
  is_zero a = true -> is_zero b = true -> is_zero (add a b) = true.
Proof. destruct a as [[|] | | |], b as [[|] | | |]; try discriminate; reflexivity. Qed.

Lemma mul_zero_finite (d t : float64) :
  is_zero d = true -> is_finite t = true -> is_zero (mul d t) = true.
Proof. destruct d, t; try discriminate; reflexivity. Qed.

Lemma mul_finite_zero (t d : float64) :
  is_finite t = true -> is_zero d = true -> is_zero (mul t d) = true.
Proof. destruct d, t; try discriminate; reflexivity. Qed.

(** Interpolating between zeros gives a zero. *)
Lemma lerp_zeros (a b d t : float64) :
  is_zero a = true -> is_zero b = true -> is_zero d = true ->
  is_finite t = true -> is_finite (sub one t) = true ->
  is_zero (lerp a b d t) = true.
Proof.
  intros Ha Hb Hd Ht Ht'. unfold lerp. destruct (leb half t).
  - apply sub_zeros; [exact Hb | now apply mul_zero_finite].
  - apply add_zeros; [exact Ha | now apply mul_zero_finite].
Qed.

End FloatFacts.

(** ** Quartiles of a constant column *)

Section OutlierProperties.
Import Py F64 Tools.

Lemma insert_sorted_Forall {A} (P : A -> Prop) (le : A -> A -> bool) (x : A) (l : list A) :
  P x -> Forall P l -> Forall P (insert_sorted le x l).
Proof.
  intros Hx Hl. induction Hl as [| y r Hy Hr IH]; simpl.
  - constructor; [exact Hx | constructor].
  - destruct (le x y).
    + constructor; [exact Hx |]. constructor; assumption.
    + constructor; assumption.
Qed.

Lemma sort_values_Forall {A} (P : A -> Prop) (le : A -> A -> bool) (l : list A) :
  Forall P l -> Forall P (sort_values le l).
Proof.
  unfold sort_values. induction 1 as [| x r Hx Hr IH]; simpl.
  - constructor.
  - apply insert_sorted_Forall; assumption.
Qed.

Lemma insert_sorted_length {A} (le : A -> A -> bool) (x : A) (l : list A) :
  length (insert_sorted le x l) = S (length l).
Proof.
  induction l as [| y r IH]; simpl; [reflexivity |].
  destruct (le x y); simpl; [reflexivity | now rewrite IH].
Qed.

Lemma sort_values_length {A} (le : A -> A -> bool) (l : list A) :
  length (sort_values le l) = length l.
Proof.
  unfold sort_values. induction l as [| x r IH]; simpl; [reflexivity |].
  now rewrite insert_sorted_length, IH.
Qed.

Lemma nth_constant {A} (l : list A) (v d : A) (i : nat) :
  Forall (fun x => x = v) l -> (i < length l)%nat -> nth i l d = v.
Proof.
  intros Hl. revert i. induction Hl as [| x r Hx Hr IH]; intros i Hi; simpl in *.
  - lia.
  - destruct i as [| i]; [exact Hx |]. apply IH. lia.
Qed.

(** The positions a quartile reads lie inside the data, and its weight
    and the complement of its weight are finite. *)
Lemma quantile_indexes_inside (n : nat) (k : Z) :
  (0 <= k < 4)%Z -> (0 < n)%nat ->
  let '(i, j, gamma) := quantile_indexes n k in
  (i < n)%nat /\ (j < n)%nat
  /\ is_finite gamma = true /\ is_finite (sub one gamma) = true.
Proof.
  intros Hk Hn. unfold quantile_indexes, quantile_positions.
  set (last := (n - 1)%nat).
  destruct (Z.leb_spec (Z.of_nat last * 4) (Z.of_nat last * k)) as [Hge | Hlt].
  - assert (Hlast : Z.of_nat last = 0%Z) by nia.
    rewrite Hlast. repeat split; try (subst last; lia); reflexivity.
  - assert (H0 : (0 <= Z.of_nat last * k)%Z) by nia.
    assert (Hdiv : (0 <= Z.of_nat last * k / 4 < Z.of_nat last)%Z).
    { split; [apply Z.div_pos; lia | apply Z.div_lt_upper_bound; lia]. }
    pose proof (Z.mod_pos_bound (Z.of_nat last * k) 4 ltac:(lia)) as Hmod.
    split; [subst last; lia |]. split; [subst last; lia |].
    assert (Hr : (Z.of_nat last * k mod 4 = 0 \/ Z.of_nat last * k mod 4 = 1
                  \/ Z.of_nat last * k mod 4 = 2 \/ Z.of_nat last * k mod 4 = 3)%Z) by lia.
    destruct Hr as [-> | [-> | [-> | ->]]]; split; reflexivity.
Qed.

(** Every quartile of data whose values all are the number [v] is [v]:
    the difference of the neighbours is [0.0], and numpy's interpolation
    adds nothing to [v]. *)
Lemma quantile_constant_float (vs : list float64) (k : Z) (v : float64) :
  vs <> [] -> Forall (fun x => x = v) vs -> plain v -> (0 <= k < 4)%Z ->
  quantile (Float64 vs) k = v.
Proof.
  intros Hne Hall Hv Hk. unfold quantile. cbn [series_len].
  assert (Hn : (0 < length vs)%nat) by (destruct vs; [congruence | simpl; lia]).
  pose proof (quantile_indexes_inside (length vs) k Hk Hn) as Hidx.
  destruct (quantile_indexes (length vs) k) as [[i j] gamma].
  destruct Hidx as (Hi & Hj & Hg & Hg').
  pose proof (sort_values_Forall _ leb _ Hall) as Hs.
  pose proof (sort_values_length leb vs) as Hlen.
  rewrite (nth_constant _ v nan i Hs) by lia.
  rewrite (nth_constant _ v nan j Hs) by lia.
  now apply lerp_constant.
Qed.

Lemma wrap64_0 : wrap64 0 = 0%Z.
Proof. reflexivity. Qed.

Lemma quantile_constant_int (zs : list Z) (k z : Z) :
  zs <> [] -> Forall (fun x => x = z) zs -> plain (of_Z z) -> (0 <= k < 4)%Z ->
  quantile (Int64 zs) k = of_Z z.
Proof.
  intros Hne Hall Hv Hk. unfold quantile. cbn [series_len].
  assert (Hn : (0 < length zs)%nat) by (destruct zs; [congruence | simpl; lia]).
  pose proof (quantile_indexes_inside (length zs) k Hk Hn) as Hidx.
  destruct (quantile_indexes (length zs) k) as [[i j] gamma].
  destruct Hidx as (Hi & Hj & Hg & Hg').
  pose proof (sort_values_Forall _ Z.leb _ Hall) as Hs.
  pose proof (sort_values_length Z.leb zs) as Hlen.
  rewrite (nth_constant _ z 0%Z i Hs) by lia.
  rewrite (nth_constant _ z 0%Z j Hs) by lia.
  rewrite Z.sub_diag, wrap64_0.
  change (of_Z 0) with (S754_zero false).
  rewrite <- (sub_diag (of_Z z) (proj1 Hv)).
  now apply lerp_constant.
Qed.

Lemma nth_Forall {A} (P : A -> Prop) (l : list A) (d : A) (i : nat) :
  Forall P l -> (i < length l)%nat -> P (nth i l d).
Proof.
  intros Hl. revert i. induction Hl as [| x r Hx Hr IH]; intros i Hi; simpl in *.
  - lia.
  - destruct i as [| i]; [exact Hx |]. apply IH. lia.
Qed.

(** Every quartile of zeros is a zero. *)
Lemma quantile_zeros_float (vs : list float64) (k : Z) :
  vs <> [] -> Forall (fun x => is_zero x = true) vs -> (0 <= k < 4)%Z ->
  is_zero (quantile (Float64 vs) k) = true.
Proof.
  intros Hne Hall Hk. unfold quantile. cbn [series_len].
  assert (Hn : (0 < length vs)%nat) by (destruct vs; [congruence | simpl; lia]).
  pose proof (quantile_indexes_inside (length vs) k Hk Hn) as Hidx.
  destruct (quantile_indexes (length vs) k) as [[i j] gamma].
  destruct Hidx as (Hi & Hj & Hg & Hg').
  pose proof (sort_values_Forall _ leb _ Hall) as Hs.
  pose proof (sort_values_length leb vs) as Hlen.
  assert (Ha := nth_Forall _ _ nan i Hs ltac:(lia)).
  assert (Hb := nth_Forall _ _ nan j Hs ltac:(lia)).
  apply lerp_zeros; try assumption. now apply sub_zeros.
Qed.

Lemma quantile_zeros_int (zs : list Z) (k z : Z) :
  zs <> [] -> Forall (fun x => x = z) zs -> is_zero (of_Z z) = true -> (0 <= k < 4)%Z ->
  is_zero (quantile (Int64 zs) k) = true.
Proof.
  intros Hne Hall Hz Hk. unfold quantile. cbn [series_len].
  assert (Hn : (0 < length zs)%nat) by (destruct zs; [congruence | simpl; lia]).
  pose proof (quantile_indexes_inside (length zs) k Hk Hn) as Hidx.
  destruct (quantile_indexes (length zs) k) as [[i j] gamma].
  destruct Hidx as (Hi & Hj & Hg & Hg').
  pose proof (sort_values_Forall _ Z.leb _ Hall) as Hs.
  pose proof (sort_values_length Z.leb zs) as Hlen.
  rewrite (nth_constant _ z 0%Z i Hs) by lia.
  rewrite (nth_constant _ z 0%Z j Hs) by lia.
  rewrite Z.sub_diag, wrap64_0.
  now apply lerp_zeros.
Qed.

(** What is left of a [float64] column whose numbers all equal [v] once
    the NaN cells are dropped. *)
Lemma all_equal_dropna (xs : list float64) (v : float64) :
  Forall (fun x => is_nan x = true \/ eqb x v = true) xs ->
  Forall (fun x => eqb x v = true) (filter (fun x => is_nan x = false) xs).
Proof.
  induction 1 as [| x r Hx Hr IH]; [constructor |].
  rewrite filter_cons. destruct (decide (is_nan x = false)) as [E | E]; [| exact IH].
  constructor; [| exact IH]. destruct Hx as [Hx | Hx]; [congruence | exact Hx].
Qed.

Lemma series_nonempty (zs : list Z) : series_len (Int64 zs) <> 0%nat -> zs <> [].
Proof. destruct zs; [intros Hne; now contradiction Hne | discriminate]. Qed.

(** Every quartile of a column whose numbers all equal a finite [v]
    compares equal to [v], and is [v] itself unless [v] is a zero. *)
Lemma quantile_equal (vals : Series) (k : Z) (v : float64) :
  series_len (dropna vals) <> 0%nat -> all_equal vals v -> is_finite v = true ->
  (0 <= k < 4)%Z ->
  eqb (quantile (dropna vals) k) v = true
  /\ (is_zero v = false -> quantile (dropna vals) k = v).
Proof.
  intros Hne Hall Hfin Hk.
  assert (Hnan : is_nan v = false) by (destruct v; try discriminate; reflexivity).
  destruct (is_zero v) eqn:Hz.
  - split; [| discriminate]. apply eqb_zeros; [| exact Hz].
    destruct vals as [zs | xs]; cbn [dropna] in *.
    + destruct Hall as (z & -> & Hall).
      apply (quantile_zeros_int zs k z); try assumption. now apply series_nonempty.
    + apply quantile_zeros_float; [| | exact Hk].
      * intros E. cbn [series_len] in Hne. rewrite E in Hne. now contradiction Hne.
      * eapply List.Forall_impl; [| exact (all_equal_dropna xs v Hall)].
        intros x Hx. simpl in Hx.
        destruct (eqb_cases x v Hx) as [-> | [Hx0 _]]; assumption.
  - assert (Hv : plain v).
    { split; [exact Hfin |]. intros ->. discriminate. }
    assert (Hq : quantile (dropna vals) k = v).
    { destruct vals as [zs | xs]; cbn [dropna] in *.
      - destruct Hall as (z & -> & Hall).
        apply quantile_constant_int; try assumption. now apply series_nonempty.
      - apply quantile_constant_float; try assumption.
        + intros E. cbn [series_len] in Hne. rewrite E in Hne. now contradiction Hne.
        + eapply List.Forall_impl; [| exact (all_equal_dropna xs v Hall)].
          intros x Hx. simpl in Hx.
          destruct (eqb_cases x v Hx) as [-> | [_ Hv0]]; [reflexivity | congruence]. }
    split; [rewrite Hq; now apply eqb_refl | intros _; exact Hq].
Qed.

(** With bounds that equal the number [v], the outliers are the cells
    that hold a number other than [v]; a NaN cell is none. *)
Lemma is_outlier_collapsed (lower upper v x : float64) :
  is_nan v = false -> eqb lower v = true -> eqb upper v = true ->
  is_outlier lower upper x = present_and_differs v x.
Proof.
  intros Hv Hl Hu. unfold is_outlier, present_and_differs.
  destruct (ltb_eqb lower v x Hl) as [-> _].
  destruct (ltb_eqb upper v x Hu) as [_ ->].
  now apply ltb_or_ltb.
Qed.

Lemma present_and_differs_iff (v x : float64) :
  present_and_differs v x = true <-> is_nan x = false /\ eqb x v = false.
Proof.
  unfold present_and_differs. rewrite andb_true_iff, !negb_true_iff. reflexivity.
Qed.

Lemma finite_not_nan (v : float64) : is_finite v = true -> is_nan v = false.
Proof. destruct v; try discriminate; reflexivity. Qed.

(** No cell of such a column holds a number other than [v]. *)
Lemma no_number_differs (vals : Series) (v : float64) :
  all_equal vals v -> is_finite v = true ->
  filter (fun x => present_and_differs v x = true) (astype_float vals) = [].
Proof.
  intros Hall Hv.
  assert (Hcells : Forall (fun x => is_nan x = true \/ eqb x v = true) (astype_float vals)).
  { destruct vals as [zs | xs]; simpl in *; [| exact Hall].
    destruct Hall as (z & -> & Hz). apply Forall_map.
    eapply List.Forall_impl; [| exact Hz]. intros x ->. right.
    apply eqb_refl. now apply finite_not_nan. }
  induction Hcells as [| x r Hx Hr IH]; [reflexivity |].
  rewrite filter_cons.
  destruct (decide (present_and_differs v x = true)) as [E | E]; [| exact IH].
  exfalso. apply present_and_differs_iff in E as [E1 E2].
  destruct Hx as [Hx | Hx]; congruence.
Qed.

Lemma percentage_of_none (total : nat) :
  total <> 0%nat -> mul (int_true_divide 0 (Z.of_nat total)) hundred = S754_zero false.
Proof.
  intros Ht. unfold int_true_divide.
  destruct (Z.of_nat total) as [| p | p] eqn:E; [lia | reflexivity | lia].
Qed.

(** The local variables of [check_for_outliers] on a column whose numbers
    all equal a finite [v]. *)
Lemma outlier_stats_constant (vals : Series) (total : nat) (v : float64) :
  series_len (dropna vals) <> 0%nat -> all_equal vals v -> is_finite v = true ->
  let s := outlier_stats vals total in
  eqb (Q1 s) v = true /\ eqb (Q3 s) v = true /\ is_zero (IQR s) = true
  /\ eqb (lower_bound s) v = true /\ eqb (upper_bound s) v = true
  /\ (is_zero v = false ->
      Q1 s = v /\ Q3 s = v /\ IQR s = S754_zero false
      /\ lower_bound s = v /\ upper_bound s = v)
  /\ outliers s = [] /\ outlier_count s = 0%nat
  /\ (total <> 0%nat -> outlier_percentage s = S754_zero false).
Proof.
  intros Hne Hall Hfin s.
  assert (Hnan : is_nan v = false) by now apply finite_not_nan.
  destruct (quantile_equal vals 1 v Hne Hall Hfin ltac:(lia)) as [H1 H1'].
  destruct (quantile_equal vals 3 v Hne Hall Hfin ltac:(lia)) as [H3 H3'].
  change (quantile (dropna vals) 1) with (Q1 s) in H1, H1'.
  change (quantile (dropna vals) 3) with (Q3 s) in H3, H3'.
  assert (Hexact : is_zero v = false ->
            Q1 s = v /\ Q3 s = v /\ IQR s = S754_zero false
            /\ lower_bound s = v /\ upper_bound s = v).
  { intros Hz. specialize (H1' Hz). specialize (H3' Hz).
    assert (Hv : plain v) by (split; [exact Hfin | intros ->; discriminate]).
    assert (Hi : IQR s = S754_zero false).
    { change (sub (Q3 s) (Q1 s) = S754_zero false). rewrite H1', H3'.
      now apply sub_diag. }
    split; [exact H1' |]. split; [exact H3' |]. split; [exact Hi |]. split.
    - change (sub (Q1 s) (mul one_and_half (IQR s)) = v). rewrite H1', Hi.
      change (mul one_and_half (S754_zero false)) with (S754_zero false).
      now apply sub_zero_r.
    - change (add (Q3 s) (mul one_and_half (IQR s)) = v). rewrite H3', Hi.
      change (mul one_and_half (S754_zero false)) with (S754_zero false).
      now apply add_zero_r. }
  assert (Hbounds : is_zero (IQR s) = true
                    /\ eqb (lower_bound s) v = true /\ eqb (upper_bound s) v = true).
  { destruct (is_zero v) eqn:Hz.
    - assert (Hq1 : is_zero (Q1 s) = true)
        by (destruct (eqb_cases _ _ H1) as [-> | [? _]]; assumption).
      assert (Hq3 : is_zero (Q3 s) = true)
        by (destruct (eqb_cases _ _ H3) as [-> | [? _]]; assumption).
      assert (Hi : is_zero (IQR s) = true) by now apply sub_zeros.
      assert (Hm : is_zero (mul one_and_half (IQR s)) = true)
        by now apply mul_finite_zero.
      split; [exact Hi |].
      split; (apply eqb_zeros; [| exact Hz]).
      + now apply sub_zeros.
      + now apply add_zeros.
    - destruct (Hexact eq_refl) as (_ & _ & -> & -> & ->).
      split; [reflexivity |]. split; now apply eqb_refl. }
  destruct Hbounds as (Hi & Hl & Hu).
  assert (Hout : outliers s = []).
  { change (filter (fun x => is_outlier (lower_bound s) (upper_bound s) x = true)
              (astype_float vals) = []).
    rewrite <- (no_number_differs vals v Hall Hfin).
    apply list_filter_iff. intros x.
    now rewrite (is_outlier_collapsed _ _ v x Hnan Hl Hu). }
  split; [exact H1 |]. split; [exact H3 |]. split; [exact Hi |].
  split; [exact Hl |]. split; [exact Hu |]. split; [exact Hexact |].
  split; [exact Hout |]. split.
  - change (length (outliers s) = 0%nat). now rewrite Hout.
  - intros Ht.
    change (mul (int_true_divide (Z.of_nat (length (outliers s))) (Z.of_nat total)) hundred
            = S754_zero false).
    rewrite Hout. now apply percentage_of_none.
Qed.

End OutlierProperties.

(** ** [check_for_outliers] on a constant column *)

Section OutlierTool.
Context `{Tools.Libraries}.
Import Py F64 Tools.

Lemma numeric_values_length (c : Column) (vals : Series) :
  numeric_values c = Some vals -> series_len vals = column_len c.
Proof. destruct c; simpl; intros [= <-]; reflexivity. Qed.

Lemma dropna_length (vals : Series) : (series_len (dropna vals) <= series_len vals)%nat.
Proof.
  destruct vals as [zs | xs]; simpl; [lia |].
  induction xs as [| x r IH]; [reflexivity |].
  rewrite filter_cons. destruct (decide (is_nan x = false)); simpl; lia.
Qed.

(** C5, as the code has it. On a numeric column whose non-NaN values all
    equal one finite number [v] (and there is one), the two quartiles and
    the two bounds equal [v] and the IQR is zero; a cell is classified as
    an outlier exactly when it holds a number other than [v], so a NaN
    cell never is; the selected rows are the rows holding another number,
    of which there are none; and the percentage is 100 times their count
    over the total number of rows, that is [0.0]. The report shows the
    quartiles, the IQR and the bounds as numpy rounds them to 2 decimals.
    Unless [v] is a zero, the quartiles and bounds are the float [v]
    itself and the IQR is [0.0]; for [v = 0] they are zeros, of either
    sign. *)
Theorem check_for_outliers_constant_column (l : nat) (st : Store) (f : Frame)
    (column_name : string) (c : Column) (vals : Series) (v : float64) :
  frames st !! l = Some f ->
  lookup_col column_name (cols f) = Some c ->
  numeric_values c = Some vals ->
  column_len c = nrows f ->
  series_len (dropna vals) <> 0%nat ->
  all_equal vals v ->
  is_finite v = true ->
  let s := outlier_stats vals (nrows f) in
  eqb (lower_bound s) v = true /\ eqb (upper_bound s) v = true
  /\ eqb (Q1 s) v = true /\ eqb (Q3 s) v = true /\ is_zero (IQR s) = true
  /\ (forall x : float64,
        is_outlier (lower_bound s) (upper_bound s) x = true
        <-> is_nan x = false /\ eqb x v = false)
  /\ is_outlier (lower_bound s) (upper_bound s) nan = false
  /\ outliers s = filter (fun x => present_and_differs v x = true) (astype_float vals)
  /\ outlier_count s = 0%nat
  /\ outlier_percentage s
     = mul (int_true_divide
              (Z.of_nat (length (filter (fun x => present_and_differs v x = true)
                                   (astype_float vals))))
              (Z.of_nat (nrows f)))
           hundred
  /\ outlier_percentage s = S754_zero false
  /\ check_for_outliers (Some l) column_name st
     = (Returned (VDict
          [(VStr "column", VStr column_name);
           (VStr "Q1", num (np_round2 (Q1 s)));
           (VStr "Q3", num (np_round2 (Q3 s)));
           (VStr "IQR", num (np_round2 (IQR s)));
           (VStr "lower_bound", num (np_round2 (lower_bound s)));
           (VStr "upper_bound", num (np_round2 (upper_bound s)));
           (VStr "outlier_count", VInt 0);
           (VStr "outlier_percentage", num (S754_zero false));
           (VStr "note", VStr "Outliers are defined by the 1.5 * IQR rule.")]), st)
  /\ (is_zero v = false ->
      lower_bound s = v /\ upper_bound s = v /\ Q1 s = v /\ Q3 s = v
      /\ IQR s = S754_zero false
      /\ np_round2 (IQR s) = S754_zero false).
Proof.
  intros Hf Hc Hnum Hlen Hne Hall Hfin s.
  assert (Hnan : is_nan v = false) by now apply finite_not_nan.
  destruct (outlier_stats_constant vals (nrows f) v Hne Hall Hfin)
    as (H1 & H3 & Hi & Hl & Hu & Hexact & Hout & Hcount & Hpct).
  fold s in H1, H3, Hi, Hl, Hu, Hexact, Hout, Hcount, Hpct.
  assert (Hrows : nrows f <> 0%nat).
  { rewrite <- Hlen, <- (numeric_values_length c vals Hnum).
    pose proof (dropna_length vals). lia. }
  specialize (Hpct Hrows).
  split; [exact Hl |]. split; [exact Hu |].
  split; [exact H1 |]. split; [exact H3 |]. split; [exact Hi |].
  split.
  { intros x. rewrite (is_outlier_collapsed _ _ v x Hnan Hl Hu).
    apply present_and_differs_iff. }
  split; [now rewrite (is_outlier_collapsed _ _ v nan Hnan Hl Hu) |].
  split; [now rewrite Hout, (no_number_differs vals v Hall Hfin) |].
  split; [exact Hcount |].
  split.
  { rewrite Hpct, (no_number_differs vals v Hall Hfin). symmetry.
    now apply percentage_of_none. }
  split; [exact Hpct |].
  split.
  { unfold check_for_outliers, load, bind, gets, ret. simpl.
    rewrite Hf. simpl. rewrite Hc. simpl. rewrite Hnum.
    destruct (series_len (dropna vals) =? 0)%nat eqn:Ed;
      [apply Nat.eqb_eq in Ed; contradiction |].
    destruct (nrows f =? 0)%nat eqn:E; [apply Nat.eqb_eq in E; contradiction |].
    unfold outlier_report. fold s. rewrite Hpct, Hcount. reflexivity. }
  intros Hz. destruct (Hexact Hz) as (E1 & E3 & Ei & El & Eu).
  split; [exact El |]. split; [exact Eu |]. split; [exact E1 |]. split; [exact E3 |].
  split; [exact Ei |]. now rewrite Ei.
Qed.

End OutlierTool.

(** ** The two loops *)

Section LoopProperties.
Context `{Agent.Collaborators}.
Import Py Agent.

#[local] Arguments startswith : simpl never.
#[local] Arguments strip : simpl never.
#[local] Arguments split : simpl never.
#[local] Arguments split1 : simpl never.
#[local] Arguments take_prefix : simpl never.

Lemma replies_app (a b : list Event) : replies (a ++ b) = (replies a ++ replies b)%list.
Proof. apply omap_app. Qed.

Lemma histories_sent_app (a b : list Event) :
  histories_sent (a ++ b) = (histories_sent a ++ histories_sent b)%list.
Proof. apply omap_app. Qed.

(** One model call: the client runs on the world, and the call is logged
    with its reply. *)
Lemma call_model_run (model_name : string) (contents : Contents)
    (config : option (string * list ToolDecl)) (s : State) :
  call_model model_name contents config s
  = (fst (generate_content model_name contents config (world s)),
     {| world := snd (generate_content model_name contents config (world s));
        log := (log s ++ [EvModel model_name contents config
                            (fst (generate_content model_name contents config (world s)))])%list |}).
Proof.
  unfold call_model, bind, attempt, in_world, emit, modify, lift.
  destruct (generate_content model_name contents config (world s)) as [[resp | e] w];
    reflexivity.
Qed.

(** A tool function, called through [invoke], adds one event and never
    reaches the model. *)
Lemma invoke_events (tool : string) (df : DataFrame) (arguments : list PyVal)
    (body : M World PyVal) (s : State) :
  log (snd (invoke tool df arguments body s)) = (log s ++ [EvTool tool df arguments])%list.
Proof.
  unfold invoke, bind, emit, modify, in_world. simpl.
  destruct (body (world s)) as [[v | e] w]; reflexivity.
Qed.

(** The dispatcher only prints and calls tools: it never calls the model. *)
Lemma call_tool_events (name : string) (df : DataFrame) (kwargs : gmap string PyVal)
    (s : State) :
  exists evs, log (snd (call_tool name df kwargs s)) = (log s ++ evs)%list
              /\ replies evs = [] /\ histories_sent evs = [].
Proof.
  unfold call_tool.
  destruct (String.eqb name "data_summary").
  { exists [EvPrint ("-> Executing tool: " ++ name ++ "()"); EvTool "data_summary" df []].
    split; [| split; reflexivity].
    unfold bind. rewrite print_run. rewrite invoke_events. simpl.
    now rewrite <- app_assoc. }
  destruct (String.eqb name "automated_eda").
  { exists [EvPrint ("-> Executing tool: " ++ name ++ "()"); EvTool "automated_eda" df []].
    split; [| split; reflexivity].
    unfold bind. rewrite print_run. rewrite invoke_events. simpl.
    now rewrite <- app_assoc. }
  destruct (String.eqb name "check_for_outliers").
  { destruct (kwargs !! "column_name") as [column_name |].
    - exists [EvPrint ("-> Executing tool: " ++ name ++ "(column_name='"
                         ++ py_str column_name ++ "')");
              EvTool "check_for_outliers" df [column_name]].
      split; [| split; reflexivity].
      unfold bind. rewrite print_run. rewrite invoke_events. simpl.
      now rewrite <- app_assoc.
    - exists []. split; [| split; reflexivity]. simpl. now rewrite app_nil_r. }
  exists [EvPrint ("ERROR: Unknown tool requested by the model: " ++ name)].
  split; [| split; reflexivity]. reflexivity.
Qed.

Lemma call_tool_unpacked_events (name : string) (df : DataFrame)
    (d : gmap string PyVal) (s : State) :
  exists evs, log (snd (call_tool_unpacked name df d s)) = (log s ++ evs)%list
              /\ replies evs = [] /\ histories_sent evs = [].
Proof.
  unfold call_tool_unpacked.
  destruct (bool_decide (is_Some (d !! "name") ∨ is_Some (d !! "df"))).
  - exists []. split; [| split; reflexivity]. simpl. now rewrite app_nil_r.
  - apply call_tool_events.
Qed.

(** One iteration of the structured loop: it calls the model exactly once,
    with the history it was given, never raises, and either returns an
    answer or appends one whole exchange. *)
Lemma agent_turn_summary (df : DataFrame) (model_name : string)
    (tools_list : list ToolDecl) (system_instruction : string)
    (turn : nat) (h : list Turn) (s : State) :
  exists (reply : PyResult Response) (evs : list Event) (r : string + list Turn)
         (s' : State),
    agent_turn df model_name tools_list system_instruction turn h s = (Returned r, s')
    /\ log s' = (log s ++ evs)%list
    /\ replies evs = [reply]
    /\ histories_sent evs = [h]
    /\ turn_result turn h reply r.
Proof.
  destruct (agent_turn df model_name tools_list system_instruction turn h s)
    as [res s'] eqn:Hrun.
  unfold agent_turn in Hrun.
  unfold bind at 1 in Hrun. rewrite print_run in Hrun.
  unfold bind at 1 in Hrun. unfold attempt at 1 in Hrun.
  rewrite call_model_run in Hrun. simpl in Hrun.
  set (line := (nl ++ "--- Turn " ++ pretty (turn + 1)%nat
                   ++ ": Calling Gemini (Official FC) ---")) in *.
  destruct (generate_content model_name (CHistory h)
              (Some (system_instruction, tools_list)) (world s)) as [reply w].
  simpl in Hrun. exists reply.
  set (call := EvModel model_name (CHistory h)
                 (Some (system_instruction, tools_list)) reply) in *.
  destruct reply as [response | e].
  2:{ injection Hrun as <- <-.
      exists [EvPrint line; call]. eexists. eexists.
      split; [reflexivity |]. simpl. rewrite <- app_assoc.
      repeat split; reflexivity. }
  destruct (function_calls response) as [| tool_call others] eqn:Hcalls.
  { exists [EvPrint line; call].
    assert (Hlog : log s' = (log s ++ [EvPrint line; call])%list
                   /\ exists r, res = Returned r /\ turn_result turn h (Returned response) r).
    { unfold turn_result. rewrite Hcalls.
      destruct (text response) as [[| c t] |]; injection Hrun as <- <-; simpl;
        rewrite <- app_assoc; (split; [reflexivity | eexists; split; reflexivity]). }
    destruct Hlog as (Hlog & r & -> & Hres).
    exists r, s'. repeat split; assumption || reflexivity. }
  unfold bind at 1 in Hrun. rewrite print_run in Hrun. simpl in Hrun.
  unfold bind at 1 in Hrun. unfold attempt at 1 in Hrun. unfold bind at 1 in Hrun.
  match type of Hrun with context [call_tool_unpacked ?n ?d ?a ?st] =>
    destruct (call_tool_unpacked_events n d a st) as (tevs & Htool & Hr & Hh);
    destruct (call_tool_unpacked n d a st) as [[out | e] s4]
  end; simpl in Htool.
  - unfold bind, print, emit, modify, ret in Hrun. simpl in Hrun.
    injection Hrun as <- <-.
    eexists. eexists. eexists. split; [reflexivity |]. simpl. rewrite Htool.
    split; [rewrite <- !app_assoc; simpl; reflexivity |].
    unfold replies, histories_sent in *. simpl. rewrite !omap_app, Hr, Hh. simpl.
    split; [reflexivity |]. split; [reflexivity |].
    unfold turn_result. rewrite Hcalls. exists (Returned out). reflexivity.
  - unfold bind, print, emit, modify, ret in Hrun. simpl in Hrun.
    injection Hrun as <- <-.
    eexists. eexists. eexists. split; [reflexivity |]. simpl. rewrite Htool.
    split; [rewrite <- !app_assoc; simpl; reflexivity |].
    unfold replies, histories_sent in *. simpl. rewrite !omap_app, Hr, Hh. simpl.
    split; [reflexivity |]. split; [reflexivity |].
    unfold turn_result. rewrite Hcalls. exists (Raised e). reflexivity.
Qed.

Lemma paired_user_turn (user_query : string) : paired [user_turn user_query].
Proof. exists user_query, []. reflexivity. Qed.

Lemma paired_exchange (h : list Turn) (x : FunctionCall * PyVal) :
  paired h -> paired (h ++ exchange x).
Proof.
  intros (q & xs & ->). exists q, (xs ++ [x])%list.
  rewrite flat_map_app. reflexivity.
Qed.

Lemma no_dangling_exchanges (xs : list (FunctionCall * PyVal)) :
  no_dangling (flat_map exchange xs) = true.
Proof.
  induction xs as [| [fc payload] xs IH]; [reflexivity |].
  simpl. rewrite IH. unfold result_for. simpl. rewrite String.eqb_refl. simpl.
  destruct xs as [| [fc' payload'] xs']; reflexivity.
Qed.

(** A history of whole exchanges has no dangling request. *)
Lemma paired_no_dangling (h : list Turn) : paired h -> no_dangling h = true.
Proof.
  intros (q & xs & ->). simpl. apply no_dangling_exchanges.
Qed.

(** The [for] loop over the turns [start .. start + n - 1], from a history
    of whole exchanges: it returns, its histories stay whole, it calls the
    model at most [n] times, it stops at the first reply that is not a
    tool request, and only a run of [n] tool requests exhausts it. *)
Lemma agent_turns_summary (df : DataFrame) (model_name : string)
    (tools_list : list ToolDecl) (system_instruction : string) (n : nat) :
  forall (start : nat) (h : list Turn) (s : State),
    paired h ->
    exists (answer : string) (h' : list Turn) (s' : State) (evs : list Event),
      agent_turns df model_name tools_list system_instruction (seq start n) h s
        = (Returned (answer, h'), s')
      /\ log s' = (log s ++ evs)%list
      /\ paired h'
      /\ Forall paired (histories_sent evs)
      /\ (length (replies evs) <= n)%nat
      /\ (forallb asks_for_tool (replies evs) = true ->
          answer = exhausted_message /\ length (replies evs) = n)
      /\ (forall k r, replies evs !! k = Some r -> asks_for_tool r = false ->
          length (replies evs) = S k)
      /\ (forall k e, replies evs !! k = Some (Raised e) ->
          answer = api_error_message (start + k) e)
      /\ length (histories_sent evs) = length (replies evs).
Proof.
  induction n as [| n IH]; intros start h s Hh.
  { exists exhausted_message, h, s, []. simpl. rewrite app_nil_r.
    repeat split; try assumption; try constructor; try reflexivity;
      intros k r Hk; rewrite lookup_nil in Hk; discriminate. }
  destruct (agent_turn_summary df model_name tools_list system_instruction start h s)
    as (reply & evs1 & r & s1 & Hrun & Hlog & Hreplies & Hsent & Hres).
  assert (Hstop : forall answer, r = inl answer -> asks_for_tool reply = false ->
            (forall e, reply = Raised e -> answer = api_error_message (start + 0) e) ->
            exists (answer : string) (h' : list Turn) (s' : State) (evs : list Event),
              agent_turns df model_name tools_list system_instruction (seq start (S n)) h s
                = (Returned (answer, h'), s')
              /\ log s' = (log s ++ evs)%list
              /\ paired h'
              /\ Forall paired (histories_sent evs)
              /\ (length (replies evs) <= S n)%nat
              /\ (forallb asks_for_tool (replies evs) = true ->
                  answer = exhausted_message /\ length (replies evs) = S n)
              /\ (forall k r, replies evs !! k = Some r -> asks_for_tool r = false ->
                  length (replies evs) = S k)
              /\ (forall k e, replies evs !! k = Some (Raised e) ->
                  answer = api_error_message (start + k) e)
              /\ length (histories_sent evs) = length (replies evs)).
  { intros answer -> Hasks Herr. exists answer, h, s1, evs1.
    split; [simpl; unfold bind; now rewrite Hrun |].
    split; [exact Hlog |]. split; [exact Hh |].
    rewrite Hsent, Hreplies. simpl. rewrite Hasks.
    split; [repeat constructor; exact Hh |].
    split; [lia |]. split; [discriminate |].
    split; [intros [| k] r' Hk _; [reflexivity | discriminate] |].
    split; [| reflexivity].
    intros [| k] e Hk; [| discriminate]. injection Hk as ->. now apply Herr. }
  unfold turn_result in Hres.
  destruct reply as [response | e].
  2:{ apply (Hstop _ Hres); [reflexivity |].
      intros e' [= <-]. now rewrite Nat.add_0_r. }
  destruct (function_calls response) as [| tool_call others] eqn:Hcalls.
  { assert (Hasks : asks_for_tool (Returned response) = false)
      by (simpl; now rewrite Hcalls).
    destruct (text response) as [[| c t] |];
      apply (Hstop _ Hres Hasks); discriminate. }
  destruct Hres as (t & ->).
  destruct (IH (S start) _ s1 (paired_exchange h (tool_call, recorded_payload t) Hh))
    as (answer & h' & s' & evs2 & Hrun2 & Hlog2 & Hh' & Hsent2 & Hlen2 & Hall2 & Hlast2
        & Herr2 & Hsame2).
  exists answer, h', s', (evs1 ++ evs2)%list.
  split; [simpl; unfold bind; rewrite Hrun; exact Hrun2 |].
  split; [rewrite Hlog2, Hlog; now rewrite app_assoc |].
  split; [exact Hh' |].
  rewrite histories_sent_app, replies_app, Hsent, Hreplies. simpl.
  rewrite Hcalls. simpl.
  split; [constructor; assumption |].
  split; [lia |].
  split; [intros Hall; destruct (Hall2 Hall) as [-> ->]; now split |].
  split.
  { intros [| k] r' Hk Hasks.
    - injection Hk as <-. simpl in Hasks. rewrite Hcalls in Hasks. discriminate.
    - simpl in Hk. now rewrite (Hlast2 k r' Hk Hasks). }
  split; [| now rewrite Hsame2].
  intros [| k] e Hk; [discriminate |]. simpl in Hk.
  rewrite (Herr2 k e Hk). f_equal. lia.
Qed.

Lemma call_tool_two_step_events (name_and_args : string) (df : DataFrame) (s : State) :
  exists evs, log (snd (call_tool_two_step name_and_args df s)) = (log s ++ evs)%list
              /\ replies evs = [] /\ histories_sent evs = [].
Proof.
  unfold call_tool_two_step. destruct (parse_tool_call name_and_args) as [tool_name kwargs].
  apply call_tool_unpacked_events.
Qed.

(** The two-step loop as a straight line: the decision call, then one of
    the three branches. *)
Lemma enterprise_agent_new_run (user_query : string) (df : DataFrame)
    (model_name : string) (s : State) :
  enterprise_agent_new user_query df model_name s
  = let g1 := generate_content model_name (CPrompt (action_prompt user_query)) None
                (world s) in
    let s2 := {| world := snd g1;
                 log := (log s
                         ++ [EvPrint (nl ++ "--- Step 1: Model Decision (Tool or Response) ---");
                             EvModel model_name (CPrompt (action_prompt user_query)) None
                               (fst g1)])%list |} in
    match fst g1 with
    | Raised e => (Raised e, s2)
    | Returned resp =>
        match text resp with
        | None =>
            (Raised (MkExn "AttributeError" "'NoneType' object has no attribute 'strip'"), s2)
        | Some t =>
            let decision := strip t in
            let s3 := {| world := world s2;
                         log := (log s2 ++ [EvPrint ("Model Decision: " ++ decision)])%list |} in
            if startswith "TOOL:" decision then
              let tool_call_string := strip (nth 1 (split "TOOL:" decision) EmptyString) in
              match call_tool_two_step tool_call_string df s3 with
              | (Raised e, s4) => (Raised e, s4)
              | (Returned tool_output, s4) =>
                  second_call model_name
                    (followup_prompt tool_call_string
                       (take_prefix 20000%N (py_str tool_output)) user_query)
                    {| world := world s4;
                       log := (log s4
                               ++ [EvPrint (nl ++ "--- Step 2: Model Interpretation ---")])%list |}
              end
            else if startswith "RESPONSE:" decision then
              (Returned (Some (strip (nth 1 (split1 "RESPONSE:" decision) EmptyString))), s3)
            else
              second_call model_name (fallback_prompt user_query decision)
                {| world := world s3;
                   log := (log s3
                           ++ [EvPrint (nl ++ "--- Step 2: Model Fallback (Failed to follow format) ---")])%list |}
        end
    end.
Proof.
  unfold enterprise_agent_new, ask_model_for_action, second_call.
  unfold bind at 1. rewrite print_run.
  unfold bind at 1. unfold bind at 1. rewrite call_model_run. simpl.
  destruct (generate_content model_name (CPrompt (action_prompt user_query)) None (world s))
    as [[resp | e] w1]; simpl; [| now rewrite <- app_assoc].
  destruct (text resp) as [t |]; simpl; [| now rewrite <- app_assoc].
  unfold bind at 1. rewrite print_run. simpl. rewrite <- !app_assoc. simpl.
  destruct (startswith "TOOL:" (strip t)).
  - unfold bind at 1.
    match goal with |- context [call_tool_two_step ?a ?d ?st] =>
      destruct (call_tool_two_step a d st) as [[tool_output | e] s4] end; [| reflexivity].
    unfold bind at 1. rewrite print_run. unfold bind at 1. rewrite call_model_run. simpl.
    match goal with |- context [generate_content ?a ?b ?c ?w] =>
      destruct (generate_content a b c w) as [[final | e] w2] end; reflexivity.
  - destruct (startswith "RESPONSE:" (strip t)); [reflexivity |].
    unfold bind at 1. rewrite print_run. unfold bind at 1. rewrite call_model_run. simpl.
    rewrite <- !app_assoc. simpl.
    match goal with |- context [generate_content ?a ?b ?c ?w] =>
      destruct (generate_content a b c w) as [[final | e] w2] end; reflexivity.
Qed.

Ltac failed_reply_cases :=
  let Hk := fresh "Hk" in
  intros [| [| ?]] ? Hk; simpl in Hk; try discriminate Hk;
  injection Hk as <-; split; reflexivity.

Ltac summary_counts :=
  split; [simpl; lia |]; split; [simpl; lia |]; split; [try failed_reply_cases |].

(** Every run of the two-step loop: one or two model calls, none after a
    failed one, and how many is settled by the prefix of the decision. *)
Lemma enterprise_agent_new_summary (user_query : string) (df : DataFrame)
    (model_name : string) (s : State) :
  exists (r : PyResult (option string)) (s' : State) (evs : list Event),
    enterprise_agent_new user_query df model_name s = (r, s')
    /\ log s' = (log s ++ evs)%list
    /\ (1 <= model_calls evs)%nat
    /\ (model_calls evs <= 2)%nat
    /\ (forall k e, replies evs !! k = Some (Raised e) ->
        r = Raised e /\ model_calls evs = S k)
    /\ match decision_of evs with
       | None => model_calls evs = 1%nat /\ exists e, r = Raised e
       | Some decision =>
           if startswith "TOOL:" decision then
             model_calls evs = 2%nat \/ (model_calls evs = 1%nat /\ exists e, r = Raised e)
           else if startswith "RESPONSE:" decision then
             model_calls evs = 1%nat
             /\ r = Returned (Some (strip (nth 1 (split1 "RESPONSE:" decision) EmptyString)))
           else model_calls evs = 2%nat
       end.
Proof.
  destruct (enterprise_agent_new user_query df model_name s) as [r s'] eqn:Hrun.
  rewrite enterprise_agent_new_run in Hrun. cbv zeta in Hrun. unfold second_call in Hrun.
  destruct (generate_content model_name (CPrompt (action_prompt user_query)) None (world s))
    as [[resp | e] w1]; simpl in Hrun.
  2:{ injection Hrun as <- <-. do 3 eexists. split; [reflexivity |].
      split; [reflexivity |]. unfold model_calls, decision_of, replies. simpl.
      summary_counts. split; [reflexivity | eexists; reflexivity]. }
  destruct (text resp) as [t |] eqn:Ht; simpl in Hrun.
  2:{ injection Hrun as <- <-. do 3 eexists. split; [reflexivity |].
      split; [reflexivity |]. unfold model_calls, decision_of, replies. simpl.
      rewrite Ht. simpl.
      summary_counts. split; [reflexivity | eexists; reflexivity]. }
  destruct (startswith "TOOL:" (strip t)) eqn:Htool.
  - match type of Hrun with context [call_tool_two_step ?a ?d ?st] =>
      destruct (call_tool_two_step_events a d st) as (tevs & Hlog & Hr & _);
      destruct (call_tool_two_step a d st) as [[tool_output | e] s4]
    end; simpl in Hlog.
    + match type of Hrun with context [generate_content ?a ?b ?c ?w] =>
        destruct (generate_content a b c w) as [[final | e] w2] end;
        simpl in Hrun; injection Hrun as <- <-; do 3 eexists;
        (split; [reflexivity |]); simpl; rewrite Hlog;
        (split; [rewrite <- !app_assoc; reflexivity |]);
        unfold model_calls, decision_of; rewrite !replies_app, Hr; simpl;
        rewrite Ht; simpl; rewrite Htool;
        summary_counts; left; reflexivity.
    + injection Hrun as <- <-. do 3 eexists. split; [reflexivity |]. rewrite Hlog.
      split; [rewrite <- !app_assoc; reflexivity |].
      unfold model_calls, decision_of. rewrite !replies_app, Hr. simpl.
      rewrite Ht. simpl. rewrite Htool.
      summary_counts.
      right. split; [reflexivity | eexists; reflexivity].
  - destruct (startswith "RESPONSE:" (strip t)) eqn:Hresp.
    + injection Hrun as <- <-. do 3 eexists. split; [reflexivity |]. simpl.
      split; [rewrite <- !app_assoc; simpl; reflexivity |].
      unfold model_calls, decision_of, replies. simpl. rewrite Ht. simpl.
      rewrite Htool, Hresp.
      summary_counts. split; reflexivity.
    + match type of Hrun with context [generate_content ?a ?b ?c ?w] =>
        destruct (generate_content a b c w) as [[final | e] w2] end;
        simpl in Hrun; injection Hrun as <- <-; do 3 eexists;
        (split; [reflexivity |]); simpl;
        (split; [rewrite <- !app_assoc; simpl; reflexivity |]);
        unfold model_calls, decision_of, replies; simpl;
        rewrite Ht; simpl; rewrite Htool, Hresp;
        summary_counts; reflexivity.
Qed.

Lemma paired_histories_no_dangling (hs : list (list Turn)) :
  Forall paired hs -> forallb no_dangling hs = true.
Proof.
  induction 1 as [| h hs Hh Hhs IH]; [reflexivity |].
  simpl. now rewrite (paired_no_dangling h Hh), IH.
Qed.

(** C1. In a run of the structured loop, whatever the model replies and
    whether a dispatched tool returns or raises, every history sent to the
    model (one per model call) and the history the loop ends with consist
    of the user's turn followed by whole exchanges: each request turn is
    followed at once by the one result turn carrying its tool name, and
    no request is left dangling when the model is called again. *)
Theorem enterprise_agent_no_dangling_request (user_query : string) (df : DataFrame)
    (model_name : string) (tools_list : list ToolDecl) (system_instruction : string)
    (s : State) :
  exists (answer : string) (h' : list Turn) (s' : State) (evs : list Event),
    agent_turns df model_name tools_list system_instruction
      (seq 0 max_turns) [user_turn user_query] s = (Returned (answer, h'), s')
    /\ enterprise_agent user_query df model_name tools_list system_instruction s
       = (Returned answer, s')
    /\ log s' = (log s ++ evs)%list
    /\ length (histories_sent evs) = model_calls evs
    /\ forallb no_dangling (histories_sent evs) = true
    /\ Forall paired (histories_sent evs)
    /\ no_dangling h' = true
    /\ paired h'.
Proof.
  destruct (agent_turns_summary df model_name tools_list system_instruction max_turns
              0 [user_turn user_query] s (paired_user_turn user_query))
    as (answer & h' & s' & evs & Hrun & Hlog & Hh' & Hsent & _ & _ & _ & _ & Hsame).
  exists answer, h', s', evs.
  split; [exact Hrun |].
  split; [unfold enterprise_agent, bind; now rewrite Hrun |].
  split; [exact Hlog |]. split; [exact Hsame |].
  split; [now apply paired_histories_no_dangling |].
  split; [exact Hsent |].
  split; [now apply paired_no_dangling | exact Hh'].
Qed.

(** What one iteration records for a tool request, in both cases: the
    request turn and a result turn that holds the tool's output when the
    dispatch returned, and the internal-error payload when it raised. *)
Lemma agent_turn_records_exchange (df : DataFrame) (model_name : string)
    (tools_list : list ToolDecl) (system_instruction : string)
    (turn : nat) (h : list Turn) (s : State)
    (response : Response) (w : World) (tool_call : FunctionCall)
    (others : list FunctionCall) :
  generate_content model_name (CHistory h) (Some (system_instruction, tools_list)) (world s)
    = (Returned response, w) ->
  function_calls response = tool_call :: others ->
  exists (t : PyResult PyVal) (s' : State),
    agent_turn df model_name tools_list system_instruction turn h s
    = (Returned (inr (h ++ [model_turn tool_call;
                           tool_turn (fc_name tool_call) (recorded_payload t)])%list), s').
Proof.
  intros Hgen Hcalls.
  destruct (agent_turn_summary df model_name tools_list system_instruction turn h s)
    as (reply & evs & r & s' & Hrun & Hlog & Hreplies & _ & Hres).
  assert (Hreply : reply = Returned response).
  { unfold agent_turn in Hrun. unfold bind at 1 in Hrun. rewrite print_run in Hrun.
    unfold bind at 1 in Hrun. unfold attempt at 1 in Hrun.
    rewrite call_model_run in Hrun. simpl in Hrun. rewrite Hgen in Hrun. simpl in Hrun.
    rewrite Hcalls in Hrun.
    unfold bind at 1 in Hrun. rewrite print_run in Hrun. simpl in Hrun.
    unfold bind at 1 in Hrun. unfold attempt at 1 in Hrun. unfold bind at 1 in Hrun.
    match type of Hrun with context [call_tool_unpacked ?n ?d ?a ?st] =>
      destruct (call_tool_unpacked_events n d a st) as (tevs & Htool & Hr & _);
      destruct (call_tool_unpacked n d a st) as [[out | e] s4]
    end; simpl in Htool;
      unfold bind, print, emit, modify, ret in Hrun; simpl in Hrun;
      injection Hrun as _ <-; simpl in Hlog; rewrite Htool in Hlog;
      rewrite <- !app_assoc in Hlog; apply app_inv_head in Hlog; subst evs;
      simpl in Hreplies; rewrite replies_app, Hr in Hreplies; simpl in Hreplies;
      now injection Hreplies as <-. }
  subst reply. unfold turn_result in Hres. rewrite Hcalls in Hres.
  destruct Hres as (t & ->). exists t, s'. exact Hrun.
Qed.

(** C2. Whatever the query, the dataset and the client do, a run of the
    structured loop returns a string after at most 5 model calls; and when
    every reply it got asked for a tool (none was a final text, an empty
    response or a failed call), it made exactly 5 calls and returns the
    fixed message saying the turn limit was exceeded. *)
Theorem enterprise_agent_turn_limit (user_query : string) (df : DataFrame)
    (model_name : string) (tools_list : list ToolDecl) (system_instruction : string)
    (s : State) :
  exists (answer : string) (s' : State) (evs : list Event),
    enterprise_agent user_query df model_name tools_list system_instruction s
      = (Returned answer, s')
    /\ log s' = (log s ++ evs)%list
    /\ (model_calls evs <= 5)%nat
    /\ (forallb asks_for_tool (replies evs) = true ->
        model_calls evs = 5%nat
        /\ answer
           = "Agent exceeded maximum conversation turns without providing a final answer.").
Proof.
  destruct (agent_turns_summary df model_name tools_list system_instruction max_turns
              0 [user_turn user_query] s (paired_user_turn user_query))
    as (answer & h' & s' & evs & Hrun & Hlog & _ & _ & Hle & Hall & _).
  exists answer, s', evs.
  split; [unfold enterprise_agent, bind; now rewrite Hrun |].
  split; [exact Hlog |]. split; [exact Hle |].
  intros Hasks. destruct (Hall Hasks) as [-> Hn]. split; [exact Hn | reflexivity].
Qed.

(** X25. In the structured loop a failed model call is the last call of
    the run (it is not retried) and the run returns the string
    [API ERROR during turn k: <e>], [k] counting from 1; the loop returns
    a string in every case. In the two-step loop a failed model call is
    the last call of the run too, but nothing catches it: the run ends
    with the client's exception, raised to the caller. *)
Theorem model_call_failure_outcomes (user_query : string) (df : DataFrame)
    (model_name : string) (tools_list : list ToolDecl) (system_instruction : string)
    (s : State) :
  (exists (answer : string) (s' : State) (evs : list Event),
     enterprise_agent user_query df model_name tools_list system_instruction s
       = (Returned answer, s')
     /\ log s' = (log s ++ evs)%list
     /\ forall k e, replies evs !! k = Some (Raised e) ->
          model_calls evs = S k /\ answer = api_error_message k e)
  /\
  (exists (r : PyResult (option string)) (s' : State) (evs : list Event),
     enterprise_agent_new user_query df model_name s = (r, s')
     /\ log s' = (log s ++ evs)%list
     /\ forall k e, replies evs !! k = Some (Raised e) ->
          model_calls evs = S k /\ r = Raised e).
Proof.
  split.
  - destruct (agent_turns_summary df model_name tools_list system_instruction max_turns
                0 [user_turn user_query] s (paired_user_turn user_query))
      as (answer & h' & s' & evs & Hrun & Hlog & _ & _ & _ & _ & Hlast & Herr & _).
    exists answer, s', evs.
    split; [unfold enterprise_agent, bind; now rewrite Hrun |].
    split; [exact Hlog |].
    intros k e Hk. split; [exact (Hlast k _ Hk eq_refl) | exact (Herr k e Hk)].
  - destruct (enterprise_agent_new_summary user_query df model_name s)
      as (r & s' & evs & Hrun & Hlog & _ & _ & Hfail & _).
    exists r, s', evs. split; [exact Hrun |]. split; [exact Hlog |].
    intros k e Hk. destruct (Hfail k e Hk) as [-> ->]. split; reflexivity.
Qed.


(** The text-convention parser on the documented example. *)
Lemma parse_outlier_call :
  parse_tool_call "check_for_outliers(column_name='profit')"
  = ("check_for_outliers", {[ "column_name" := VStr "profit" ]}).
Proof. vm_compute. reflexivity. Qed.

Lemma outlier_decision_prefix :
  startswith "TOOL:" "TOOL:check_for_outliers(column_name='profit')" = true
  /\ strip (nth 1 (split "TOOL:" "TOOL:check_for_outliers(column_name='profit')") EmptyString)
     = "check_for_outliers(column_name='profit')".
Proof. split; vm_compute; reflexivity. Qed.

(** C6. When the trimmed decision is exactly
    [TOOL:check_for_outliers(column_name='profit')], the parser yields the
    tool name [check_for_outliers] and the one-entry mapping
    [{"column_name": "profit"}]; provided the tool returns and the
    follow-up call answers, the run calls [check_for_outliers] once with
    [profit] through the dispatcher, makes exactly one further model call,
    with the interpretation prompt, and returns the text of its reply. *)
Theorem two_step_outlier_scenario (user_query : string) (df : DataFrame)
    (model_name : string) (s : State) (resp : Response) (w1 : World)
    (tool_output : PyVal) (w2 : World) (final : Response) (w3 : World) :
  let decision := "TOOL:check_for_outliers(column_name='profit')" in
  let tool_call_string := "check_for_outliers(column_name='profit')" in
  let interpretation :=
    CPrompt (followup_prompt tool_call_string (take_prefix 20000%N (py_str tool_output))
               user_query) in
  let evs :=
    [EvPrint (nl ++ "--- Step 1: Model Decision (Tool or Response) ---");
     EvModel model_name (CPrompt (action_prompt user_query)) None (Returned resp);
     EvPrint ("Model Decision: " ++ decision);
     EvPrint "-> Executing tool: check_for_outliers(column_name='profit')";
     EvTool "check_for_outliers" df [VStr "profit"];
     EvPrint (nl ++ "--- Step 2: Model Interpretation ---");
     EvModel model_name interpretation None (Returned final)] in
  generate_content model_name (CPrompt (action_prompt user_query)) None (world s)
    = (Returned resp, w1) ->
  strip <$> text resp = Some decision ->
  check_for_outliers df (VStr "profit") w1 = (Returned tool_output, w2) ->
  generate_content model_name interpretation None w2 = (Returned final, w3) ->
  parse_tool_call tool_call_string
    = ("check_for_outliers", {[ "column_name" := VStr "profit" ]})
  /\ enterprise_agent_new user_query df model_name s
     = (Returned (text final), {| world := w3; log := (log s ++ evs)%list |})
  /\ tools_called evs = ["check_for_outliers"]
  /\ model_calls evs = 2%nat.
Proof.
  intros decision tool_call_string interpretation evs Hgen1 Hdec Htool Hgen2.
  split; [exact parse_outlier_call |].
  split; [| split; reflexivity].
  rewrite enterprise_agent_new_run. cbv zeta. rewrite Hgen1. simpl.
  destruct (text resp) as [t |]; [| discriminate Hdec].
  injection Hdec as Hdec. rewrite Hdec. fold decision.
  destruct outlier_decision_prefix as [Hprefix Hstring].
  fold decision in Hprefix, Hstring. rewrite Hprefix, Hstring.
  unfold call_tool_two_step. rewrite parse_outlier_call.
  unfold call_tool_unpacked.
  replace (bool_decide
             (is_Some (({[ "column_name" := VStr "profit" ]} : gmap string PyVal) !! "name")
              ∨ is_Some (({[ "column_name" := VStr "profit" ]} : gmap string PyVal) !! "df")))
    with false by (vm_compute; reflexivity).
  rewrite (call_tool_with_column_name df _ (VStr "profit")) by apply lookup_singleton_eq.
  unfold bind at 1. rewrite print_run.
  unfold invoke, bind, emit, modify, in_world. simpl. rewrite Htool.
  unfold second_call. simpl. fold tool_call_string interpretation. rewrite Hgen2. simpl.
  rewrite <- !app_assoc. reflexivity.
Qed.

End LoopProperties.

(** ** Concrete runs *)

Section ConcreteRuns.
Import Py Agent Scenario.

(** The structured loop on a dispatch that returns and on one whose tool
    function raises: both leave a request turn and its result turn. *)
Example history_after_success_and_exception :
  let run := @agent_turns scripted (Some 0%nat) "gemini" [] "system"
               (seq 0 max_turns) [user_turn "Any outliers?"]
               (start [profit_request;
                       requests "check_for_outliers" {[ "column_name" := VList [] ]};
                       says "One outlier in profit."]) in
  exists (h : list Turn) (report : PyVal),
    fst run = Returned ("One outlier in profit.", h)
    /\ map role h = ["user"; "model"; "tool"; "model"; "tool"]
    /\ h !! 2%nat = Some (tool_turn "check_for_outliers" report)
    /\ h !! 4%nat
       = Some (tool_turn "check_for_outliers"
                 (error_dict "Internal tool execution error: unhashable type: 'list'"))
    /\ no_dangling h = true.
Proof.
  vm_compute. eexists. eexists. repeat split; reflexivity.
Qed.

(** A history with a request and no result is told apart. *)
Example dangling_request_detected :
  no_dangling [user_turn "q"; model_turn (MkCall "data_summary" ∅)] = false
  /\ no_dangling [user_turn "q"; model_turn (MkCall "data_summary" ∅);
                  tool_turn "automated_eda" VNone] = false
  /\ no_dangling [user_turn "q"; model_turn (MkCall "data_summary" ∅);
                  tool_turn "data_summary" VNone; tool_turn "data_summary" VNone] = false.
Proof. repeat split; vm_compute; reflexivity. Qed.

(** Five tool requests in a row exhaust the structured loop. *)
Lemma enterprise_agent_turn_limit_witness :
  fst (@enterprise_agent scripted "Any outliers?" (Some 0%nat) "gemini" [] "system"
         (start [profit_request; profit_request; profit_request; profit_request;
                 profit_request; says "never asked"]))
  = Returned "Agent exceeded maximum conversation turns without providing a final answer.".
Proof.
  destruct (@enterprise_agent_turn_limit scripted "Any outliers?" (Some 0%nat) "gemini" []
              "system"
              (start [profit_request; profit_request; profit_request; profit_request;
                      profit_request; says "never asked"]))
    as (answer & s' & evs & Hrun & Hlog & _ & Hexhausted).
  rewrite Hrun. simpl. f_equal. apply Hexhausted.
  simpl in Hlog. subst evs.
  apply (f_equal snd) in Hrun. simpl in Hrun. rewrite <- Hrun.
  vm_compute. reflexivity.
Defined.

(** C3: the two loops differ on a failing client. A client that fails on
    its first call, or on the second one: the structured loop catches the
    failure of [generate_content] and returns it as a string, the two-step
    loop makes the same call unguarded and raises the exception to its
    caller. *)
Lemma two_step_model_failure_is_raised :
  fst (@enterprise_agent scripted "Any outliers?" (Some 0%nat) "gemini" [] "system"
         (start [fails]))
  = Returned "API ERROR during turn 1: 503 UNAVAILABLE"
  /\ fst (@enterprise_agent_new scripted "Any outliers?" (Some 0%nat) "gemini"
            (start [fails]))
     = Raised (MkExn "APIError" "503 UNAVAILABLE")
  /\ fst (@enterprise_agent_new scripted "Any outliers?" (Some 0%nat) "gemini"
            (start [says "TOOL:data_summary"; fails]))
     = Raised (MkExn "APIError" "503 UNAVAILABLE").
Proof. repeat split; vm_compute; reflexivity. Qed.


(** Binary64 as the program computes with it. The quartile 16.055 is
    reported as 16.06 (numpy multiplies by 100, rounds to an integer and
    divides), although the double lies below 16.055; 23 outliers in 160
    rows are reported as 14.37 percent, the double of 23 / 160 * 100
    lying below 14.375; on the column [-1.7e308, 1.7e308] the difference
    of the neighbours overflows, so Q1 is [inf] and Q3 is [-inf]; and the
    bounds of an [int64] column that holds 2^53 + 1 throughout are the
    float 2^53. *)
Example binary64_reports :
  F64.np_round2 (Tools.quantile (Tools.Float64 [F64.of_decimal 16055 3;
                                               F64.of_decimal 16055 3]) 1)
  = F64.of_decimal 1606 2
  /\ (let s := Tools.outlier_stats
                 (Tools.Float64 (repeat (q 0) 137 ++ repeat (q 1) 23)) 160 in
      Tools.outlier_count s = 23%nat
      /\ F64.py_round2 (Tools.outlier_percentage s) = F64.of_decimal 1437 2)
  /\ (let s := Tools.outlier_stats
                 (Tools.Float64 [F64.of_Z (- 17 * 10 ^ 307); F64.of_Z (17 * 10 ^ 307)])
                 2 in
      Tools.Q1 s = S754_infinity false /\ Tools.Q3 s = S754_infinity true)
  /\ (let s := Tools.outlier_stats (Tools.Int64 [2 ^ 53 + 1; 2 ^ 53 + 1]%Z) 2 in
      Tools.lower_bound s = F64.of_Z (2 ^ 53)
      /\ Tools.upper_bound s = F64.of_Z (2 ^ 53)
      /\ Tools.outlier_count s = 0%nat).
Proof. repeat split; vm_compute; reflexivity. Qed.

(** The positions of the two quartiles computed on integers are the ones
    numpy computes in binary64: for every last index up to 4095, and for
    some large ones below 2^51. *)
Example quantile_positions_as_numpy :
  forallb
    (fun last =>
       Tools.same_positions (Tools.quantile_positions last 1)
         (Tools.quantile_positions_binary64 last (F64.of_dyadic 1 (-2)))
       && Tools.same_positions (Tools.quantile_positions last 3)
            (Tools.quantile_positions_binary64 last (F64.of_dyadic 3 (-2))))
    (map Z.of_nat (seq 0 4096)
       ++ [10 ^ 6; 10 ^ 9 + 7; 2 ^ 31 - 1; 2 ^ 40 + 3; 2 ^ 51 - 2; 2 ^ 51 - 1]%Z)
  = true.
Proof. vm_compute. reflexivity. Qed.

(** C5: the claim fails on a NaN row and on an infinite value. The
    column [5.0, NaN]: its numbers all equal 5.0 and the NaN row differs
    from 5.0, yet that row is no outlier and the reported percentage is
    0.0, not 100 * 1 / 2 = 50.0. The column [inf, inf]: its values all
    are equal, yet the bounds are NaN, not that value. *)
Lemma nan_row_is_not_an_outlier :
  let vals := Tools.Float64 [q 5; F64.nan] in
  let s := Tools.outlier_stats vals 2 in
  Tools.all_equal vals (q 5)
  /\ Tools.value_differs (q 5) F64.nan = true
  /\ Tools.is_outlier (Tools.lower_bound s) (Tools.upper_bound s) F64.nan = false
  /\ fst (Tools.check_for_outliers (Some 0%nat) "profit" store_nan)
     = Returned (VDict
         [(VStr "column", VStr "profit");
          (VStr "Q1", Tools.num (q 5));
          (VStr "Q3", Tools.num (q 5));
          (VStr "IQR", Tools.num (q 0));
          (VStr "lower_bound", Tools.num (q 5));
          (VStr "upper_bound", Tools.num (q 5));
          (VStr "outlier_count", VInt 0);
          (VStr "outlier_percentage", Tools.num (q 0));
          (VStr "note", VStr "Outliers are defined by the 1.5 * IQR rule.")])
  /\ Tools.stated_percentage (q 5) [q 5; F64.nan] 2 = q 50
  /\ F64.py_round2 (Tools.outlier_percentage s) = q 0
  /\ F64.py_round2 (Tools.outlier_percentage s)
     <> Tools.stated_percentage (q 5) [q 5; F64.nan] 2
  /\ Tools.all_equal (Tools.Float64 [S754_infinity false; S754_infinity false])
       (S754_infinity false)
  /\ Tools.lower_bound
       (Tools.outlier_stats (Tools.Float64 [S754_infinity false; S754_infinity false]) 2)
     = F64.nan
  /\ Tools.upper_bound
       (Tools.outlier_stats (Tools.Float64 [S754_infinity false; S754_infinity false]) 2)
     = F64.nan.
Proof.
  split; [repeat constructor; now right |].
  split; [reflexivity |]. split; [vm_compute; reflexivity |].
  split; [vm_compute; reflexivity |].
  split; [vm_compute; reflexivity |].
  split; [vm_compute; reflexivity |].
  split; [vm_compute; discriminate |].
  split; [repeat constructor; now right |].
  split; vm_compute; reflexivity.
Qed.

(** The report of [check_for_outliers] on the column [5.0, NaN]. *)
Lemma check_for_outliers_constant_column_witness :
  let s := Tools.outlier_stats (Tools.Float64 [q 5; F64.nan]) 2 in
  Tools.lower_bound s = q 5 /\ Tools.upper_bound s = q 5
  /\ (forall x : F64.float64,
        Tools.is_outlier (Tools.lower_bound s) (Tools.upper_bound s) x = true
        <-> F64.is_nan x = false /\ F64.eqb x (q 5) = false)
  /\ Tools.is_outlier (Tools.lower_bound s) (Tools.upper_bound s) F64.nan = false
  /\ Tools.outlier_count s = 0%nat
  /\ Tools.outlier_percentage s = S754_zero false
  /\ Tools.check_for_outliers (Some 0%nat) "profit" store_nan
     = (Returned (VDict
          [(VStr "column", VStr "profit");
           (VStr "Q1", Tools.num (F64.np_round2 (q 5)));
           (VStr "Q3", Tools.num (F64.np_round2 (q 5)));
           (VStr "IQR", Tools.num (S754_zero false));
           (VStr "lower_bound", Tools.num (F64.np_round2 (q 5)));
           (VStr "upper_bound", Tools.num (F64.np_round2 (q 5)));
           (VStr "outlier_count", VInt 0);
           (VStr "outlier_percentage", Tools.num (S754_zero false));
           (VStr "note", VStr "Outliers are defined by the 1.5 * IQR rule.")]), store_nan).
Proof.
  destruct (@check_for_outliers_constant_column plain_libraries 0%nat store_nan
              constant_with_nan "profit" (Tools.FloatCol [q 5; F64.nan])
              (Tools.Float64 [q 5; F64.nan]) (q 5))
    as (_ & _ & _ & _ & _ & Hiff & Hnan & _ & Hcount & _ & Hpct & Hreport & Hexact).
  - reflexivity.
  - reflexivity.
  - reflexivity.
  - reflexivity.
  - vm_compute. discriminate.
  - repeat constructor; now right.
  - reflexivity.
  - destruct (Hexact eq_refl) as (El & Eu & E1 & E3 & _ & Ei).
    cbv zeta. change (Tools.nrows constant_with_nan) with 2%nat in *.
    rewrite E1, E3, Ei, El, Eu in Hreport.
    rewrite El, Eu in Hiff, Hnan.
    rewrite El, Eu.
    split; [reflexivity |]. split; [reflexivity |]. split; [exact Hiff |].
    split; [exact Hnan |]. split; [exact Hcount |]. split; [exact Hpct |].
    exact Hreport.
Defined.

(** The documented [TOOL:] decision, answered by a scripted client. *)
Lemma two_step_outlier_scenario_witness :
  exists report : PyVal,
    fst (Tools.check_for_outliers (Some 0%nat) "profit" store0) = Returned report
    /\ fst (@enterprise_agent_new scripted "Any outliers?" (Some 0%nat) "gemini"
              (start [says "  TOOL:check_for_outliers(column_name='profit')";
                      says "Profit has one outlier."]))
       = Returned (Some "Profit has one outlier.")
    /\ tools_called
         (log (snd (@enterprise_agent_new scripted "Any outliers?" (Some 0%nat) "gemini"
                      (start [says "  TOOL:check_for_outliers(column_name='profit')";
                              says "Profit has one outlier."]))))
       = ["check_for_outliers"].
Proof.
  let r := eval vm_compute in
             (fst (@Tools.check_for_outliers plain_libraries (Some 0%nat) "profit" store0)) in
  match r with Returned ?v => pose (report := v) end.
  exists report.
  split; [vm_compute; reflexivity |].
  destruct (@two_step_outlier_scenario scripted "Any outliers?" (Some 0%nat) "gemini"
              (start [says "  TOOL:check_for_outliers(column_name='profit')";
                      says "Profit has one outlier."])
              (MkResponse [] (Some "  TOOL:check_for_outliers(column_name='profit')"))
              (store0, [says "Profit has one outlier."])
              report
              (store0, [says "Profit has one outlier."])
              (MkResponse [] (Some "Profit has one outlier."))
              (store0, []))
    as (_ & Hrun & Htools & _).
  - reflexivity.
  - vm_compute. reflexivity.
  - vm_compute. reflexivity.
  - reflexivity.
  - rewrite Hrun. split; [reflexivity | exact Htools].
Defined.

(** A name the dispatcher does not know. *)
Lemma call_tool_unknown_name_witness :
  exists evs : list Event,
    @call_tool_unpacked scripted "web_search" (Some 0%nat)
      {[ "query" := VStr "superstore" ]} (start [])
    = (Returned (error_dict "Unknown tool: web_search"),
       {| world := world (start []); log := (log (start []) ++ evs)%list |})
    /\ tools_called evs = []
    /\ model_calls evs = 0%nat.
Proof.
  destruct (@call_tool_unknown_name scripted "web_search" (Some 0%nat)
              {[ "query" := VStr "superstore" ]} (start [])) as [Hbound _];
    try discriminate.
  apply Hbound; vm_compute; reflexivity.
Defined.

(** C7 fails on an argument called [name]: the call raises. *)
Lemma unknown_tool_argument_named_name :
  fst (@call_tool_unpacked scripted "web_search" (Some 0%nat)
         {[ "name" := VStr "superstore" ]} (start []))
  = Raised (MkExn "TypeError" "call_tool() got multiple values for argument 'name'")
  /\ fst (@call_tool_unpacked scripted "web_search" (Some 0%nat)
            {[ "name" := VStr "superstore" ]} (start []))
     <> Returned (error_dict "Unknown tool: web_search").
Proof. split; [vm_compute; reflexivity | vm_compute; discriminate]. Qed.

(** [check_for_outliers] asked for with [column] in place of [column_name]. *)
Lemma call_tool_missing_column_name_witness :
  @call_tool_unpacked scripted "check_for_outliers" (Some 0%nat)
    {[ "column" := VStr "profit" ]} (start [])
  = (Returned (error_dict
       "Tool 'check_for_outliers' requires the 'column_name' parameter."), start []).
Proof.
  destruct (@call_tool_missing_column_name scripted (Some 0%nat)
              {[ "column" := VStr "profit" ]} (start [])) as [Hbound _].
  - vm_compute. reflexivity.
  - apply Hbound; vm_compute; reflexivity.
Defined.

(** C8 fails on a mapping without [column_name] that holds [df]: the call
    raises instead of returning the missing-parameter error. *)
Lemma missing_column_name_with_df_argument :
  ({[ "df" := VStr "sales" ]} : gmap string PyVal) !! "column_name" = None
  /\ fst (@call_tool_unpacked scripted "check_for_outliers" (Some 0%nat)
            {[ "df" := VStr "sales" ]} (start []))
     = Raised (MkExn "TypeError" "call_tool() got multiple values for argument 'df'")
  /\ fst (@call_tool_unpacked scripted "check_for_outliers" (Some 0%nat)
            {[ "df" := VStr "sales" ]} (start []))
     <> Returned (error_dict
          "Tool 'check_for_outliers' requires the 'column_name' parameter.").
Proof.
  split; [vm_compute; reflexivity |].
  split; [vm_compute; reflexivity | vm_compute; discriminate].
Qed.

(** [data_summary] and [automated_eda] dispatched with an argument they
    do not take. *)
Lemma call_tool_ignores_arguments_witness :
  fst (@call_tool_unpacked scripted "data_summary" (Some 0%nat)
         {[ "column_name" := VStr "profit" ]} (start []))
  = fst (Tools.data_summary (Some 0%nat) store0)
  /\ fst (@call_tool_unpacked scripted "automated_eda" (Some 0%nat)
            {[ "column_name" := VStr "profit" ]} (start []))
     = fst (Tools.automated_eda (Some 0%nat) store0).
Proof.
  destruct (@call_tool_ignores_arguments scripted (Some 0%nat)
              {[ "column_name" := VStr "profit" ]} (start [])) as [Hbound _].
  destruct Hbound as [(_ & Hsummary & _) (_ & Heda & _)];
    try (vm_compute; reflexivity).
  split.
  - rewrite Hsummary. vm_compute. reflexivity.
  - rewrite Heda. vm_compute. reflexivity.
Defined.

(** C10 fails on an argument called [name]: the call raises where the
    tool function alone returns its summary. *)
Lemma data_summary_argument_named_name :
  fst (@call_tool_unpacked scripted "data_summary" (Some 0%nat)
         {[ "name" := VStr "profit" ]} (start []))
  = Raised (MkExn "TypeError" "call_tool() got multiple values for argument 'name'")
  /\ fst (@call_tool_unpacked scripted "data_summary" (Some 0%nat)
            {[ "name" := VStr "profit" ]} (start []))
     <> fst (@Agent.data_summary scripted (Some 0%nat) (world (start []))).
Proof. split; [vm_compute; reflexivity | vm_compute; discriminate]. Qed.

End ConcreteRuns.

(** ** Facts about the string primitives *)

Section StringFacts.
Import Py.

Lemma remove_char_app (c : ascii) (a b : string) :
  remove_char c (a ++ b) = remove_char c a ++ remove_char c b.
Proof.
  induction a as [| x a IH]; simpl; [reflexivity |].
  destruct (Ascii.eqb c x); simpl; now rewrite IH.
Qed.

Lemma unquote_app (a b : string) : unquote (a ++ b) = unquote a ++ unquote b.
Proof. unfold unquote. now rewrite !remove_char_app. Qed.

Lemma contains_app (c : ascii) (a b : string) :
  contains c (a ++ b) = contains c a || contains c b.
Proof.
  induction a as [| x a IH]; simpl; [reflexivity |].
  rewrite IH. now rewrite orb_assoc.
Qed.

Lemma contains_remove_char (c d : ascii) (s : string) :
  contains c s = false -> contains c (remove_char d s) = false.
Proof.
  induction s as [| x s IH]; simpl; [reflexivity |].
  intros Hc. apply orb_false_iff in Hc as [Hx Hs].
  destruct (Ascii.eqb d x); simpl; [now apply IH |].
  rewrite Hx. now apply IH.
Qed.

Lemma contains_unquote (c : ascii) (s : string) :
  contains c s = false -> contains c (unquote s) = false.
Proof. intros Hc. unfold unquote. now do 2 apply contains_remove_char. Qed.

Lemma contains_lstrip (c : ascii) (s : string) :
  contains c s = false -> contains c (lstrip s) = false.
Proof.
  induction s as [| x s IH]; simpl; [reflexivity |].
  intros Hc. destruct (is_space x); [| exact Hc].
  apply orb_false_iff in Hc as [_ Hs]. now apply IH.
Qed.

Lemma contains_rstrip (c : ascii) (s : string) :
  contains c s = false -> contains c (rstrip s) = false.
Proof.
  induction s as [| x s IH]; simpl; [reflexivity |].
  intros Hc. apply orb_false_iff in Hc as [Hx Hs]. specialize (IH Hs).
  destruct (rstrip s) as [| y r].
  - destruct (is_space x); simpl; [reflexivity | now rewrite Hx].
  - simpl in *. now rewrite Hx.
Qed.

Lemma contains_strip (c : ascii) (s : string) :
  contains c s = false -> contains c (strip s) = false.
Proof. intros Hc. unfold strip. now apply contains_rstrip, contains_lstrip. Qed.

(** *** [strip] *)

Lemma lstrip_app (a : string) (c : ascii) (b : string) :
  is_space c = false -> lstrip (a ++ String c b) = lstrip a ++ String c b.
Proof.
  intros Hc. induction a as [| x a IH]; simpl; [now rewrite Hc |].
  destruct (is_space x); [exact IH | reflexivity].
Qed.

Lemma rstrip_cons (c : ascii) (b : string) :
  is_space c = false -> rstrip (String c b) = String c (rstrip b).
Proof. intros Hc. simpl. destruct (rstrip b); [now rewrite Hc | reflexivity]. Qed.

Lemma rstrip_app (a : string) (c : ascii) (b : string) :
  is_space c = false -> rstrip (a ++ String c b) = a ++ String c (rstrip b).
Proof.
  intros Hc. induction a as [| x a IH]; [now apply rstrip_cons |].
  change (rstrip (String x (a ++ String c b)) = String x (a ++ String c (rstrip b))).
  simpl. rewrite IH. destruct a; reflexivity.
Qed.

Lemma lstrip_idem (s : string) : lstrip (lstrip s) = lstrip s.
Proof.
  induction s as [| x s IH]; simpl; [reflexivity |].
  destruct (is_space x) eqn:E; [exact IH | simpl; now rewrite E].
Qed.

Lemma rstrip_idem (s : string) : rstrip (rstrip s) = rstrip s.
Proof.
  induction s as [| x s IH]; simpl; [reflexivity |].
  destruct (rstrip s) as [| y r] eqn:E.
  - destruct (is_space x) eqn:Ex; simpl; [reflexivity | now rewrite Ex].
  - change (rstrip (String x (String y r)) = String x (String y r)).
    simpl in *. destruct (rstrip r); now rewrite IH.
Qed.

Lemma lstrip_rstrip (s : string) : lstrip (rstrip s) = rstrip (lstrip s).
Proof.
  induction s as [| x s IH]; [reflexivity |].
  destruct (is_space x) eqn:Ex.
  - assert (Hl : lstrip (String x s) = lstrip s) by (simpl; now rewrite Ex).
    rewrite Hl, <- IH. simpl.
    destruct (rstrip s) as [| y r]; [now rewrite Ex | simpl; now rewrite Ex].
  - assert (Hl : lstrip (String x s) = String x s) by (simpl; now rewrite Ex).
    rewrite Hl, (rstrip_cons x s Ex). simpl. now rewrite Ex.
Qed.

Lemma strip_lstrip (s : string) : strip (lstrip s) = strip s.
Proof. unfold strip. now rewrite lstrip_idem. Qed.

Lemma strip_rstrip (s : string) : strip (rstrip s) = strip s.
Proof. unfold strip. now rewrite lstrip_rstrip, rstrip_idem. Qed.

(** [strip] is idempotent. *)
Lemma strip_idem (s : string) : strip (strip s) = strip s.
Proof. unfold strip at 2. now rewrite strip_rstrip, strip_lstrip. Qed.

(** *** [split] *)

Lemma append_cons (x : ascii) (a b : string) : String x a ++ b = String x (a ++ b).
Proof. reflexivity. Qed.

Lemma append_empty_r (s : string) : s ++ EmptyString = s.
Proof. induction s as [| x s IH]; [reflexivity | now rewrite append_cons, IH]. Qed.

Lemma append_assoc (a b c : string) : (a ++ b) ++ c = a ++ (b ++ c).
Proof. induction a as [| x a IH]; [reflexivity | now rewrite !append_cons, IH]. Qed.

(** Once [maxsplit] is used up, the rest is one piece. *)
Lemma split_go_exhausted (sep cur s : string) :
  split_go sep (Some 0%nat) 0 cur s = [cur ++ s].
Proof.
  revert cur. induction s as [| x s IH]; intros cur; simpl.
  - now rewrite append_empty_r.
  - rewrite IH, append_assoc. reflexivity.
Qed.

Lemma split_go_skip (sep : string) (b : option nat) (cur p r : string) :
  split_go sep b (String.length p) cur (p ++ r) = split_go sep b 0 cur r.
Proof. induction p as [| x p IH]; simpl; [reflexivity | exact IH]. Qed.

Lemma startswith_app (p r : string) : startswith p (p ++ r) = true.
Proof.
  induction p as [| x p IH]; simpl; [reflexivity |].
  now rewrite Ascii.eqb_refl, IH.
Qed.

(** A string that begins with the separator: an empty first piece, then
    the pieces of what follows. *)
Lemma split_prefix (c : ascii) (sep' rest : string) :
  split (String c sep') (String c sep' ++ rest)
  = EmptyString :: split (String c sep') rest.
Proof.
  unfold split.
  change (String c sep' ++ rest) with (String c (sep' ++ rest)).
  cbn [split_go].
  change (String c (sep' ++ rest)) with (String c sep' ++ rest).
  rewrite startswith_app. cbn [andb fmap option_fmap option_map String.length].
  replace (S (String.length sep') - 1)%nat with (String.length sep') by lia.
  now rewrite split_go_skip.
Qed.

Lemma split1_prefix (c : ascii) (sep' rest : string) :
  split1 (String c sep') (String c sep' ++ rest) = [EmptyString; rest].
Proof.
  unfold split1.
  change (String c sep' ++ rest) with (String c (sep' ++ rest)).
  cbn [split_go].
  change (String c (sep' ++ rest)) with (String c sep' ++ rest).
  rewrite startswith_app. cbn [andb fmap option_fmap option_map String.length Nat.pred].
  replace (S (String.length sep') - 1)%nat with (String.length sep') by lia.
  rewrite split_go_skip. now rewrite split_go_exhausted.
Qed.

(** Characters other than a one-character separator are read into the
    current piece. *)
Lemma split_go_no_sep (c : ascii) (b : option nat) (cur a rest : string) :
  contains c a = false ->
  split_go (String c EmptyString) b 0 cur (a ++ rest)
  = split_go (String c EmptyString) b 0 (cur ++ a) rest.
Proof.
  revert cur. induction a as [| x a IH]; intros cur Hc; simpl.
  - now rewrite append_empty_r.
  - simpl in Hc. apply orb_false_iff in Hc as [Hx Ha].
    rewrite Hx. simpl. rewrite andb_false_r.
    rewrite (IH _ Ha), append_assoc. reflexivity.
Qed.

Lemma split_char_none (c : ascii) (s : string) :
  contains c s = false -> split (String c EmptyString) s = [s].
Proof.
  intros Hc. unfold split.
  rewrite <- (append_empty_r s) at 1. now rewrite (split_go_no_sep c None _ s _ Hc).
Qed.

Lemma split_char_first (c : ascii) (a b : string) :
  contains c a = false ->
  split (String c EmptyString) (a ++ String c b) = a :: split (String c EmptyString) b.
Proof.
  intros Hc. unfold split. rewrite (split_go_no_sep c None _ a _ Hc).
  simpl. now rewrite Ascii.eqb_refl.
Qed.

Lemma split1_char (c : ascii) (a b : string) :
  contains c a = false ->
  split1 (String c EmptyString) (a ++ String c b) = [a; b].
Proof.
  intros Hc. unfold split1. rewrite (split_go_no_sep c (Some 1%nat) _ a _ Hc).
  simpl. rewrite Ascii.eqb_refl. simpl. now rewrite split_go_exhausted.
Qed.

(** *** The parenthesis pattern *)

Lemma contains_cons (c x : ascii) (s : string) :
  contains c (String x s) = Ascii.eqb c x || contains c s.
Proof. reflexivity. Qed.

Lemma until_close_cons (x : ascii) (s : string) :
  until_close (String x s)
  = if Ascii.eqb x ")" then Some EmptyString
    else if Ascii.eqb x newline then None
    else String x <$> until_close s.
Proof. reflexivity. Qed.

Lemma re_search_paren_cons (x : ascii) (s : string) :
  re_search_paren (String x s)
  = if Ascii.eqb x "("
    then match until_close s with
         | Some g => Some g
         | None => re_search_paren s
         end
    else re_search_paren s.
Proof. reflexivity. Qed.

Lemma until_close_app (body tail : string) :
  contains ")" body = false -> contains newline body = false ->
  until_close (body ++ String ")" tail) = Some body.
Proof.
  induction body as [| x body IH]; intros Hp Hn.
  - change (EmptyString ++ String ")" tail) with (String ")" tail).
    now rewrite until_close_cons, Ascii.eqb_refl.
  - rewrite contains_cons in Hp, Hn.
    apply orb_false_iff in Hp as [Hpx Hp]. apply orb_false_iff in Hn as [Hnx Hn].
    rewrite Ascii.eqb_sym in Hpx. rewrite Ascii.eqb_sym in Hnx.
    rewrite append_cons, until_close_cons, Hpx, Hnx, (IH Hp Hn). reflexivity.
Qed.

Lemma re_search_paren_app (name body tail : string) :
  contains "(" name = false ->
  contains ")" body = false -> contains newline body = false ->
  re_search_paren (name ++ String "(" (body ++ String ")" tail)) = Some body.
Proof.
  intros Hname Hp Hn. induction name as [| x name IH].
  - change (EmptyString ++ String "(" (body ++ String ")" tail))
      with (String "(" (body ++ String ")" tail)).
    now rewrite re_search_paren_cons, Ascii.eqb_refl, (until_close_app body tail Hp Hn).
  - rewrite contains_cons in Hname. apply orb_false_iff in Hname as [Hx Hname].
    rewrite Ascii.eqb_sym in Hx.
    rewrite append_cons, re_search_paren_cons, Hx. now apply IH.
Qed.

(** The group holds no character the searched string does not hold. *)
Lemma until_close_contains (c : ascii) (s g : string) :
  until_close s = Some g -> contains c s = false -> contains c g = false.
Proof.
  revert g. induction s as [| x s IH]; intros g; [discriminate |].
  rewrite until_close_cons, contains_cons.
  destruct (Ascii.eqb x ")"); [intros [= <-] _; reflexivity |].
  destruct (Ascii.eqb x newline); [discriminate |].
  destruct (until_close s) as [g' |]; [| discriminate].
  intros [= <-] Hc. apply orb_false_iff in Hc as [Hx Hs].
  rewrite contains_cons, Hx. now apply IH.
Qed.

Lemma re_search_paren_contains (c : ascii) (s g : string) :
  re_search_paren s = Some g -> contains c s = false -> contains c g = false.
Proof.
  induction s as [| x s IH]; [discriminate |].
  rewrite re_search_paren_cons, contains_cons.
  intros Hs Hc. apply orb_false_iff in Hc as [Hx Hcs].
  destruct (Ascii.eqb x "(").
  - destruct (until_close s) as [g' |] eqn:E.
    + injection Hs as <-. exact (until_close_contains c s g' E Hcs).
    + now apply IH.
  - now apply IH.
Qed.

End StringFacts.

(** ** The text-convention parser *)

Section ParserProperties.
Import Py Agent.

Lemma re_search_paren_none (s : string) :
  contains "(" s = false -> re_search_paren s = None.
Proof.
  induction s as [| x s IH]; [reflexivity |].
  rewrite contains_cons, re_search_paren_cons. intros Hc.
  apply orb_false_iff in Hc as [Hx Hs]. rewrite Ascii.eqb_sym in Hx.
  rewrite Hx. now apply IH.
Qed.

(** X1. A call string of the form [name(key=value)rest] parses to the
    trimmed name and exactly one argument: the key is what stands before
    the first [=], the value everything after it up to the closing
    parenthesis (further [=] and commas included, so a second argument
    ends up inside the value), both with quote characters removed and
    trimmed, the value always a string; what follows the closing
    parenthesis is ignored. *)
Theorem parse_tool_call_keyword (name key value rest : string) :
  contains "(" name = false ->
  contains ")" key = false -> contains newline key = false ->
  contains "=" key = false ->
  contains ")" value = false -> contains newline value = false ->
  parse_tool_call (name ++ "(" ++ key ++ "=" ++ value ++ ")" ++ rest)
  = (strip name, {[ strip (unquote key) := VStr (strip (unquote value)) ]}).
Proof.
  intros Hname Hkp Hkn Hke Hvp Hvn.
  assert (E : name ++ "(" ++ key ++ "=" ++ value ++ ")" ++ rest
              = name ++ String "(" ((key ++ String "=" value) ++ String ")" rest)).
  { change (name ++ "(" ++ key ++ "=" ++ value ++ ")" ++ rest)
      with (name ++ String "(" (key ++ String "=" (value ++ String ")" rest))).
    now rewrite append_assoc, append_cons. }
  rewrite E. clear E.
  unfold parse_tool_call.
  rewrite re_search_paren_app; [| exact Hname | |].
  2:{ rewrite contains_app, contains_cons, Hkp, Hvp. reflexivity. }
  2:{ rewrite contains_app, contains_cons, Hkn, Hvn. reflexivity. }
  change "("%string with (String "(" EmptyString).
  rewrite (split_char_first "(" name _ Hname). cbn [hd].
  fold (unquote (key ++ String "=" value)). rewrite unquote_app.
  change (unquote (String "=" value)) with (String "=" (unquote value)).
  assert (E : strip (unquote key ++ String "=" (unquote value))
              = lstrip (unquote key) ++ String "=" (rstrip (unquote value))).
  { unfold strip.
    rewrite (lstrip_app (unquote key) "=" (unquote value) eq_refl).
    now rewrite (rstrip_app (lstrip (unquote key)) "=" (unquote value) eq_refl). }
  rewrite !E. clear E.
  rewrite contains_app, contains_cons, Ascii.eqb_refl, orb_true_r. cbn [orb].
  change "="%string with (String "=" EmptyString).
  rewrite split1_char by now apply contains_lstrip, contains_unquote.
  rewrite strip_lstrip, strip_rstrip. now rewrite insert_empty.
Qed.

(** X2. A call string with no parenthesis, or with no [=] at all, yields
    no argument: a bare tool name parses to itself, trimmed, and what
    stands between parentheses without [=] (a positional argument) is
    dropped; the name is what stands before the first parenthesis. *)
Theorem parse_tool_call_no_argument (s : string) :
  contains "(" s = false \/ contains "=" s = false ->
  snd (parse_tool_call s) = ∅
  /\ fst (parse_tool_call s) = strip (hd EmptyString (split "(" s))
  /\ (contains "(" s = false -> parse_tool_call s = (strip s, ∅)).
Proof.
  intros Hs. split; [| split; [reflexivity |]].
  - unfold parse_tool_call. cbn [snd].
    destruct (re_search_paren s) as [g |] eqn:Hg; [| reflexivity].
    destruct Hs as [Hp | He]; [now rewrite (re_search_paren_none s Hp) in Hg |].
    pose proof (re_search_paren_contains "=" s g Hg He) as Hgc.
    fold (unquote g).
    now rewrite (contains_strip "=" _ (contains_unquote "=" g Hgc)).
  - intros Hp. unfold parse_tool_call. rewrite (re_search_paren_none s Hp).
    change "("%string with (String "(" EmptyString).
    now rewrite (split_char_none "(" s Hp).
Qed.

End ParserProperties.

(** ** More on the dispatcher and the structured loop *)

Section LoopRuns.
Context `{Agent.Collaborators}.
Import Py Agent.

#[local] Arguments startswith : simpl never.
#[local] Arguments strip : simpl never.
#[local] Arguments split : simpl never.
#[local] Arguments split1 : simpl never.
#[local] Arguments take_prefix : simpl never.

Lemma tools_called_split (a b : list Event) :
  tools_called (a ++ b) = (tools_called a ++ tools_called b)%list.
Proof. apply omap_app. Qed.

Lemma invoke_run (tool : string) (df : DataFrame) (arguments : list PyVal)
    (body : M World PyVal) (s : State) :
  invoke tool df arguments body s
  = (fst (body (world s)),
     {| world := snd (body (world s));
        log := (log s ++ [EvTool tool df arguments])%list |}).
Proof.
  unfold invoke, bind, emit, modify, in_world. simpl.
  destruct (body (world s)) as [[v | e] w]; reflexivity.
Qed.

(** X3. Whatever it is asked, the dispatcher never calls the model and
    calls at most one tool function: none at all, or the one function
    whose name it was given, which is then one of the three tools. *)
Theorem call_tool_calls_only_the_named_tool (name : string) (df : DataFrame)
    (kwargs : gmap string PyVal) (s : State) :
  exists evs : list Event,
    log (snd (call_tool name df kwargs s)) = (log s ++ evs)%list
    /\ model_calls evs = 0%nat
    /\ (tools_called evs = []
        \/ (tools_called evs = [name]
            /\ (name = "data_summary" \/ name = "automated_eda"
                \/ name = "check_for_outliers"))).
Proof.
  unfold call_tool.
  destruct (String.eqb name "data_summary") eqn:E1.
  { apply String.eqb_eq in E1. subst name.
    exists [EvPrint "-> Executing tool: data_summary()"; EvTool "data_summary" df []].
    split; [| split; [reflexivity | right; split; [reflexivity | now left]]].
    unfold bind. rewrite print_run, invoke_run. simpl. now rewrite <- app_assoc. }
  destruct (String.eqb name "automated_eda") eqn:E2.
  { apply String.eqb_eq in E2. subst name.
    exists [EvPrint "-> Executing tool: automated_eda()"; EvTool "automated_eda" df []].
    split; [| split; [reflexivity | right; split; [reflexivity | right; now left]]].
    unfold bind. rewrite print_run, invoke_run. simpl. now rewrite <- app_assoc. }
  destruct (String.eqb name "check_for_outliers") eqn:E3.
  { apply String.eqb_eq in E3. subst name.
    destruct (kwargs !! "column_name") as [column_name |].
    - exists [EvPrint ("-> Executing tool: check_for_outliers(column_name='"
                         ++ py_str column_name ++ "')");
              EvTool "check_for_outliers" df [column_name]].
      split; [| split; [reflexivity | right; split; [reflexivity | right; now right]]].
      unfold bind. rewrite print_run, invoke_run. simpl. now rewrite <- app_assoc.
    - exists []. split; [simpl; now rewrite app_nil_r | split; [reflexivity | now left]]. }
  exists [EvPrint ("ERROR: Unknown tool requested by the model: " ++ name)].
  split; [reflexivity | split; [reflexivity | now left]].
Qed.

(** The same for the call that unpacks a mapping. *)
Lemma call_tool_unpacked_trace (name : string) (df : DataFrame)
    (d : gmap string PyVal) (s : State) :
  exists evs : list Event,
    log (snd (call_tool_unpacked name df d s)) = (log s ++ evs)%list
    /\ replies evs = [] /\ histories_sent evs = []
    /\ (tools_called evs = [] \/ tools_called evs = [name]).
Proof.
  unfold call_tool_unpacked.
  destruct (bool_decide (is_Some (d !! "name") ∨ is_Some (d !! "df"))).
  { exists []. simpl. rewrite app_nil_r. repeat split; try reflexivity. now left. }
  unfold call_tool.
  destruct (String.eqb name "data_summary") eqn:E1.
  { apply String.eqb_eq in E1. subst name.
    exists [EvPrint "-> Executing tool: data_summary()"; EvTool "data_summary" df []].
    split; [| repeat split; try reflexivity; now right].
    unfold bind. rewrite print_run, invoke_run. simpl. now rewrite <- app_assoc. }
  destruct (String.eqb name "automated_eda") eqn:E2.
  { apply String.eqb_eq in E2. subst name.
    exists [EvPrint "-> Executing tool: automated_eda()"; EvTool "automated_eda" df []].
    split; [| repeat split; try reflexivity; now right].
    unfold bind. rewrite print_run, invoke_run. simpl. now rewrite <- app_assoc. }
  destruct (String.eqb name "check_for_outliers") eqn:E3.
  { apply String.eqb_eq in E3. subst name.
    destruct (d !! "column_name") as [column_name |].
    - exists [EvPrint ("-> Executing tool: check_for_outliers(column_name='"
                         ++ py_str column_name ++ "')");
              EvTool "check_for_outliers" df [column_name]].
      split; [| repeat split; try reflexivity; now right].
      unfold bind. rewrite print_run, invoke_run. simpl. now rewrite <- app_assoc.
    - exists []. simpl. rewrite app_nil_r. repeat split; try reflexivity. now left. }
  exists [EvPrint ("ERROR: Unknown tool requested by the model: " ++ name)].
  repeat split; try reflexivity. now left.
Qed.

(** X4. With [column_name] among the arguments, dispatching
    [check_for_outliers] hands exactly that value to the tool function and
    looks at no other argument: the run is the one with that single
    argument, its outcome is the outcome of the tool function on the
    dataset and that value, and the tool is called once. *)
Theorem call_tool_passes_column_name (df : DataFrame) (kwargs : gmap string PyVal)
    (column_name : PyVal) (s : State) :
  kwargs !! "column_name" = Some column_name ->
  call_tool "check_for_outliers" df kwargs s
    = call_tool "check_for_outliers" df {[ "column_name" := column_name ]} s
  /\ fst (call_tool "check_for_outliers" df kwargs s)
     = fst (check_for_outliers df column_name (world s))
  /\ world (snd (call_tool "check_for_outliers" df kwargs s))
     = snd (check_for_outliers df column_name (world s))
  /\ log (snd (call_tool "check_for_outliers" df kwargs s))
     = (log s ++ [EvPrint ("-> Executing tool: check_for_outliers(column_name='"
                             ++ py_str column_name ++ "')");
                  EvTool "check_for_outliers" df [column_name]])%list.
Proof.
  intros Hk.
  rewrite (call_tool_with_column_name df kwargs column_name s Hk).
  rewrite (call_tool_with_column_name df {[ "column_name" := column_name ]} column_name s)
    by apply lookup_singleton_eq.
  split; [reflexivity |].
  unfold bind. rewrite print_run, invoke_run. simpl.
  rewrite <- app_assoc. repeat split; reflexivity.
Qed.

(** One iteration of the structured loop as a straight line. *)
Lemma agent_turn_run (df : DataFrame) (model_name : string)
    (tools_list : list ToolDecl) (system_instruction : string)
    (turn : nat) (h : list Turn) (s : State) :
  agent_turn df model_name tools_list system_instruction turn h s
  = let g := generate_content model_name (CHistory h)
               (Some (system_instruction, tools_list)) (world s) in
    let s2 := {| world := snd g;
                 log := (log s
                         ++ [EvPrint (nl ++ "--- Turn " ++ pretty (turn + 1)%nat
                                        ++ ": Calling Gemini (Official FC) ---");
                             EvModel model_name (CHistory h)
                               (Some (system_instruction, tools_list)) (fst g)])%list |} in
    match fst g with
    | Raised e => (Returned (inl (api_error_message turn e)), s2)
    | Returned response =>
        match function_calls response with
        | [] => (Returned (inl (final_answer response)), s2)
        | tool_call :: _ =>
            let d := call_tool_unpacked (fc_name tool_call) df (fc_args tool_call)
                       {| world := world s2;
                          log := (log s2 ++ [EvPrint "Model requested a Tool Call."])%list |} in
            (Returned (inr (h ++ exchange (tool_call, recorded_payload (fst d)))%list),
             {| world := world (snd d);
                log := (log (snd d)
                        ++ [EvPrint (dispatch_line (fc_name tool_call) (fst d))])%list |})
        end
    end.
Proof.
  unfold agent_turn.
  unfold bind at 1. rewrite print_run.
  unfold bind at 1. unfold attempt at 1. rewrite call_model_run. simpl.
  rewrite <- !app_assoc. simpl.
  destruct (generate_content model_name (CHistory h)
              (Some (system_instruction, tools_list)) (world s)) as [[response | e] w];
    simpl; [| reflexivity].
  destruct (function_calls response) as [| tool_call others].
  { unfold final_answer. destruct (text response) as [[| c t] |]; reflexivity. }
  unfold bind at 1. rewrite print_run. simpl.
  unfold bind at 1. unfold attempt at 1. unfold bind at 1.
  rewrite <- !app_assoc. simpl.
  match goal with |- context [call_tool_unpacked ?n ?d ?a ?st] =>
    destruct (call_tool_unpacked n d a st) as [[out | e] s4] end;
    unfold bind, print, emit, modify, ret; simpl; reflexivity.
Qed.

Lemma first_request_asks (r : PyResult Response) :
  asks_for_tool r = match first_request r with Some _ => true | None => false end.
Proof. destruct r as [resp | e]; simpl; [destruct (function_calls resp) |]; reflexivity. Qed.

(** One iteration: one model call with the history it was given; a reply
    with a request appends one exchange for the first request and calls at
    most that one tool; any other reply ends the run without a tool call. *)
Lemma agent_turn_trace (df : DataFrame) (model_name : string)
    (tools_list : list ToolDecl) (system_instruction : string)
    (turn : nat) (h : list Turn) (s : State) :
  exists (reply : PyResult Response) (evs : list Event) (r : string + list Turn)
         (s' : State),
    agent_turn df model_name tools_list system_instruction turn h s = (Returned r, s')
    /\ log s' = (log s ++ evs)%list
    /\ replies evs = [reply]
    /\ histories_sent evs = [h]
    /\ match first_request reply with
       | Some fc =>
           (exists t, r = inr (h ++ exchange (fc, recorded_payload t))%list)
           /\ (tools_called evs = [] \/ tools_called evs = [fc_name fc])
       | None => (exists answer, r = inl answer) /\ tools_called evs = []
       end.
Proof.
  rewrite agent_turn_run. cbv zeta.
  set (line := (nl ++ "--- Turn " ++ pretty (turn + 1)%nat
                   ++ ": Calling Gemini (Official FC) ---")).
  destruct (generate_content model_name (CHistory h)
              (Some (system_instruction, tools_list)) (world s)) as [reply w].
  cbn [fst snd]. exists reply.
  destruct reply as [response | e].
  2:{ do 3 eexists. split; [reflexivity |]. split; [reflexivity |].
      repeat split; try reflexivity. eexists; reflexivity. }
  destruct (function_calls response) as [| tool_call others] eqn:Hcalls.
  { do 3 eexists. split; [reflexivity |]. split; [reflexivity |].
    cbn [first_request]. rewrite Hcalls.
    repeat split; try reflexivity. eexists; reflexivity. }
  cbn [first_request]. rewrite Hcalls. cbn [head].
  match goal with |- context [call_tool_unpacked ?n ?d ?a ?st] =>
    destruct (call_tool_unpacked_trace n d a st) as (tevs & Hlog & Hr & Hh & Htools);
    destruct (call_tool_unpacked n d a st) as [t s4]
  end.
  cbn [fst snd world log] in *.
  exists ([EvPrint line;
           EvModel model_name (CHistory h) (Some (system_instruction, tools_list))
             (Returned response);
           EvPrint "Model requested a Tool Call."]
          ++ tevs ++ [EvPrint (dispatch_line (fc_name tool_call) t)])%list.
  do 2 eexists. split; [reflexivity |]. cbn [log].
  split; [rewrite Hlog, <- !app_assoc; reflexivity |].
  rewrite !replies_app, !histories_sent_app, !tools_called_split, Hr, Hh.
  split; [reflexivity |]. split; [reflexivity |].
  split; [exists t; reflexivity |].
  destruct Htools as [-> | ->]; [left | right]; reflexivity.
Qed.

(** The loop over the turns [start .. start + n - 1]: the conversation is
    only ever appended to, two turns per tool request, and tools are
    called for first requests only. *)
Lemma agent_turns_trace (df : DataFrame) (model_name : string)
    (tools_list : list ToolDecl) (system_instruction : string) (n : nat) :
  forall (start : nat) (h : list Turn) (s : State),
    exists (answer : string) (h' : list Turn) (s' : State) (evs : list Event),
      agent_turns df model_name tools_list system_instruction (seq start n) h s
        = (Returned (answer, h'), s')
      /\ log s' = (log s ++ evs)%list
      /\ (forall k hk, histories_sent evs !! k = Some hk ->
          h `prefix_of` hk /\ length hk = (length h + 2 * k)%nat /\ hk `prefix_of` h')
      /\ (forall j k hj hk, (j <= k)%nat ->
          histories_sent evs !! j = Some hj -> histories_sent evs !! k = Some hk ->
          hj `prefix_of` hk)
      /\ h `prefix_of` h'
      /\ length h' = (length h + 2 * length (tool_requests evs))%nat
      /\ (length (tools_called evs) <= length (tool_requests evs))%nat
      /\ (forall t, t ∈ tools_called evs ->
          exists r fc, r ∈ replies evs /\ first_request r = Some fc /\ fc_name fc = t).
Proof.
  induction n as [| n IH]; intros start h s.
  { exists exhausted_message, h, s, []. simpl. rewrite app_nil_r.
    split; [reflexivity |]. split; [reflexivity |].
    split; [intros k hk Hk; rewrite lookup_nil in Hk; discriminate |].
    split; [intros j k hj hk _ Hj; rewrite lookup_nil in Hj; discriminate |].
    split; [reflexivity |]. split; [unfold tool_requests; simpl; lia |].
    split; [unfold tool_requests; simpl; lia |].
    intros t Ht. unfold tools_called in Ht. simpl in Ht. inversion Ht. }
  destruct (agent_turn_trace df model_name tools_list system_instruction start h s)
    as (reply & evs1 & r & s1 & Hrun & Hlog & Hreplies & Hsent & Hres).
  pose proof (first_request_asks reply) as Hasks.
  destruct (first_request reply) as [fc |] eqn:Hfirst.
  - destruct Hres as [(t & ->) Htools].
    destruct (IH (S start) (h ++ exchange (fc, recorded_payload t))%list s1)
      as (answer & h' & s' & evs2 & Hrun2 & Hlog2 & Hsent2 & Hpair2 & Hpre2 & Hlen2
          & Hcount2 & Hnames2).
    assert (Hh1 : h `prefix_of` (h ++ exchange (fc, recorded_payload t))%list)
      by (eexists; reflexivity).
    exists answer, h', s', (evs1 ++ evs2)%list.
    split; [simpl; unfold bind; rewrite Hrun; exact Hrun2 |].
    split; [rewrite Hlog2, Hlog; now rewrite app_assoc |].
    unfold tool_requests in *.
    rewrite histories_sent_app, replies_app, tools_called_split, Hsent, Hreplies.
    simpl. rewrite filter_cons. rewrite Hasks.
    destruct (decide (true = true)) as [_ | Hne]; [| congruence].
    split.
    { intros [| k] hk Hk; simpl in Hk.
      - injection Hk as <-. split; [reflexivity |]. split; [lia |].
        exact (transitivity Hh1 Hpre2).
      - destruct (Hsent2 k hk Hk) as (Hp & Hl & Hp').
        split; [exact (transitivity Hh1 Hp) |]. split; [| exact Hp'].
        rewrite Hl, length_app. simpl. lia. }
    split.
    { intros [| j] [| k] hj hk Hjk Hj Hk; simpl in Hj, Hk.
      - injection Hj as <-. injection Hk as <-. reflexivity.
      - injection Hj as <-. destruct (Hsent2 k hk Hk) as (Hp & _).
        exact (transitivity Hh1 Hp).
      - lia.
      - apply (Hpair2 j k hj hk); [lia | assumption | assumption]. }
    split; [exact (transitivity Hh1 Hpre2) |].
    split; [rewrite Hlen2, length_app; simpl; lia |].
    split.
    { rewrite length_app. simpl. destruct Htools as [-> | ->]; simpl; lia. }
    intros t' Ht'. apply elem_of_app in Ht' as [Ht' | Ht'].
    + destruct Htools as [Hnil | Hone]; [rewrite Hnil in Ht'; inversion Ht' |].
      rewrite Hone in Ht'. apply list_elem_of_singleton in Ht'. subst t'.
      exists reply, fc. split; [now left | split; [exact Hfirst | reflexivity]].
    + destruct (Hnames2 t' Ht') as (r' & fc' & Hin & Hf & Hname).
      exists r', fc'. split; [now right | split; assumption].
  - destruct Hres as [(answer & ->) Htools].
    exists answer, h, s1, evs1.
    split; [simpl; unfold bind; now rewrite Hrun |].
    split; [exact Hlog |].
    unfold tool_requests. rewrite Hsent, Hreplies, Htools. simpl.
    rewrite filter_cons, Hasks.
    destruct (decide (false = true)) as [Hne | _]; [congruence |]. simpl.
    split.
    { intros [| k] hk Hk; simpl in Hk; [| discriminate].
      injection Hk as <-. split; [reflexivity |]. split; [lia | reflexivity]. }
    split.
    { intros [| j] [| k] hj hk _ Hj Hk; simpl in Hj, Hk; try discriminate.
      injection Hj as <-. injection Hk as <-. reflexivity. }
    split; [reflexivity |]. split; [lia |]. split; [lia |].
    intros t Ht. inversion Ht.
Qed.

(** X5. In every run of the structured loop the conversation is only
    appended to: the history sent with the k-th model call (from 0) starts
    with the user's turn and has 2k + 1 turns, every history sent is a
    prefix of all later ones and of the final one, and the final history
    has two turns per reply that asked for a tool, plus the user's. *)
Theorem enterprise_agent_conversation_grows (user_query : string) (df : DataFrame)
    (model_name : string) (tools_list : list ToolDecl) (system_instruction : string)
    (s : State) :
  exists (answer : string) (h' : list Turn) (s' : State) (evs : list Event),
    agent_turns df model_name tools_list system_instruction
      (seq 0 max_turns) [user_turn user_query] s = (Returned (answer, h'), s')
    /\ log s' = (log s ++ evs)%list
    /\ (forall k hk, histories_sent evs !! k = Some hk ->
        hk !! 0%nat = Some (user_turn user_query)
        /\ length hk = (2 * k + 1)%nat
        /\ hk `prefix_of` h')
    /\ (forall j k hj hk, (j <= k)%nat ->
        histories_sent evs !! j = Some hj -> histories_sent evs !! k = Some hk ->
        hj `prefix_of` hk)
    /\ length h' = (2 * length (tool_requests evs) + 1)%nat.
Proof.
  destruct (agent_turns_trace df model_name tools_list system_instruction max_turns
              0 [user_turn user_query] s)
    as (answer & h' & s' & evs & Hrun & Hlog & Hsent & Hpair & _ & Hlen & _).
  exists answer, h', s', evs.
  split; [exact Hrun |]. split; [exact Hlog |].
  split.
  { intros k hk Hk. destruct (Hsent k hk Hk) as ([rest ->] & Hl & Hp).
    split; [reflexivity |].
    change (length [user_turn user_query]) with 1%nat in Hl.
    split; [lia | exact Hp]. }
  split; [exact Hpair |].
  change (length [user_turn user_query]) with 1%nat in Hlen. lia.
Qed.

(** X6. In every run of the structured loop a tool function is called
    only for the first request of a reply, at most once per reply that
    asked for a tool: the tool calls number at most the tool requests,
    these at most the model calls, these at most 5, and every tool called
    is named by the first request of some reply. *)
Theorem enterprise_agent_tools_follow_first_requests (user_query : string)
    (df : DataFrame) (model_name : string) (tools_list : list ToolDecl)
    (system_instruction : string) (s : State) :
  exists (answer : string) (s' : State) (evs : list Event),
    enterprise_agent user_query df model_name tools_list system_instruction s
      = (Returned answer, s')
    /\ log s' = (log s ++ evs)%list
    /\ (length (tools_called evs) <= length (tool_requests evs))%nat
    /\ (length (tool_requests evs) <= model_calls evs)%nat
    /\ (model_calls evs <= 5)%nat
    /\ (forall t, t ∈ tools_called evs ->
        exists r fc, r ∈ replies evs /\ first_request r = Some fc /\ fc_name fc = t).
Proof.
  destruct (agent_turns_trace df model_name tools_list system_instruction max_turns
              0 [user_turn user_query] s)
    as (answer & h' & s' & evs & Hrun & Hlog & _ & _ & _ & _ & Hcount & Hnames).
  destruct (agent_turns_summary df model_name tools_list system_instruction max_turns
              0 [user_turn user_query] s (paired_user_turn user_query))
    as (answer2 & h2 & s2 & evs2 & Hrun2 & Hlog2 & _ & _ & Hle & _).
  rewrite Hrun in Hrun2. injection Hrun2 as <- <- <-.
  rewrite Hlog in Hlog2. apply app_inv_head in Hlog2. subst evs2.
  exists answer, s', evs.
  split; [unfold enterprise_agent, bind; now rewrite Hrun |].
  split; [exact Hlog |]. split; [exact Hcount |].
  split; [apply length_filter |]. split; [exact Hle | exact Hnames].
Qed.

(** X7. When the first reply holds no tool request, the run ends there:
    one model call, no tool call, and the answer is the reply's text, or
    the fixed no-output message when the text is missing or empty. *)
Theorem enterprise_agent_answers_without_tool (user_query : string) (df : DataFrame)
    (model_name : string) (tools_list : list ToolDecl) (system_instruction : string)
    (s : State) (response : Response) (w : World) :
  generate_content model_name (CHistory [user_turn user_query])
    (Some (system_instruction, tools_list)) (world s) = (Returned response, w) ->
  function_calls response = [] ->
  enterprise_agent user_query df model_name tools_list system_instruction s
    = (Returned (final_answer response),
       {| world := w;
          log := (log s
                  ++ [EvPrint (nl ++ "--- Turn 1: Calling Gemini (Official FC) ---");
                      EvModel model_name (CHistory [user_turn user_query])
                        (Some (system_instruction, tools_list)) (Returned response)])%list |})
  /\ (forall c t, text response = Some (String c t) ->
      final_answer response = String c t)
  /\ (text response = None \/ text response = Some EmptyString ->
      final_answer response
      = "Agent failed to generate a response or requested a tool not handled.").
Proof.
  intros Hgen Hcalls. split; [| split].
  - unfold enterprise_agent, max_turns. cbn [seq agent_turns]. unfold bind at 1.
    unfold bind at 1. rewrite agent_turn_run. cbv zeta. rewrite Hgen. cbn [fst snd].
    rewrite Hcalls. reflexivity.
  - intros c t Ht. unfold final_answer. now rewrite Ht.
  - intros [Ht | Ht]; unfold final_answer; now rewrite Ht.
Qed.

(** X8. A request for a tool the dispatcher does not know does not stop
    the loop: the iteration calls no tool function and appends the request
    turn and a result turn holding [{"error": "Unknown tool: <name>"}],
    which the model sees with the next call. *)
Theorem agent_turn_records_unknown_tool (df : DataFrame) (model_name : string)
    (tools_list : list ToolDecl) (system_instruction : string)
    (turn : nat) (h : list Turn) (s : State)
    (response : Response) (w : World) (tool_call : FunctionCall)
    (others : list FunctionCall) :
  generate_content model_name (CHistory h) (Some (system_instruction, tools_list)) (world s)
    = (Returned response, w) ->
  function_calls response = tool_call :: others ->
  fc_name tool_call <> "data_summary" ->
  fc_name tool_call <> "automated_eda" ->
  fc_name tool_call <> "check_for_outliers" ->
  fc_args tool_call !! "name" = None ->
  fc_args tool_call !! "df" = None ->
  exists evs : list Event,
    agent_turn df model_name tools_list system_instruction turn h s
    = (Returned (inr (h ++ [model_turn tool_call;
                           tool_turn (fc_name tool_call)
                             (error_dict ("Unknown tool: " ++ fc_name tool_call))])%list),
       {| world := w; log := (log s ++ evs)%list |})
    /\ tools_called evs = []
    /\ model_calls evs = 1%nat.
Proof.
  intros Hgen Hcalls H1 H2 H3 Hname Hdf.
  rewrite agent_turn_run. cbv zeta. rewrite Hgen. cbn [fst snd]. rewrite Hcalls.
  unfold call_tool_unpacked. rewrite Hname, Hdf.
  rewrite bool_decide_eq_false_2 by (intros [[? [=]] | [? [=]]]).
  unfold call_tool.
  rewrite (name_eqb_false _ _ H1), (name_eqb_false _ _ H2), (name_eqb_false _ _ H3).
  unfold bind. rewrite print_run. cbn [fst snd world log ret recorded_payload exchange].
  eexists. split; [rewrite <- !app_assoc; reflexivity |].
  split; reflexivity.
Qed.

(** X9. An exception out of the dispatcher (a tool function that raises)
    does not leave the loop: the iteration appends the request turn and a
    result turn holding
    [{"error": "Internal tool execution error: <e>"}] and goes on. *)
Theorem agent_turn_isolates_tool_exception (df : DataFrame) (model_name : string)
    (tools_list : list ToolDecl) (system_instruction : string)
    (turn : nat) (h : list Turn) (s : State)
    (response : Response) (w : World) (tool_call : FunctionCall)
    (others : list FunctionCall) (e : Exn) :
  generate_content model_name (CHistory h) (Some (system_instruction, tools_list)) (world s)
    = (Returned response, w) ->
  function_calls response = tool_call :: others ->
  (forall l : list Event,
     fst (call_tool_unpacked (fc_name tool_call) df (fc_args tool_call)
            {| world := w; log := l |}) = Raised e) ->
  exists s' : State,
    agent_turn df model_name tools_list system_instruction turn h s
    = (Returned (inr (h ++ [model_turn tool_call;
                           tool_turn (fc_name tool_call)
                             (error_dict ("Internal tool execution error: "
                                            ++ exn_str e))])%list), s').
Proof.
  intros Hgen Hcalls Hraise.
  rewrite agent_turn_run. cbv zeta. rewrite Hgen. cbn [fst snd world log].
  rewrite Hcalls, Hraise. eexists. reflexivity.
Qed.

(** X10. A request whose arguments hold the key [name] or [df] never
    reaches the dispatcher, even for a known tool: the call itself fails
    on the doubled parameter, no tool function is called, nothing is
    printed by the dispatcher, and the failure is recorded as an internal
    tool execution error. *)
Theorem agent_turn_argument_clash (df : DataFrame) (model_name : string)
    (tools_list : list ToolDecl) (system_instruction : string)
    (turn : nat) (h : list Turn) (s : State)
    (response : Response) (w : World) (tool_call : FunctionCall)
    (others : list FunctionCall) :
  generate_content model_name (CHistory h) (Some (system_instruction, tools_list)) (world s)
    = (Returned response, w) ->
  function_calls response = tool_call :: others ->
  is_Some (fc_args tool_call !! "name") \/ is_Some (fc_args tool_call !! "df") ->
  let e := multiple_values_error (fc_args tool_call) in
  agent_turn df model_name tools_list system_instruction turn h s
  = (Returned (inr (h ++ [model_turn tool_call;
                         tool_turn (fc_name tool_call)
                           (error_dict ("Internal tool execution error: "
                                          ++ exn_str e))])%list),
     {| world := w;
        log := (log s
                ++ [EvPrint (nl ++ "--- Turn " ++ pretty (turn + 1)%nat
                               ++ ": Calling Gemini (Official FC) ---");
                    EvModel model_name (CHistory h)
                      (Some (system_instruction, tools_list)) (Returned response);
                    EvPrint "Model requested a Tool Call.";
                    EvPrint ("Error executing Python tool '" ++ fc_name tool_call
                               ++ "': " ++ exn_str e)])%list |}).
Proof.
  intros Hgen Hcalls Hclash e.
  rewrite agent_turn_run. cbv zeta. rewrite Hgen. cbn [fst snd world log].
  rewrite Hcalls. unfold call_tool_unpacked.
  rewrite bool_decide_eq_true_2 by exact Hclash.
  cbn [raise fst snd world log recorded_payload exchange dispatch_line].
  rewrite <- !app_assoc. reflexivity.
Qed.

(** *** The two-step loop *)

(** X11. A decision [RESPONSE:<answer>] is answered directly: the run
    returns what follows the first [RESPONSE:], trimmed (a later
    [RESPONSE:] in the answer is kept), after one model call and without
    any tool call. *)
Theorem two_step_direct_response (user_query : string) (df : DataFrame)
    (model_name : string) (s : State) (resp : Response) (w : World) (answer : string) :
  generate_content model_name (CPrompt (action_prompt user_query)) None (world s)
    = (Returned resp, w) ->
  strip <$> text resp = Some ("RESPONSE:" ++ answer) ->
  enterprise_agent_new user_query df model_name s
  = (Returned (Some (strip answer)),
     {| world := w;
        log := (log s
                ++ [EvPrint (nl ++ "--- Step 1: Model Decision (Tool or Response) ---");
                    EvModel model_name (CPrompt (action_prompt user_query)) None
                      (Returned resp);
                    EvPrint ("Model Decision: " ++ "RESPONSE:" ++ answer)])%list |}).
Proof.
  intros Hgen Hdec.
  rewrite enterprise_agent_new_run. cbv zeta. rewrite Hgen. cbn [fst snd].
  destruct (text resp) as [t |]; [| discriminate Hdec].
  injection Hdec as Hdec. rewrite Hdec.
  replace (startswith "TOOL:" ("RESPONSE:" ++ answer)) with false by reflexivity.
  rewrite (startswith_app "RESPONSE:" answer).
  rewrite (split1_prefix "R" "ESPONSE:" answer). cbn [nth world log].
  rewrite <- !app_assoc. reflexivity.
Qed.

(** X12. In the two-step loop nothing catches an exception of the tool
    dispatch: when the decision starts with [TOOL:] and the dispatch
    raises, the run raises that exception to the caller after the one
    decision call, and the interpretation call is never made. *)
Theorem two_step_tool_exception_propagates (user_query : string) (df : DataFrame)
    (model_name : string) (s : State) (resp : Response) (w : World)
    (decision : string) (e : Exn) :
  generate_content model_name (CPrompt (action_prompt user_query)) None (world s)
    = (Returned resp, w) ->
  strip <$> text resp = Some decision ->
  startswith "TOOL:" decision = true ->
  (forall l : list Event,
     fst (call_tool_two_step (strip (nth 1 (split "TOOL:" decision) EmptyString)) df
            {| world := w; log := l |}) = Raised e) ->
  exists (s' : State) (evs : list Event),
    enterprise_agent_new user_query df model_name s = (Raised e, s')
    /\ log s' = (log s ++ evs)%list
    /\ model_calls evs = 1%nat.
Proof.
  intros Hgen Hdec Htool Hraise.
  rewrite enterprise_agent_new_run. cbv zeta. rewrite Hgen. cbn [fst snd].
  destruct (text resp) as [t |]; [| discriminate Hdec].
  injection Hdec as Hdec. rewrite Hdec, Htool. cbn [world log].
  match goal with |- context [call_tool_two_step ?a ?d {| world := ?w0; log := ?l0 |}] =>
    pose proof (Hraise l0) as Hr;
    destruct (call_tool_two_step_events a d {| world := w0; log := l0 |})
      as (tevs & Hlog & Hrep & _);
    destruct (call_tool_two_step a d {| world := w0; log := l0 |}) as [t' s4]
  end.
  cbn [fst snd world log] in *. subst t'.
  do 2 eexists. split; [reflexivity |].
  split; [rewrite Hlog, <- !app_assoc; reflexivity |].
  unfold model_calls. rewrite !replies_app, Hrep. reflexivity.
Qed.

(** X13. A decision reply without text is not treated as an irregular
    decision: trimming it fails, and the run raises an [AttributeError]
    to the caller after the one model call, with no fallback call. *)
Theorem two_step_reply_without_text (user_query : string) (df : DataFrame)
    (model_name : string) (s : State) (resp : Response) (w : World) :
  generate_content model_name (CPrompt (action_prompt user_query)) None (world s)
    = (Returned resp, w) ->
  text resp = None ->
  enterprise_agent_new user_query df model_name s
  = (Raised (MkExn "AttributeError" "'NoneType' object has no attribute 'strip'"),
     {| world := w;
        log := (log s
                ++ [EvPrint (nl ++ "--- Step 1: Model Decision (Tool or Response) ---");
                    EvModel model_name (CPrompt (action_prompt user_query)) None
                      (Returned resp)])%list |}).
Proof.
  intros Hgen Htext.
  rewrite enterprise_agent_new_run. cbv zeta. rewrite Hgen. cbn [fst snd].
  now rewrite Htext.
Qed.

Lemma take_prefix_cons (n : N) (c : ascii) (r : string) :
  take_prefix n (String c r)
  = if N.eqb n 0 then EmptyString else String c (take_prefix (N.pred n) r).
Proof. reflexivity. Qed.

Lemma take_prefix_length (n : N) (s : string) :
  String.length (take_prefix n s) = Nat.min (N.to_nat n) (String.length s).
Proof.
  revert n. induction s as [| c s IH]; intros n.
  - change (take_prefix n EmptyString) with EmptyString. cbn [String.length].
    now rewrite Nat.min_0_r.
  - rewrite take_prefix_cons.
    destruct (N.eqb_spec n 0) as [-> | Hn]; [reflexivity |].
    cbn [String.length]. rewrite IH.
    replace (N.to_nat n) with (S (N.to_nat (N.pred n))) by lia. reflexivity.
Qed.

Lemma take_prefix_prefix (n : N) (s : string) :
  exists rest, s = take_prefix n s ++ rest.
Proof.
  revert n. induction s as [| c s IH]; intros n.
  - exists EmptyString. reflexivity.
  - rewrite take_prefix_cons.
    destruct (N.eqb n 0); [exists (String c s); reflexivity |].
    destruct (IH (N.pred n)) as [rest Hrest]. exists rest.
    rewrite append_cons. now f_equal.
Qed.

(** X14. A decision [TOOL:<call>] whose dispatch returns leads to exactly
    one interpretation call, whose text is the result. The call string is
    what follows the prefix up to a further [TOOL:], trimmed; the prompt
    embeds it, the user's query, and the output as text cut to its first
    20000 characters (whole when it is shorter). *)
Theorem two_step_tool_interpretation (user_query : string) (df : DataFrame)
    (model_name : string) (s : State) (resp : Response) (w : World)
    (call tool_call_string : string) (tool_output : PyVal) (s4 : State) :
  generate_content model_name (CPrompt (action_prompt user_query)) None (world s)
    = (Returned resp, w) ->
  strip <$> text resp = Some ("TOOL:" ++ call) ->
  tool_call_string = strip (hd EmptyString (split "TOOL:" call)) ->
  call_tool_two_step tool_call_string df
    {| world := w;
       log := (log s
               ++ [EvPrint (nl ++ "--- Step 1: Model Decision (Tool or Response) ---");
                   EvModel model_name (CPrompt (action_prompt user_query)) None
                     (Returned resp);
                   EvPrint ("Model Decision: " ++ "TOOL:" ++ call)])%list |}
    = (Returned tool_output, s4) ->
  let tool_output_str := take_prefix 20000%N (py_str tool_output) in
  let prompt := followup_prompt tool_call_string tool_output_str user_query in
  let g := generate_content model_name (CPrompt prompt) None (world s4) in
  enterprise_agent_new user_query df model_name s
  = (match fst g with
     | Returned final => Returned (text final)
     | Raised e => Raised e
     end,
     {| world := snd g;
        log := (log s4
                ++ [EvPrint (nl ++ "--- Step 2: Model Interpretation ---");
                    EvModel model_name (CPrompt prompt) None (fst g)])%list |})
  /\ String.length tool_output_str
     = Nat.min (N.to_nat 20000) (String.length (py_str tool_output))
  /\ (exists cut, py_str tool_output = tool_output_str ++ cut).
Proof.
  intros Hgen Hdec -> Htool tool_output_str prompt g.
  split; [| split; [| apply take_prefix_prefix]].
  2:{ unfold tool_output_str. apply take_prefix_length. }
  rewrite enterprise_agent_new_run. cbv zeta. rewrite Hgen. cbn [fst snd].
  destruct (text resp) as [t |]; [| discriminate Hdec].
  injection Hdec as Hdec. rewrite Hdec.
  rewrite (startswith_app "TOOL:" call).
  rewrite (split_prefix "T" "OOL:" call).
  replace (nth 1 (EmptyString :: split "TOOL:" call) EmptyString)
    with (hd EmptyString (split "TOOL:" call))
    by (destruct (split "TOOL:" call); reflexivity).
  cbn [world log]. rewrite <- !app_assoc. cbn [app].
  rewrite Htool. unfold second_call. cbn [world log].
  rewrite <- !app_assoc. reflexivity.
Qed.

End LoopRuns.

(** ** More on the tools *)

Section ToolRuns.
Context `{Tools.Libraries}.
Import Py F64 Tools.

(** X15. Without a dataset, or with one that has no row or no column,
    [data_summary] returns exactly [{"error": "DataFrame is None or empty."}]
    and touches nothing; no statistic is computed. *)
Theorem data_summary_empty_input (df : option nat) (st : Store) :
  df = None
  \/ (exists l f, df = Some l /\ frames st !! l = Some f
                 /\ (nrows f = 0%nat \/ cols f = [])) ->
  data_summary df st = (Returned (error_dict "DataFrame is None or empty."), st).
Proof.
  intros [-> | (l & f & -> & Hf & Hempty)]; [reflexivity |].
  unfold data_summary, load, bind, gets, ret. simpl. rewrite Hf. simpl.
  assert (He : empty f = true).
  { unfold empty. destruct Hempty as [-> | ->]; [reflexivity |].
    simpl. apply orb_true_r. }
  now rewrite He.
Qed.

(** The entry of [categorical_metadata] for the values of a column. *)
Lemma categorical_entry_cases (vs : list (option string)) :
  categorical_entry vs
  = if (0 <? nunique vs)%nat
    then Some (if (nunique vs <=? MAX_UNIQUE_SAMPLES)%nat
               then VDict [(VStr "unique_count", VInt (Z.of_nat (nunique vs)));
                           (VStr "sample_values", VList (map obj_value (unique vs)))]
               else VDict [(VStr "unique_count", VInt (Z.of_nat (nunique vs)));
                           (VStr "note", VStr ("Too many unique values ("
                                                 ++ pretty (nunique vs) ++ ") to list."))])
    else None.
Proof.
  unfold categorical_entry.
  destruct (0 <? nunique vs)%nat eqn:E0; cbn [andb].
  - destruct (nunique vs <=? MAX_UNIQUE_SAMPLES)%nat eqn:E1; [reflexivity |].
    apply Nat.leb_gt in E1. apply Nat.ltb_lt in E1. now rewrite E1.
  - apply Nat.ltb_ge in E0.
    destruct (MAX_UNIQUE_SAMPLES <? nunique vs)%nat eqn:E2; [| reflexivity].
    apply Nat.ltb_lt in E2. unfold MAX_UNIQUE_SAMPLES in E2. lia.
Qed.

Lemma categorical_values_cases (c : Column) (vs : list (option string)) :
  categorical_values c = Some vs <-> c = ObjCol vs \/ c = CatCol vs.
Proof.
  destruct c; simpl; split; try (intros [[=] | [=]]); try discriminate;
    try (intros [= ->]; auto); subst; reflexivity.
Qed.

(** X16. [categorical_metadata] has an entry for a label exactly when the
    frame has a column of that label, of dtype [object] or [category],
    with at least one value that is not missing: numeric columns and
    columns that are entirely missing are left out. The entry lists the
    distinct values when there are at most 50 of them and carries a note
    instead when there are more. *)
Theorem categorical_metadata_entries (cs : list (string * Column)) (col : string)
    (entry : PyVal) :
  (VStr col, entry) ∈ categorical_samples cs
  <-> exists vs : list (option string),
        ((col, ObjCol vs) ∈ cs \/ (col, CatCol vs) ∈ cs)
        /\ (0 < nunique vs)%nat
        /\ entry
           = if (nunique vs <=? 50)%nat
             then VDict [(VStr "unique_count", VInt (Z.of_nat (nunique vs)));
                         (VStr "sample_values", VList (map obj_value (unique vs)))]
             else VDict [(VStr "unique_count", VInt (Z.of_nat (nunique vs)));
                         (VStr "note", VStr ("Too many unique values ("
                                               ++ pretty (nunique vs) ++ ") to list."))].
Proof.
  assert (Hshape : forall vs,
            ((col, ObjCol vs) ∈ cs \/ (col, CatCol vs) ∈ cs)
            <-> exists c, (col, c) ∈ cs /\ categorical_values c = Some vs).
  { intros vs. split.
    - intros [Hin | Hin]; eexists; (split; [exact Hin | reflexivity]).
    - intros (c & Hin & Hc). apply categorical_values_cases in Hc as [-> | ->]; auto. }
  transitivity (exists vs c, (col, c) ∈ cs /\ categorical_values c = Some vs
                  /\ (0 < nunique vs)%nat
                  /\ categorical_entry vs = Some entry).
  2: { split.
       - intros (vs & c & Hin & Hc & Hpos & Hentry). exists vs.
         split; [apply Hshape; eauto |]. split; [exact Hpos |].
         rewrite categorical_entry_cases in Hentry.
         apply Nat.ltb_lt in Hpos. rewrite Hpos in Hentry. now injection Hentry as <-.
       - intros (vs & Hin & Hpos & ->). apply Hshape in Hin as (c & Hin & Hc).
         exists vs, c. split; [exact Hin |]. split; [exact Hc |]. split; [exact Hpos |].
         rewrite categorical_entry_cases. apply Nat.ltb_lt in Hpos. now rewrite Hpos. }
  clear Hshape. induction cs as [| [name c] r IH].
  { split; [intros Hin; inversion Hin | intros (vs & c & Hin & _); inversion Hin]. }
  cbn [categorical_samples].
  destruct (categorical_values c ≫= categorical_entry) as [e |] eqn:E.
  - destruct (categorical_values c) as [vs |] eqn:Ec; [| discriminate]. simpl in E.
    assert (Hpos : (0 < nunique vs)%nat).
    { rewrite categorical_entry_cases in E.
      destruct (0 <? nunique vs)%nat eqn:E0; [now apply Nat.ltb_lt | discriminate]. }
    rewrite elem_of_cons, IH. split.
    + intros [[= -> ->] | (vs' & c' & Hin & Hrest)].
      * exists vs, c. split; [now left |]. repeat split; assumption.
      * exists vs', c'. split; [now right | exact Hrest].
    + intros (vs' & c' & Hin & Hc' & Hpos' & Hentry).
      apply elem_of_cons in Hin as [[= -> ->] | Hin].
      * left. rewrite Ec in Hc'. injection Hc' as <-. congruence.
      * right. exists vs', c'. repeat split; assumption.
  - rewrite IH. split.
    + intros (vs' & c' & Hin & Hrest). exists vs', c'. split; [now right | exact Hrest].
    + intros (vs' & c' & Hin & Hc' & Hpos' & Hentry).
      apply elem_of_cons in Hin as [[= -> ->] | Hin].
      * rewrite Hc' in E. simpl in E. congruence.
      * exists vs', c'. repeat split; assumption.
Qed.

Lemma lookup_col_columns (name : string) (cs : list (string * Column)) (c : Column) :
  lookup_col name cs = Some c -> name ∈ map fst cs.
Proof.
  induction cs as [| [n c'] r IH]; [discriminate |].
  cbn [lookup_col map fst]. destruct (String.eqb name n) eqn:E.
  - apply String.eqb_eq in E. subst n. intros _. now left.
  - intros Hr. right. now apply IH.
Qed.

Lemma columns_lookup_col (name : string) (cs : list (string * Column)) :
  name ∈ map fst cs -> exists c, lookup_col name cs = Some c.
Proof.
  induction cs as [| [n c'] r IH]; [intros Hin; inversion Hin |].
  cbn [lookup_col map fst]. intros Hin. destruct (String.eqb name n) eqn:E.
  - now exists c'.
  - apply String.eqb_neq in E. apply elem_of_cons in Hin as [-> | Hin];
      [contradiction | now apply IH].
Qed.

Lemma load_run (l : nat) (st : Store) (f : Frame) :
  frames st !! l = Some f -> load (Some l) st = (Returned (Some f), st).
Proof. intros Hf. unfold load, bind, gets, ret. now rewrite Hf. Qed.

(** X17. When a required column is absent, [automated_eda] returns
    exactly [{"error": "Missing required columns for EDA."}] and draws
    nothing: no chart file is written and the store is unchanged. *)
Theorem automated_eda_missing_column (l : nat) (st : Store) (f : Frame) (col : string) :
  frames st !! l = Some f ->
  col ∈ required_cols ->
  col ∉ columns f ->
  automated_eda (Some l) st
  = (Returned (error_dict "Missing required columns for EDA."), st).
Proof.
  intros Hf Hreq Hmiss.
  unfold automated_eda. unfold bind at 1. rewrite (load_run l st f Hf).
  destruct (forallb (fun c => bool_decide (c ∈ columns f)) required_cols) eqn:E;
    [| reflexivity].
  exfalso. rewrite forallb_forall in E.
  apply list_elem_of_In in Hreq. specialize (E col Hreq).
  apply bool_decide_eq_true in E. contradiction.
Qed.

Lemma getitem_run (f : Frame) (name : string) (c : Column) (st : Store) :
  lookup_col name (cols f) = Some c -> getitem f name st = (Returned c, st).
Proof. intros Hc. unfold getitem. now rewrite Hc. Qed.

Lemma required_cols_present (f : Frame) (sales profit category discount : Column) :
  lookup_col "sales" (cols f) = Some sales ->
  lookup_col "profit" (cols f) = Some profit ->
  lookup_col "category" (cols f) = Some category ->
  lookup_col "discount" (cols f) = Some discount ->
  "segment" ∈ columns f ->
  forallb (fun col => bool_decide (col ∈ columns f)) required_cols = true.
Proof.
  intros Hs Hp Hc Hd Hseg. unfold required_cols. cbn [forallb].
  rewrite !bool_decide_eq_true_2; [reflexivity | | | | |];
    first [exact Hseg | eapply lookup_col_columns; eassumption].
Qed.

(** X18. With the five required columns present and the three charts
    drawn, [automated_eda] writes exactly the three chart files, in the
    order sales, category, discount, each overwriting a file of the same
    name, leaves every other file as it was, and returns the three file
    names. The [segment] column has to be there but is never read. *)
Theorem automated_eda_writes_three_charts (l : nat) (st : Store) (f : Frame)
    (sales profit category discount : Column) (chart1 chart2 chart3 : Image) :
  frames st !! l = Some f ->
  lookup_col "sales" (cols f) = Some sales ->
  lookup_col "profit" (cols f) = Some profit ->
  lookup_col "category" (cols f) = Some category ->
  lookup_col "discount" (cols f) = Some discount ->
  "segment" ∈ columns f ->
  hist sales = Returned chart1 ->
  category_bars category sales profit = Returned chart2 ->
  scatter discount profit = Returned chart3 ->
  let st' := snd (automated_eda (Some l) st) in
  automated_eda (Some l) st
  = (Returned (VDict
       [(VStr "sales_distribution_plot", VStr "sales_distribution.png");
        (VStr "category_performance_plot", VStr "category_performance.png");
        (VStr "discount_profit_scatter_plot", VStr "discount_profit_scatter.png")]),
     {| frames := frames st;
        files := <["discount_profit_scatter.png" := chart3]>
                   (<["category_performance.png" := chart2]>
                      (<["sales_distribution.png" := chart1]> (files st))) |})
  /\ files st' !! "sales_distribution.png" = Some chart1
  /\ files st' !! "category_performance.png" = Some chart2
  /\ files st' !! "discount_profit_scatter.png" = Some chart3
  /\ (forall name : string,
        name <> "sales_distribution.png" -> name <> "category_performance.png" ->
        name <> "discount_profit_scatter.png" ->
        files st' !! name = files st !! name).
Proof.
  intros Hf Hs Hp Hc Hd Hseg H1 H2 H3 st'.
  assert (Hrun : automated_eda (Some l) st
    = (Returned (VDict
         [(VStr "sales_distribution_plot", VStr "sales_distribution.png");
          (VStr "category_performance_plot", VStr "category_performance.png");
          (VStr "discount_profit_scatter_plot", VStr "discount_profit_scatter.png")]),
       {| frames := frames st;
          files := <["discount_profit_scatter.png" := chart3]>
                     (<["category_performance.png" := chart2]>
                        (<["sales_distribution.png" := chart1]> (files st))) |})).
  { unfold automated_eda. unfold bind at 1. rewrite (load_run l st f Hf).
    rewrite (required_cols_present f sales profit category discount Hs Hp Hc Hd Hseg).
    cbn [negb]. unfold bind, lift, savefig, modify, ret.
    rewrite (getitem_run f "sales" sales _ Hs), H1.
    rewrite (getitem_run f "category" category _ Hc).
    rewrite (getitem_run f "profit" profit _ Hp), H2.
    rewrite (getitem_run f "discount" discount _ Hd), H3. reflexivity. }
  subst st'. rewrite Hrun. cbn [snd files].
  split; [reflexivity |].
  split; [now rewrite !lookup_insert_ne, lookup_insert_eq by discriminate |].
  split; [now rewrite lookup_insert_ne, lookup_insert_eq by discriminate |].
  split; [now rewrite lookup_insert_eq |].
  intros name N1 N2 N3. now rewrite !lookup_insert_ne by congruence.
Qed.

(** X19. A failure while drawing the second chart is not cleaned up
    after: [automated_eda] raises the exception, the first chart file
    stays written, and the other two are not written. *)
Theorem automated_eda_partial_failure (l : nat) (st : Store) (f : Frame)
    (sales profit category discount : Column) (chart1 : Image) (e : Exn) :
  frames st !! l = Some f ->
  lookup_col "sales" (cols f) = Some sales ->
  lookup_col "profit" (cols f) = Some profit ->
  lookup_col "category" (cols f) = Some category ->
  lookup_col "discount" (cols f) = Some discount ->
  "segment" ∈ columns f ->
  hist sales = Returned chart1 ->
  category_bars category sales profit = Raised e ->
  automated_eda (Some l) st
  = (Raised e,
     {| frames := frames st;
        files := <["sales_distribution.png" := chart1]> (files st) |}).
Proof.
  intros Hf Hs Hp Hc Hd Hseg H1 H2.
  unfold automated_eda. unfold bind at 1. rewrite (load_run l st f Hf).
  rewrite (required_cols_present f sales profit category discount Hs Hp Hc Hd Hseg).
  cbn [negb]. unfold bind, lift, savefig, modify, ret.
  rewrite (getitem_run f "sales" sales _ Hs), H1.
  rewrite (getitem_run f "category" category _ Hc).
  rewrite (getitem_run f "profit" profit _ Hp), H2. reflexivity.
Qed.

(** X20. [check_for_outliers] on a label that is no column of the frame,
    or on a column that is not numeric (of dtype [object] or [category]),
    returns [{"error": "Column '<c>' not found or is not numeric."}] and
    changes nothing. *)
Theorem check_for_outliers_rejects_column (l : nat) (st : Store) (f : Frame)
    (column_name : string) :
  frames st !! l = Some f ->
  lookup_col column_name (cols f) = None
  \/ (exists vs, lookup_col column_name (cols f) = Some (ObjCol vs)
                 \/ lookup_col column_name (cols f) = Some (CatCol vs)) ->
  check_for_outliers (Some l) column_name st
  = (Returned (error_dict ("Column '" ++ column_name ++ "' not found or is not numeric.")),
     st).
Proof.
  intros Hf Hcol.
  unfold check_for_outliers. unfold bind at 1. rewrite (load_run l st f Hf).
  destruct Hcol as [-> | [vs [-> | ->]]]; reflexivity.
Qed.

(** X21. [check_for_outliers] on a numeric column that holds nothing but
    NaN returns
    [{"error": "Column '<c>' is empty after dropping NaN values."}]:
    no quartile is computed and nothing is changed. *)
Theorem check_for_outliers_all_nan (l : nat) (st : Store) (f : Frame)
    (column_name : string) (vals : list float64) :
  frames st !! l = Some f ->
  lookup_col column_name (cols f) = Some (FloatCol vals) ->
  Forall (fun x => x = nan) vals ->
  check_for_outliers (Some l) column_name st
  = (Returned (error_dict ("Column '" ++ column_name
                             ++ "' is empty after dropping NaN values.")), st).
Proof.
  intros Hf Hcol Hnan.
  unfold check_for_outliers. unfold bind at 1. rewrite (load_run l st f Hf).
  rewrite Hcol. cbn [mbind option_bind numeric_values].
  assert (Hdrop : series_len (dropna (Float64 vals)) = 0%nat).
  { clear Hcol. cbn [dropna series_len].
    induction Hnan as [| x r -> Hr IH]; [reflexivity | exact IH]. }
  now rewrite Hdrop.
Qed.

End ToolRuns.

(** ** Counting the outliers *)

Section OutlierCounts.
Import Py F64 Tools.






End OutlierCounts.

(** ** The added properties on concrete runs *)

Section ExtraRuns.
Import Py Agent Scenario.

(** A call with a second argument: it ends up inside the value. *)
Lemma parse_tool_call_keyword_witness :
  parse_tool_call "check_for_outliers(column_name='profit', factor=2) please"
  = ("check_for_outliers", {[ "column_name" := VStr "profit, factor=2" ]}).
Proof.
  exact (parse_tool_call_keyword "check_for_outliers" "column_name" "'profit', factor=2"
           " please" eq_refl eq_refl eq_refl eq_refl eq_refl eq_refl).
Defined.

(** A bare name, and a positional argument. *)
Lemma parse_tool_call_no_argument_witness :
  parse_tool_call " data_summary " = ("data_summary", ∅)
  /\ parse_tool_call "check_for_outliers(profit)" = ("check_for_outliers", ∅).
Proof.
  split.
  - destruct (parse_tool_call_no_argument " data_summary " (or_introl eq_refl))
      as (_ & _ & Hbare).
    exact (Hbare eq_refl).
  - destruct (parse_tool_call_no_argument "check_for_outliers(profit)" (or_intror eq_refl))
      as (Hargs & Hname & _).
    rewrite (surjective_pairing (parse_tool_call "check_for_outliers(profit)")).
    rewrite Hargs, Hname. reflexivity.
Defined.

(** [check_for_outliers] dispatched with a further argument next to
    [column_name]. *)
Lemma call_tool_passes_column_name_witness :
  @call_tool scripted "check_for_outliers" (Some 0%nat)
    {[ "column_name" := VStr "profit"; "factor" := VInt 3 ]} (start [])
  = @call_tool scripted "check_for_outliers" (Some 0%nat)
      {[ "column_name" := VStr "profit" ]} (start [])
  /\ fst (@call_tool scripted "check_for_outliers" (Some 0%nat)
            {[ "column_name" := VStr "profit"; "factor" := VInt 3 ]} (start []))
     = fst (Tools.check_for_outliers (Some 0%nat) "profit" store0).
Proof.
  destruct (@call_tool_passes_column_name scripted (Some 0%nat)
              {[ "column_name" := VStr "profit"; "factor" := VInt 3 ]}
              (VStr "profit") (start []))
    as (Hsame & Hout & _).
  - vm_compute. reflexivity.
  - split; [exact Hsame |]. rewrite Hout. vm_compute. reflexivity.
Defined.

(** A first reply that is plain text. *)
Lemma enterprise_agent_answers_without_tool_witness :
  let run := @enterprise_agent scripted "Any outliers?" (Some 0%nat) "gemini" [] "system"
               (start [says "Nothing unusual."; says "never asked"]) in
  fst run = Returned "Nothing unusual."
  /\ model_calls (log (snd run)) = 1%nat
  /\ tools_called (log (snd run)) = [].
Proof.
  destruct (@enterprise_agent_answers_without_tool scripted "Any outliers?" (Some 0%nat)
              "gemini" [] "system"
              (start [says "Nothing unusual."; says "never asked"])
              (MkResponse [] (Some "Nothing unusual."))
              (store0, [says "never asked"]))
    as (Hrun & _ & _).
  - reflexivity.
  - reflexivity.
  - cbv zeta. rewrite Hrun. repeat split; vm_compute; reflexivity.
Defined.

(** A request for a tool that does not exist. *)
Lemma agent_turn_records_unknown_tool_witness :
  fst (@agent_turn scripted (Some 0%nat) "gemini" [] "system" 0 [user_turn "Search the web."]
         (start [requests "web_search" {[ "query" := VStr "superstore" ]}]))
  = Returned (inr [user_turn "Search the web.";
                   model_turn (MkCall "web_search" {[ "query" := VStr "superstore" ]});
                   tool_turn "web_search" (error_dict "Unknown tool: web_search")]).
Proof.
  destruct (@agent_turn_records_unknown_tool scripted (Some 0%nat) "gemini" [] "system" 0%nat
              [user_turn "Search the web."]
              (start [requests "web_search" {[ "query" := VStr "superstore" ]}])
              (MkResponse [MkCall "web_search" {[ "query" := VStr "superstore" ]}] None)
              (store0, [])
              (MkCall "web_search" {[ "query" := VStr "superstore" ]}) [])
    as (evs & Hrun & _).
  - reflexivity.
  - reflexivity.
  - discriminate.
  - discriminate.
  - discriminate.
  - vm_compute. reflexivity.
  - vm_compute. reflexivity.
  - rewrite Hrun. reflexivity.
Defined.

(** A column name that is a list: the tool function raises. *)
Lemma agent_turn_isolates_tool_exception_witness :
  fst (@agent_turn scripted (Some 0%nat) "gemini" [] "system" 0 [user_turn "Any outliers?"]
         (start [requests "check_for_outliers" {[ "column_name" := VList [] ]}]))
  = Returned (inr [user_turn "Any outliers?";
                   model_turn (MkCall "check_for_outliers" {[ "column_name" := VList [] ]});
                   tool_turn "check_for_outliers"
                     (error_dict
                        "Internal tool execution error: unhashable type: 'list'")]).
Proof.
  destruct (@agent_turn_isolates_tool_exception scripted (Some 0%nat) "gemini" [] "system"
              0%nat [user_turn "Any outliers?"]
              (start [requests "check_for_outliers" {[ "column_name" := VList [] ]}])
              (MkResponse [MkCall "check_for_outliers" {[ "column_name" := VList [] ]}] None)
              (store0, [])
              (MkCall "check_for_outliers" {[ "column_name" := VList [] ]}) []
              (MkExn "TypeError" "unhashable type: 'list'"))
    as (s' & Hrun).
  - reflexivity.
  - reflexivity.
  - intros l. vm_compute. reflexivity.
  - rewrite Hrun. reflexivity.
Defined.

(** A request for a known tool with an argument called [name]. *)
Lemma agent_turn_argument_clash_witness :
  let run := @agent_turn scripted (Some 0%nat) "gemini" [] "system" 0
               [user_turn "Summarise."]
               (start [requests "data_summary" {[ "name" := VStr "data_summary" ]}]) in
  fst run
  = Returned (inr [user_turn "Summarise.";
                   model_turn (MkCall "data_summary" {[ "name" := VStr "data_summary" ]});
                   tool_turn "data_summary"
                     (error_dict
                        ("Internal tool execution error: "
                           ++ "call_tool() got multiple values for argument 'name'"))])
  /\ tools_called (log (snd run)) = [].
Proof.
  pose proof (@agent_turn_argument_clash scripted (Some 0%nat) "gemini" [] "system" 0%nat
                [user_turn "Summarise."]
                (start [requests "data_summary" {[ "name" := VStr "data_summary" ]}])
                (MkResponse [MkCall "data_summary" {[ "name" := VStr "data_summary" ]}] None)
                (store0, [])
                (MkCall "data_summary" {[ "name" := VStr "data_summary" ]}) [])
    as Hrun.
  cbv zeta in Hrun |- *. rewrite Hrun.
  - split; vm_compute; reflexivity.
  - reflexivity.
  - reflexivity.
  - left. exists (VStr "data_summary"). vm_compute. reflexivity.
Defined.

(** A direct answer that itself holds the marker. *)
Lemma two_step_direct_response_witness :
  fst (@enterprise_agent_new scripted "Any outliers?" (Some 0%nat) "gemini"
         (start [says " RESPONSE: None. RESPONSE: really "; says "never asked"]))
  = Returned (Some "None. RESPONSE: really").
Proof.
  rewrite (@two_step_direct_response scripted "Any outliers?" (Some 0%nat) "gemini"
             (start [says " RESPONSE: None. RESPONSE: really "; says "never asked"])
             (MkResponse [] (Some " RESPONSE: None. RESPONSE: really "))
             (store0, [says "never asked"])
             " None. RESPONSE: really").
  - vm_compute. reflexivity.
  - reflexivity.
  - vm_compute. reflexivity.
Defined.

(** The charts asked for without a dataset: the tool function raises. *)
Lemma two_step_tool_exception_propagates_witness :
  fst (@enterprise_agent_new scripted "Plot it." None "gemini"
         (start [says "TOOL:automated_eda"; says "never asked"]))
  = Raised (Tools.attribute_error "columns").
Proof.
  destruct (@two_step_tool_exception_propagates scripted "Plot it." None "gemini"
              (start [says "TOOL:automated_eda"; says "never asked"])
              (MkResponse [] (Some "TOOL:automated_eda"))
              (store0, [says "never asked"])
              "TOOL:automated_eda" (Tools.attribute_error "columns"))
    as (s' & evs & Hrun & _).
  - reflexivity.
  - vm_compute. reflexivity.
  - vm_compute. reflexivity.
  - intros l. vm_compute. reflexivity.
  - rewrite Hrun. reflexivity.
Defined.

(** A decision reply that carries no text. *)
Lemma two_step_reply_without_text_witness :
  fst (@enterprise_agent_new scripted "Any outliers?" (Some 0%nat) "gemini"
         (start [Returned (MkResponse [] None); says "never asked"]))
  = Raised (MkExn "AttributeError" "'NoneType' object has no attribute 'strip'").
Proof.
  rewrite (@two_step_reply_without_text scripted "Any outliers?" (Some 0%nat) "gemini"
             (start [Returned (MkResponse [] None); says "never asked"])
             (MkResponse [] None) (store0, [says "never asked"])).
  - reflexivity.
  - reflexivity.
  - reflexivity.
Defined.

(** A tool decision on a column that does not exist, then its
    interpretation. *)
Lemma two_step_tool_interpretation_witness :
  let run := @enterprise_agent_new scripted "Any outliers?" (Some 0%nat) "gemini"
               (start [says "TOOL:check_for_outliers(column_name=margin)";
                       says "There is no such column."]) in
  fst run = Returned (Some "There is no such column.")
  /\ model_calls (log (snd run)) = 2%nat.
Proof.
  pose (resp := MkResponse [] (Some "TOOL:check_for_outliers(column_name=margin)")).
  pose (w := (store0, [says "There is no such column."]) : @World scripted).
  pose (s3 := {| world := w;
                 log := [EvPrint (nl ++ "--- Step 1: Model Decision (Tool or Response) ---");
                         EvModel "gemini" (CPrompt (action_prompt "Any outliers?")) None
                           (Returned resp);
                         EvPrint ("Model Decision: "
                                    ++ "TOOL:check_for_outliers(column_name=margin)")] |}).
  destruct (@two_step_tool_interpretation scripted "Any outliers?" (Some 0%nat) "gemini"
              (start [says "TOOL:check_for_outliers(column_name=margin)";
                      says "There is no such column."])
              resp w
              "check_for_outliers(column_name=margin)"
              "check_for_outliers(column_name=margin)"
              (error_dict "Column 'margin' not found or is not numeric.")
              (snd (@call_tool_two_step scripted "check_for_outliers(column_name=margin)"
                      (Some 0%nat) s3)))
    as (Hrun & _ & _).
  - reflexivity.
  - vm_compute. reflexivity.
  - vm_compute. reflexivity.
  - apply injective_projections; [vm_compute; reflexivity | reflexivity].
  - cbv zeta. rewrite Hrun. split; vm_compute; reflexivity.
Defined.

End ExtraRuns.

Section ExtraToolRuns.
Import Py F64 Tools Scenario.

(** No dataset, and a dataset without rows. *)
Lemma data_summary_empty_input_witness :
  @data_summary plain_libraries None store0
  = (Returned (error_dict "DataFrame is None or empty."), store0)
  /\ @data_summary plain_libraries (Some 0%nat) store_no_rows
     = (Returned (error_dict "DataFrame is None or empty."), store_no_rows).
Proof.
  split.
  - apply (@data_summary_empty_input plain_libraries None store0). left. reflexivity.
  - apply (@data_summary_empty_input plain_libraries (Some 0%nat) store_no_rows).
    right. exists 0%nat, (MkFrame 0 [("sales", FloatCol [])]).
    split; [reflexivity |]. split; [reflexivity |]. left. reflexivity.
Defined.

(** A frame that has a profit column only. *)
Lemma automated_eda_missing_column_witness :
  @automated_eda plain_libraries (Some 0%nat) store_nan
  = (Returned (error_dict "Missing required columns for EDA."), store_nan).
Proof.
  apply (@automated_eda_missing_column plain_libraries 0%nat store_nan constant_with_nan
           "sales").
  - reflexivity.
  - apply (bool_decide_unpack _). vm_compute. reflexivity.
  - apply (bool_decide_unpack _). vm_compute. reflexivity.
Defined.

(** The three charts of the Superstore table. *)
Lemma automated_eda_writes_three_charts_witness :
  let st' := snd (@automated_eda plain_libraries (Some 0%nat) store0) in
  files st' !! "sales_distribution.png" = Some "histogram"
  /\ files st' !! "category_performance.png" = Some "bars"
  /\ files st' !! "discount_profit_scatter.png" = Some "scatter"
  /\ frames st' = frames store0.
Proof.
  destruct (@automated_eda_writes_three_charts plain_libraries 0%nat store0 superstore
              (FloatCol [q 10; q 20; q 30; q 40; q 1000])
              (FloatCol [q 1; q 2; q 3; q 4; q 100])
              (ObjCol [Some "Furniture"; Some "Technology"; Some "Furniture";
                       Some "Office Supplies"; None])
              (FloatCol [q 0; q 0; nan; q 0; q 0])
              "histogram" "bars" "scatter")
    as (Hrun & H1 & H2 & H3 & _).
  - reflexivity.
  - reflexivity.
  - reflexivity.
  - reflexivity.
  - reflexivity.
  - apply (bool_decide_unpack _). vm_compute. reflexivity.
  - reflexivity.
  - reflexivity.
  - reflexivity.
  - cbv zeta. split; [exact H1 |]. split; [exact H2 |]. split; [exact H3 |].
    rewrite Hrun. reflexivity.
Defined.

(** The second chart fails: the first file stays. *)
Lemma automated_eda_partial_failure_witness :
  @automated_eda failing_bars (Some 0%nat) store_failing_bars
  = (Raised (MkExn "TypeError" "no numeric data to plot"),
     {| frames := frames store_failing_bars;
        files := <["sales_distribution.png" := "histogram"]> (files store_failing_bars) |}).
Proof.
  apply (@automated_eda_partial_failure failing_bars 0%nat store_failing_bars superstore
           (FloatCol [q 10; q 20; q 30; q 40; q 1000])
           (FloatCol [q 1; q 2; q 3; q 4; q 100])
           (ObjCol [Some "Furniture"; Some "Technology"; Some "Furniture";
                    Some "Office Supplies"; None])
           (FloatCol [q 0; q 0; nan; q 0; q 0])
           "histogram" (MkExn "TypeError" "no numeric data to plot")).
  - reflexivity.
  - reflexivity.
  - reflexivity.
  - reflexivity.
  - reflexivity.
  - apply (bool_decide_unpack _). vm_compute. reflexivity.
  - reflexivity.
  - reflexivity.
Defined.

(** A label that is no column, and a column of text. *)
Lemma check_for_outliers_rejects_column_witness :
  @check_for_outliers plain_libraries (Some 0%nat) "margin" store0
  = (Returned (error_dict "Column 'margin' not found or is not numeric."), store0)
  /\ @check_for_outliers plain_libraries (Some 0%nat) "category" store0
     = (Returned (error_dict "Column 'category' not found or is not numeric."), store0).
Proof.
  split.
  - apply (@check_for_outliers_rejects_column plain_libraries 0%nat store0 superstore
             "margin"); [reflexivity |].
    left. reflexivity.
  - apply (@check_for_outliers_rejects_column plain_libraries 0%nat store0 superstore
             "category"); [reflexivity |].
    right. eexists. left. reflexivity.
Defined.

(** A column of two NaN cells. *)
Lemma check_for_outliers_all_nan_witness :
  @check_for_outliers plain_libraries (Some 0%nat) "profit" store_all_nan
  = (Returned (error_dict "Column 'profit' is empty after dropping NaN values."),
     store_all_nan).
Proof.
  apply (@check_for_outliers_all_nan plain_libraries 0%nat store_all_nan all_nan "profit"
           [nan; nan]).
  - reflexivity.
  - reflexivity.
  - repeat constructor.
Defined.

End ExtraToolRuns.
